(** * SLA engine of the helpdesk backend: business hours, pauses,
      per-ticket evaluation and dashboard aggregation.

    Shallow embedding of
      - backend/modules/sla/metrics.py     (module [Metrics])
      - backend/ti/services/metrics.py     (module [TiMetrics])
      - backend/modules/sla/calculator.py  (module [Calculator])
      - backend/modules/sla/service.py     (modules [Service] and [SlaService])
      - backend/modules/sla/routes.py      (module [Routes], pause endpoints)

    Conventions.
      - A naive [datetime] is the number of microseconds elapsed since
        midnight of proleptic Gregorian ordinal 0, so that ordering and
        subtraction of datetimes are those of [Z]; a [date] is its ordinal
        ([date.toordinal()]), a [time] the microseconds since midnight.
      - Python floats are idealised as exact rationals ([Q]); [round(x, n)]
        is rounding to n decimals, ties to even.
      - [datetime.utcnow()] is an explicit argument [now].
      - A nullable column or [Optional] value is an [option]. *)

From Stdlib Require Import ZArith QArith Qround Qminmax List String Ascii Bool Lia Lqa.
From Stdlib Require Import Permutation.
Import ListNotations.

Local Open Scope Z_scope.

(* ================================================================== *)
(** * Python's [datetime] module, as far as the engine uses it         *)
(* ================================================================== *)

Module PyTime.

Definition datetime := Z.
Definition date := Z.
Definition time := Z.
Definition timedelta := Z.

Definition us_per_second : Z := 1000000.
Definition us_per_day : Z := 86400 * us_per_second.

(** [dt.date()], [dt.time()], [datetime.combine(d, t)]. *)
Definition date_of (dt : datetime) : date := dt / us_per_day.
Definition time_of (dt : datetime) : time := dt mod us_per_day.
Definition combine (d : date) (t : time) : datetime := d * us_per_day + t.

(** [time(h, m)]. *)
Definition mk_time (h m : Z) : time := (h * 3600 + m * 60) * us_per_second.

(** [date.weekday()]: Monday is 0, Sunday is 6; ordinal 1 is a Monday. *)
Definition weekday (d : date) : Z := (d + 6) mod 7.

(** Gregorian calendar arithmetic of CPython's [datetime]. *)
Definition is_leap (y : Z) : bool :=
  (y mod 4 =? 0) && (negb (y mod 100 =? 0) || (y mod 400 =? 0)).

Definition days_before_year (y : Z) : Z :=
  let y1 := y - 1 in y1 * 365 + y1 / 4 - y1 / 100 + y1 / 400.

Definition days_in_month (y m : Z) : Z :=
  if m =? 2 then (if is_leap y then 29 else 28)
  else if (m =? 4) || (m =? 6) || (m =? 9) || (m =? 11) then 30 else 31.

Fixpoint days_before_month_aux (y : Z) (k : nat) : Z :=
  match k with
  | O => 0
  | S k' => days_before_month_aux y k' + days_in_month y (Z.of_nat k)
  end.

Definition days_before_month (y m : Z) : Z :=
  days_before_month_aux y (Z.to_nat (m - 1)).

(** [date(y, m, d).toordinal()]. *)
Definition ymd2ord (y m d : Z) : date :=
  days_before_year y + days_before_month y m + d.

(** [datetime(y, m, d, hh, mm, ss)]. *)
Definition mk_datetime (y m d hh mm ss : Z) : datetime :=
  combine (ymd2ord y m d) ((hh * 3600 + mm * 60 + ss) * us_per_second).

(** [date.year], by CPython's [_ord2ymd]: 400-, 100-, 4- and 1-year
    cycles counted from ordinal 1. *)
Definition year_of (d : date) : Z :=
  let n := d - 1 in
  let n400 := n / 146097 in
  let n := n mod 146097 in
  let n100 := n / 36524 in
  let n := n mod 36524 in
  let n4 := n / 1461 in
  let n := n mod 1461 in
  let n1 := n / 365 in
  let y := n400 * 400 + 1 + n100 * 100 + n4 * 4 + n1 in
  if (n1 =? 4) || (n100 =? 4) then y - 1 else y.

(** [td.total_seconds()] and the recurring [td.total_seconds() / 3600]. *)
Definition total_seconds (td : timedelta) : Q :=
  (inject_Z td / inject_Z us_per_second)%Q.
Definition horas (td : timedelta) : Q := (total_seconds td / 3600)%Q.

(** Powers of ten as a denominator. *)
Fixpoint pow10 (n : nat) : positive :=
  match n with
  | O => 1%positive
  | S k => (10 * pow10 k)%positive
  end.

(** Nearest integer, ties to even. *)
Definition round_half_even (x : Q) : Z :=
  let f := Qfloor x in
  match Qcompare (x - inject_Z f) (1 # 2) with
  | Lt => f
  | Gt => f + 1
  | Eq => if Z.even f then f else f + 1
  end.

(** [round(x, ndigits)]. *)
Definition py_round (x : Q) (ndigits : nat) : Q :=
  Qmake (round_half_even (x * inject_Z (Zpos (pow10 ndigits)))) (pow10 ndigits).

(** [max(a, b)] and [min(a, b)] on numbers: the first argument wins ties. *)
Definition py_max (a b : Q) : Q := Qmax a b.

End PyTime.

Import PyTime.

(* ================================================================== *)
(** * Python values shared by the modules                             *)
(* ================================================================== *)

Module Py.

(** [s in {...}] for a set of status names. *)
Definition pertence (s : string) (conjunto : list string) : bool :=
  existsb (String.eqb s) conjunto.

(** [x or padrao] on an optional string: [None] and [""] are falsy. *)
Definition str_or (x : option string) (padrao : string) : string :=
  match x with
  | Some EmptyString => padrao
  | Some s => s
  | None => padrao
  end.

(** [str.lower()].  Python lowers every cased character of Unicode,
    whatever its script; the engine applies it to priority names.  The
    function is taken as it is: the definitions that call it, and every
    statement about them, hold for each [lower]. *)
Class Minusculas := lower : string -> string.

(** On ASCII text [str.lower()] maps A-Z to a-z and leaves the rest; the
    priority names of the examples are ASCII, and the examples run with
    this function. *)
Definition lower_ascii (c : ascii) : ascii :=
  let n := nat_of_ascii c in
  if (Nat.leb 65 n && Nat.leb n 90)%bool then ascii_of_nat (n + 32) else c.

Fixpoint lower_de_ascii (s : string) : string :=
  match s with
  | EmptyString => EmptyString
  | String c r => String (lower_ascii c) (lower_de_ascii r)
  end.

#[global] Instance minusculas_ascii : Minusculas := lower_de_ascii.

(** A [dict] built by successive assignments, oldest first;
    [d.get(k)] sees the latest assignment to [k]. *)
Fixpoint dict_get {K V : Type} (eqb : K -> K -> bool) (k : K)
         (d : list (K * V)) : option V :=
  match d with
  | [] => None
  | (k', v) :: r =>
      match dict_get eqb k r with
      | Some v' => Some v'
      | None => if eqb k k' then Some v else None
      end
  end.

(** [len(l)] as an integer. *)
Definition len {A : Type} (l : list A) : Z := Z.of_nat (List.length l).

End Py.

Import Py.

(* ================================================================== *)
(** * The rows the engine reads and writes                            *)
(* ================================================================== *)

Module Modelos.

(** ti/models/chamado.py is outside the sources at hand; these are the
    columns the SLA code reads. *)
Record Chamado := {
  id : Z;
  codigo : string;
  prioridade : option string;
  status : option string;
  data_abertura : option datetime;
  data_primeira_resposta : option datetime;
  data_conclusao : option datetime;
  cancelado_em : option datetime;
  deletado_em : option datetime
}.

(** modules/sla/models.py, [ConfiguracaoSLA] (columns read by the engine).
    The two limits are NOT NULL.  [percentual_risco] is declared with the
    column default 80.0 and without NOT NULL; the engine compares a
    percentage with it, which raises [TypeError] on [None], so the rows
    covered here are those that hold a number in that column. *)
Record ConfiguracaoSLA := {
  cfg_prioridade : string;
  tempo_resposta_horas : Q;
  tempo_resolucao_horas : Q;
  percentual_risco : Q;
  cfg_ativo : bool
}.

(** ti/models/sla_pausa.py, [SLAPausa] (named [PausaSLA] in calculator.py
    and routes.py). *)
Record SLAPausa := {
  pausa_id : Z;
  chamado_id : Z;
  inicio : datetime;
  fim : option datetime;
  duracao_horas : Q;
  tipo : string;
  status_pausante : option string;
  motivo : option string
}.

(** modules/sla/models.py, [Feriado] and [HorarioComercial]. *)
Record Feriado := {
  feriado_data : date;
  feriado_ativo : bool
}.

Record HorarioComercial := {
  dia_semana : Z;
  hora_inicio : time;
  hora_fim : time;
  horario_ativo : bool
}.

(** The tables behind [self.db]; [query(...).all()] walks a table in
    list order and [.first()] takes the first matching row. *)
Record BD := {
  chamados : list Chamado;
  configuracoes : list ConfiguracaoSLA;
  pausas : list SLAPausa;
  feriados : list Feriado;
  horarios : list HorarioComercial
}.

(** ** Queries and updates on the pause table *)

(** [chamado_id == ... and fim IS NULL]. *)
Definition aberta_de (chamado_id_ : Z) (p : SLAPausa) : bool :=
  (chamado_id p =? chamado_id_)
  && (match fim p with None => true | Some _ => false end).

(** The key given to a new row by the autoincrement column. *)
Definition proximo_id (tabela : list SLAPausa) : Z :=
  1 + fold_left (fun m p => Z.max m (pausa_id p)) tabela 0.

Definition com_pausas (db : BD) (tabela : list SLAPausa) : BD :=
  {| chamados := chamados db; configuracoes := configuracoes db;
     pausas := tabela; feriados := feriados db; horarios := horarios db |}.

(** [pausa.fim = quando; pausa.duracao_horas = ...] on one row. *)
Definition fechar (quando : datetime) (p : SLAPausa) : SLAPausa :=
  {| pausa_id := pausa_id p; chamado_id := chamado_id p; inicio := inicio p;
     fim := Some quando; duracao_horas := horas (quando - inicio p)%Z;
     tipo := tipo p; status_pausante := status_pausante p; motivo := motivo p |}.

(** The update of the row returned by [.first()]. *)
Fixpoint fechar_primeira (sel : SLAPausa -> bool) (quando : datetime)
         (tabela : list SLAPausa) : list SLAPausa :=
  match tabela with
  | [] => []
  | p :: r => if sel p then fechar quando p :: r
              else p :: fechar_primeira sel quando r
  end.

End Modelos.

Import Modelos.

(* ================================================================== *)
(** * backend/modules/sla/metrics.py                                   *)
(* ================================================================== *)

Module Metrics.

Definition SLA_DATA_INICIO : datetime := mk_datetime 2026 2 16 0 0 0.
Definition HORA_INICIO : time := mk_time 8 0.
Definition HORA_FIM : time := mk_time 18 0.

Definition _eh_dia_util (d : date) : bool := weekday d <? 5.

(** Body of the [while] loop of [_horas_uteis] for the day [current]:
    the new value of [total]. *)
Definition corpo_dia (inicio fim : datetime) (current : date) (total : Q) : Q :=
  if _eh_dia_util current then
    let j_ini := Z.max (combine current HORA_INICIO) inicio in
    let j_fim := Z.min (combine current HORA_FIM) fim in
    if j_ini <? j_fim then (total + horas (j_fim - j_ini)%Z)%Q else total
  else total.

(** [while current <= fim.date(): ...; current += timedelta(days=1)].
    [fuel] bounds the number of iterations; the loop leaves through its
    own condition whenever [fuel] exceeds the number of days left. *)
Fixpoint laco_dias (fuel : nat) (inicio fim : datetime)
         (current : date) (total : Q) : Q :=
  match fuel with
  | O => total
  | S k =>
      if current <=? date_of fim
      then laco_dias k inicio fim (current + 1) (corpo_dia inicio fim current total)
      else total
  end.

Definition dias_restantes (current : date) (fim : datetime) : nat :=
  Z.to_nat (date_of fim - current + 1).

(** [_horas_uteis(inicio, fim)]. *)
Definition _horas_uteis (inicio fim : option datetime) : Q :=
  match inicio, fim with
  | Some inicio, Some fim =>
      let inicio := if inicio <? SLA_DATA_INICIO then SLA_DATA_INICIO else inicio in
      if inicio >=? fim then 0%Q
      else
        let current := date_of inicio in
        py_round (laco_dias (dias_restantes current fim) inicio fim current 0%Q) 4
  | _, _ => 0%Q
  end.


Definition STATUS_PAUSADOS : list string := ["Aguardando"%string].
Definition STATUS_ATIVOS : list string := ["Aberto"%string; "Em atendimento"%string].
Definition STATUS_FINAIS : list string := ["Concluído"%string; "Expirado"%string].

(** The [for p_ini, p_fim in pausas] loop of [_horas_uteis_com_pausas]. *)
Fixpoint soma_pausas (now inicio fim : datetime)
         (pausas : list (datetime * option datetime)) (pausado : Q) : Q :=
  match pausas with
  | [] => pausado
  | (p_ini, p_fim) :: resto =>
      let p_fim_real := match p_fim with Some f => f | None => now end in
      let i2 := Z.max p_ini inicio in
      let f2 := Z.min p_fim_real fim in
      soma_pausas now inicio fim resto
        (if i2 <? f2 then (pausado + _horas_uteis (Some i2) (Some f2))%Q else pausado)
  end.

Definition _horas_uteis_com_pausas (now inicio fim : datetime)
           (pausas : list (datetime * option datetime)) : Q * Q :=
  let bruto := _horas_uteis (Some inicio) (Some fim) in
  let pausado := soma_pausas now inicio fim pausas 0%Q in
  (py_round (py_max 0 (bruto - pausado)) 4, py_round pausado 4).

(** The inner dictionaries of [_configs]. *)
Record Cfg := {
  resposta : Q;
  resolucao : Q;
  risco : Q
}.

Definition _configs `{Minusculas} (db : BD) : list (string * Cfg) :=
  map (fun c => (lower (cfg_prioridade c),
                 {| resposta := tempo_resposta_horas c;
                    resolucao := tempo_resolucao_horas c;
                    risco := percentual_risco c |}))
      (filter cfg_ativo (configuracoes db)).

Definition _pausas (db : BD) (chamado_id_ : Z) : list (datetime * option datetime) :=
  map (fun p => (inicio p, fim p))
      (filter (fun p => chamado_id p =? chamado_id_) (pausas db)).

(** The dictionary returned by [calcular_sla_chamado]. *)
Record SlaChamado := {
  s_chamado_id : Z;
  s_codigo : string;
  s_prioridade : option string;
  s_status : string;
  pausado : bool;
  ativo : bool;
  resolucao_trabalhado_horas : Q;
  resolucao_pausado_horas : Q;
  resolucao_limite_horas : Q;
  percentual_resolucao : Q;
  resolucao_em_dia : bool;
  resolucao_em_risco : bool;
  resolucao_vencida : bool;
  resposta_trabalhado_horas : Q;
  resposta_pausado_horas : Q;
  resposta_limite_horas : Q;
  percentual_resposta : Q;
  resposta_em_dia : bool;
  resposta_em_risco : bool;
  resposta_vencida : bool
}.

(** [round(trab / lim * 100, 1) if lim > 0 else 0]. *)
Definition percentual (trab lim : Q) : Q :=
  if Qlt_le_dec 0 lim then py_round (trab / lim * 100) 1 else 0%Q.

(** [a >= b] and [a > b] on floats. *)
Definition Qgeb (a b : Q) : bool := Qle_bool b a.
Definition Qgtb (a b : Q) : bool := negb (Qle_bool a b).

(** The part of [calcular_sla_chamado] after the configuration lookup. *)
Definition avaliar (now : datetime) (chamado : Chamado) (abertura : datetime)
           (cfg : Cfg) (pausas : list (datetime * option datetime)) : SlaChamado :=
  let lim_resp := resposta cfg in
  let lim_res := resolucao cfg in
  let pct_risco := risco cfg in
  let status := str_or (status chamado) "Aberto" in
  let pausado := pertence status STATUS_PAUSADOS in
  let final := pertence status STATUS_FINAIS in
  let data_ref :=
    match data_conclusao chamado with
    | Some d => d
    | None => match cancelado_em chamado with Some d => d | None => now end
    end in
  let data_ref := if negb final then now else data_ref in
  (* Resolução *)
  let '(res_trab, res_paus) := _horas_uteis_com_pausas now abertura data_ref pausas in
  let pct_res := percentual res_trab lim_res in
  let res_venc := Qgeb res_trab lim_res && negb final in
  let res_risco := Qgeb pct_res pct_risco && negb res_venc && negb final in
  (* Resposta *)
  let '(resp_trab, resp_paus, pct_resp, resp_venc, resp_risco) :=
    match data_primeira_resposta chamado with
    | Some primeira =>
        let '(resp_trab, resp_paus) :=
          _horas_uteis_com_pausas now abertura primeira pausas in
        (resp_trab, resp_paus, percentual resp_trab lim_resp,
         Qgtb resp_trab lim_resp, false)
    | None =>
        let '(resp_trab, resp_paus) :=
          _horas_uteis_com_pausas now abertura data_ref pausas in
        let pct_resp := percentual resp_trab lim_resp in
        let resp_venc := Qgeb resp_trab lim_resp && negb final in
        (resp_trab, resp_paus, pct_resp, resp_venc,
         Qgeb pct_resp pct_risco && negb resp_venc && negb final)
    end in
  {| s_chamado_id := id chamado;
     s_codigo := codigo chamado;
     s_prioridade := prioridade chamado;
     s_status := status;
     pausado := pausado;
     ativo := pertence status STATUS_ATIVOS;
     resolucao_trabalhado_horas := res_trab;
     resolucao_pausado_horas := res_paus;
     resolucao_limite_horas := lim_res;
     percentual_resolucao := pct_res;
     resolucao_em_dia := negb res_venc && negb res_risco;
     resolucao_em_risco := res_risco;
     resolucao_vencida := res_venc;
     resposta_trabalhado_horas := resp_trab;
     resposta_pausado_horas := resp_paus;
     resposta_limite_horas := lim_resp;
     percentual_resposta := pct_resp;
     resposta_em_dia := negb resp_venc && negb resp_risco;
     resposta_em_risco := resp_risco;
     resposta_vencida := resp_venc |}.

(** [cfg = configs.get(key) or configs.get("normal")]. *)
Definition config_do_chamado `{Minusculas} (db : BD) (chamado : Chamado) : option Cfg :=
  let configs := _configs db in
  let key := lower (str_or (prioridade chamado) "normal") in
  match dict_get String.eqb key configs with
  | Some cfg => Some cfg
  | None => dict_get String.eqb "normal"%string configs
  end.

(** [ServicoMetricasSLA.calcular_sla_chamado]; [None] is Python's [None]. *)
Definition calcular_sla_chamado `{Minusculas} (db : BD) (now : datetime)
           (chamado : Chamado) : option SlaChamado :=
  match data_abertura chamado with
  | None => None
  | Some abertura =>
      if abertura <? SLA_DATA_INICIO then None
      else
        match config_do_chamado db chamado with
        | None => None
        | Some cfg => Some (avaliar now chamado abertura cfg (_pausas db (id chamado)))
        end
  end.

(** ** [obter_metricas_dashboard] *)

(** The filter of the population query, row by row.  A comparison with
    a NULL column is not true in SQL, so a row without [data_abertura]
    or without [status] is left out.  Status names are compared exactly,
    as the Python sets compare them. *)
Definition consulta (data_inicio data_fim : datetime) (c : Chamado) : bool :=
  match data_abertura c, status c with
  | Some abertura, Some st =>
      (abertura >=? SLA_DATA_INICIO)
      && (match deletado_em c with None => true | Some _ => false end)
      && (pertence st (STATUS_ATIVOS ++ STATUS_PAUSADOS)
          || (pertence st STATUS_FINAIS
              && (abertura >=? data_inicio) && (abertura <=? data_fim)))
  | _, _ => false
  end.

(** The local variables of the first loop. *)
Record Acumulado := {
  em_risco : list SlaChamado;
  vencidos : list SlaChamado;
  pausados : list SlaChamado;
  processados : list SlaChamado;
  soma_resp : Q;
  soma_res : Q;
  cnt_resp : Q;
  cnt_res : Q
}.

Definition acumulado_inicial : Acumulado :=
  {| em_risco := []; vencidos := []; pausados := []; processados := [];
     soma_resp := 0; soma_res := 0; cnt_resp := 0; cnt_res := 0 |}.

(** [if s["pausado"]: ... elif s["resolucao_vencida"]: ... elif ...]. *)
Definition classificar (s : SlaChamado) (a : Acumulado) : Acumulado :=
  if pausado s then
    {| em_risco := em_risco a; vencidos := vencidos a;
       pausados := pausados a ++ [s]; processados := processados a;
       soma_resp := soma_resp a; soma_res := soma_res a;
       cnt_resp := cnt_resp a; cnt_res := cnt_res a |}
  else if resolucao_vencida s then
    {| em_risco := em_risco a; vencidos := vencidos a ++ [s];
       pausados := pausados a; processados := processados a;
       soma_resp := soma_resp a; soma_res := soma_res a;
       cnt_resp := cnt_resp a; cnt_res := cnt_res a |}
  else if resolucao_em_risco s then
    {| em_risco := em_risco a ++ [s]; vencidos := vencidos a;
       pausados := pausados a; processados := processados a;
       soma_resp := soma_resp a; soma_res := soma_res a;
       cnt_resp := cnt_resp a; cnt_res := cnt_res a |}
  else a.

(** Wall-clock fallback: [max((b - a).total_seconds() / 3600, 0.017)]. *)
Definition horas_reais (a b : datetime) : Q :=
  py_max (horas (b - a)%Z) (17 # 1000).

(** The response average: business hours worked, or the wall-clock
    fallback when they are zero. *)
Definition somar_resposta (c : Chamado) (abertura : datetime)
           (s : SlaChamado) (a : Acumulado) : Acumulado :=
  match data_primeira_resposta c with
  | Some primeira =>
      let h := if Qgtb (resposta_trabalhado_horas s) 0
               then resposta_trabalhado_horas s
               else horas_reais abertura primeira in
      {| em_risco := em_risco a; vencidos := vencidos a;
         pausados := pausados a; processados := processados a;
         soma_resp := soma_resp a + h; soma_res := soma_res a;
         cnt_resp := cnt_resp a + 1; cnt_res := cnt_res a |}
  | None => a
  end.

(** The resolution average, over tickets whose status is "Concluído". *)
Definition somar_resolucao (c : Chamado) (abertura : datetime)
           (s : SlaChamado) (a : Acumulado) : Acumulado :=
  match status c with
  | Some st =>
      if String.eqb st "Concluído" then
        let horas_res := resolucao_trabalhado_horas s in
        let horas_res :=
          match data_conclusao c with
          | Some conclusao =>
              if Qle_bool horas_res 0 then horas_reais abertura conclusao
              else horas_res
          | None => horas_res
          end in
        if Qgtb horas_res 0 then
          {| em_risco := em_risco a; vencidos := vencidos a;
             pausados := pausados a; processados := processados a;
             soma_resp := soma_resp a; soma_res := soma_res a + horas_res;
             cnt_resp := cnt_resp a; cnt_res := cnt_res a + 1 |}
        else a
      else a
  | None => a
  end.

(** One iteration of [for c in chamados]. *)
Definition passo `{Minusculas} (db : BD) (now : datetime) (a : Acumulado) (c : Chamado)
  : Acumulado :=
  match calcular_sla_chamado db now c, data_abertura c with
  | Some s, Some abertura =>
      let a :=
        {| em_risco := em_risco a; vencidos := vencidos a;
           pausados := pausados a; processados := processados a ++ [s];
           soma_resp := soma_resp a; soma_res := soma_res a;
           cnt_resp := cnt_resp a; cnt_res := cnt_res a |} in
      somar_resolucao c abertura s (somar_resposta c abertura s (classificar s a))
  | _, _ => a
  end.

(** The values of [prio_map]. *)
Record Prio := {
  pp_prioridade : string;
  pp_total : Z;
  pp_em_risco : Z;
  pp_vencidos : Z;
  pp_pausados : Z
}.

(** [prio_map[p]["total"] += 1] and the three independent [if]s. *)
Definition contar (s : SlaChamado) (v : Prio) : Prio :=
  {| pp_prioridade := pp_prioridade v;
     pp_total := pp_total v + 1;
     pp_em_risco := if resolucao_em_risco s then pp_em_risco v + 1 else pp_em_risco v;
     pp_vencidos := if resolucao_vencida s then pp_vencidos v + 1 else pp_vencidos v;
     pp_pausados := if pausado s then pp_pausados v + 1 else pp_pausados v |}.

(** [prio_map], in insertion order: the entry of [p] is created on its
    first occurrence and updated in place. *)
Fixpoint prio_map_contar (p : string) (s : SlaChamado) (m : list Prio) : list Prio :=
  match m with
  | [] => [contar s {| pp_prioridade := p; pp_total := 0; pp_em_risco := 0;
                       pp_vencidos := 0; pp_pausados := 0 |}]
  | v :: r =>
      if String.eqb (pp_prioridade v) p then contar s v :: r
      else v :: prio_map_contar p s r
  end.

Definition prio_map (processados : list SlaChamado) : list Prio :=
  fold_left (fun m s => prio_map_contar (str_or (s_prioridade s) "Normal") s m)
            processados [].

(** [round(a / b * 100, 1) if b > 0 else 0] on counters. *)
Definition percentual_de (a b : Z) : Q :=
  if 0 <? b then py_round (inject_Z a / inject_Z b * 100) 1 else 0%Q.

Record PorPrioridade := {
  pp : Prio;
  pp_percentual_em_risco : Q;
  pp_percentual_vencidos : Q
}.

(** The payload of the dashboard.  The two formatted averages and
    [ultima_atualizacao] (strings built for display) are left out. *)
Record Dashboard := {
  total_chamados : Z;
  chamados_abertos : Z;
  chamados_em_risco : Z;
  chamados_vencidos : Z;
  chamados_pausados : Z;
  percentual_cumprimento : Q;
  percentual_em_risco : Q;
  percentual_vencidos : Q;
  tempo_medio_resposta_horas : Q;
  tempo_medio_resolucao_horas : Q;
  por_prioridade : list PorPrioridade;
  lista_em_risco : list SlaChamado;
  lista_vencidos : list SlaChamado;
  lista_pausados : list SlaChamado;
  periodo_inicio : datetime;
  periodo_fim : datetime;
  sla_data_inicio : datetime
}.

(** The period after defaulting and clamping to the cutover.  The two
    bounds arrive here naive, [_normalizar_datetime] having dropped any
    [tzinfo]. *)
Definition periodo (now : datetime) (data_inicio data_fim : option datetime)
  : datetime * datetime :=
  let data_fim := match data_fim with Some f => f | None => now end in
  let data_inicio :=
    match data_inicio with
    | None => Z.max (data_fim - 30 * us_per_day) SLA_DATA_INICIO
    | Some i => Z.max i SLA_DATA_INICIO
    end in
  (data_inicio, data_fim).

(** The rows returned by the population query. *)
Definition populacao (db : BD) (now : datetime)
           (data_inicio data_fim : option datetime) : list Chamado :=
  let '(data_inicio, data_fim) := periodo now data_inicio data_fim in
  filter (consulta data_inicio data_fim) (chamados db).

Definition acumular `{Minusculas} (db : BD) (now : datetime) (populacao : list Chamado)
  : Acumulado :=
  fold_left (passo db now) populacao acumulado_inicial.

Definition obter_metricas_dashboard `{Minusculas} (db : BD) (now : datetime)
           (data_inicio data_fim : option datetime) : Dashboard :=
  let chamados := populacao db now data_inicio data_fim in
  let a := acumular db now chamados in
  let total := len (processados a) in
  let em_dia := total - len (em_risco a) - len (vencidos a) in
  let med_resp := if Qgtb (cnt_resp a) 0 then (soma_resp a / cnt_resp a)%Q else 0%Q in
  let med_res := if Qgtb (cnt_res a) 0 then (soma_res a / cnt_res a)%Q else 0%Q in
  {| total_chamados := total;
     chamados_abertos :=
       len (filter (fun c => match status c with
                             | Some st => pertence st (STATUS_ATIVOS ++ STATUS_PAUSADOS)
                             | None => false
                             end) chamados);
     chamados_em_risco := len (em_risco a);
     chamados_vencidos := len (vencidos a);
     chamados_pausados := len (pausados a);
     percentual_cumprimento := percentual_de em_dia total;
     percentual_em_risco := percentual_de (len (em_risco a)) total;
     percentual_vencidos := percentual_de (len (vencidos a)) total;
     tempo_medio_resposta_horas := py_round med_resp 2;
     tempo_medio_resolucao_horas := py_round med_res 2;
     por_prioridade :=
       map (fun v => {| pp := v;
                        pp_percentual_em_risco := percentual_de (pp_em_risco v) (pp_total v);
                        pp_percentual_vencidos := percentual_de (pp_vencidos v) (pp_total v) |})
           (prio_map (processados a));
     lista_em_risco := firstn 50 (em_risco a);
     lista_vencidos := firstn 50 (vencidos a);
     lista_pausados := firstn 50 (pausados a);
     periodo_inicio := fst (periodo now data_inicio data_fim);
     periodo_fim := snd (periodo now data_inicio data_fim);
     sla_data_inicio := SLA_DATA_INICIO |}.

End Metrics.

(* ================================================================== *)
(** * backend/ti/services/metrics.py                                   *)
(* ================================================================== *)

Module TiMetrics.

Definition SLA_DATA_INICIO : datetime := mk_datetime 2026 2 16 0 0 0.
Definition HORA_INICIO : time := mk_time 8 0.
Definition HORA_FIM : time := mk_time 18 0.

Definition _eh_dia_util (d : date) : bool := weekday d <? 5.

Definition corpo_dia (inicio fim : datetime) (current : date) (total : Q) : Q :=
  if _eh_dia_util current then
    let j_ini := Z.max (combine current HORA_INICIO) inicio in
    let j_fim := Z.min (combine current HORA_FIM) fim in
    if j_ini <? j_fim then (total + horas (j_fim - j_ini)%Z)%Q else total
  else total.

Fixpoint laco_dias (fuel : nat) (inicio fim : datetime)
         (current : date) (total : Q) : Q :=
  match fuel with
  | O => total
  | S k =>
      if current <=? date_of fim
      then laco_dias k inicio fim (current + 1) (corpo_dia inicio fim current total)
      else total
  end.

(** The same function as in modules/sla/metrics.py, rounded to 2 decimals. *)
Definition _horas_uteis (inicio fim : option datetime) : Q :=
  match inicio, fim with
  | Some inicio, Some fim =>
      let inicio := if inicio <? SLA_DATA_INICIO then SLA_DATA_INICIO else inicio in
      if inicio >=? fim then 0%Q
      else
        let current := date_of inicio in
        py_round (laco_dias (Z.to_nat (date_of fim - current + 1))
                            inicio fim current 0%Q) 2
  | _, _ => 0%Q
  end.

End TiMetrics.

(* ================================================================== *)
(** * backend/modules/sla/calculator.py                                *)
(* ================================================================== *)

Module Calculator.

Definition STATUS_PAUSA : list string := ["Aguardando"%string; "Em análise"%string].
Definition STATUS_CONTA : list string := ["Aberto"%string; "Em atendimento"%string].
Definition STATUS_FINAL : list string := ["Concluído"%string; "Expirado"%string].

(** The two caches of a [CalculadorSLA] instance. *)
Record CalculadorSLA := {
  _cache_feriados : list (Z * list date);
  _cache_horarios : option (list (Z * (time * time)))
}.

(** [CalculadorSLA(db)] and [invalidar_cache]. *)
Definition novo : CalculadorSLA :=
  {| _cache_feriados := []; _cache_horarios := None |}.

Definition invalidar_cache (self : CalculadorSLA) : CalculadorSLA := novo.

(** Methods read the tables and update the caches of [self]. *)
Definition M (A : Type) : Type := CalculadorSLA -> A * CalculadorSLA.

Definition ret {A : Type} (a : A) : M A := fun self => (a, self).

Definition bind {A B : Type} (m : M A) (k : A -> M B) : M B :=
  fun self => let '(a, self') := m self in k a self'.

Notation "x <- m ;; k" := (bind m (fun x => k))
  (at level 61, m at next level, right associativity).

(** ** Cache and loading *)

Definition consulta_feriados (db : BD) (ano : Z) : list date :=
  map feriado_data
      (filter (fun f => feriado_ativo f && (year_of (feriado_data f) =? ano))
              (feriados db)).

Definition _carregar_feriados (db : BD) (ano : Z) : M (list date) :=
  fun self =>
    match dict_get Z.eqb ano (_cache_feriados self) with
    | Some l => (l, self)
    | None =>
        let feriados_list := consulta_feriados db ano in
        (feriados_list,
         {| _cache_feriados := _cache_feriados self ++ [(ano, feriados_list)];
            _cache_horarios := _cache_horarios self |})
    end.

Definition horario_padrao : time * time := (mk_time 8 0, mk_time 18 0).

Definition consulta_horarios (db : BD) : list (Z * (time * time)) :=
  let horarios :=
    map (fun h => (dia_semana h, (hora_inicio h, hora_fim h)))
        (filter horario_ativo (horarios db)) in
  match horarios with
  | [] => map (fun dia => (dia, horario_padrao)) [0; 1; 2; 3; 4]
  | _ => horarios
  end.

Definition _carregar_horarios_comerciais (db : BD) : M (list (Z * (time * time))) :=
  fun self =>
    match _cache_horarios self with
    | Some h => (h, self)
    | None =>
        let horarios := consulta_horarios db in
        (horarios,
         {| _cache_feriados := _cache_feriados self;
            _cache_horarios := Some horarios |})
    end.

(** ** Business days *)

Definition eh_dia_util (db : BD) (data : date) : M bool :=
  if weekday data >=? 5 then ret false
  else
    feriados <- _carregar_feriados db (year_of data) ;;
    ret (negb (existsb (Z.eqb data) feriados)).

Definition obter_horario_comercial (db : BD) (data : date) : M (option (time * time)) :=
  util <- eh_dia_util db data ;;
  if negb util then ret None
  else
    horarios <- _carregar_horarios_comerciais db ;;
    ret (Some (match dict_get Z.eqb (weekday data) horarios with
               | Some h => h
               | None => horario_padrao
               end)).

(** ** Business hours *)

(** Body of the [while] loop of [calcular_horas_uteis] once the window
    of [current_date] is known: the new value of [total_horas]. *)
Definition corpo_dia (data_inicio data_fim : datetime)
           (current_date : date) (current_time : time)
           (horario_comercial : option (time * time)) (total_horas : Q) : Q :=
  match horario_comercial with
  | Some (hora_inicio_comercial, hora_fim_comercial) =>
      let tempo_inicio :=
        if current_date =? date_of data_inicio
        then Z.max current_time hora_inicio_comercial
        else hora_inicio_comercial in
      let tempo_fim :=
        if current_date =? date_of data_fim
        then Z.min (time_of data_fim) hora_fim_comercial
        else hora_fim_comercial in
      if tempo_inicio <? tempo_fim
      then
        let dt_inicio := combine current_date tempo_inicio in
        let dt_fim := combine current_date tempo_fim in
        (total_horas + horas (dt_fim - dt_inicio)%Z)%Q
      else total_horas
  | None => total_horas
  end.

(** The [while current_date <= data_fim.date()] loop; [fuel] bounds the
    number of iterations. *)
Fixpoint laco_dias (fuel : nat) (db : BD) (data_inicio data_fim : datetime)
         (current_date : date) (current_time : time) (total_horas : Q) : M Q :=
  match fuel with
  | O => ret total_horas
  | S k =>
      if current_date <=? date_of data_fim then
        horario_comercial <- obter_horario_comercial db current_date ;;
        laco_dias k db data_inicio data_fim (current_date + 1) (mk_time 0 0)
                  (corpo_dia data_inicio data_fim current_date current_time
                             horario_comercial total_horas)
      else ret total_horas
  end.

Definition calcular_horas_uteis (db : BD) (data_inicio data_fim : datetime) : M Q :=
  if data_inicio >=? data_fim then ret 0%Q
  else
    laco_dias (Z.to_nat (date_of data_fim - date_of data_inicio + 1))
              db data_inicio data_fim (date_of data_inicio) (time_of data_inicio) 0%Q.

(** ** Pauses *)

Definition pausar_automaticamente (db : BD) (chamado_id_ : Z)
           (status_atual : string) (data_mudanca : datetime)
  : option SLAPausa * BD :=
  if negb (pertence status_atual STATUS_PAUSA) then (None, db)
  else
    match find (aberta_de chamado_id_) (pausas db) with
    | Some pausa_ativa => (Some pausa_ativa, db)
    | None =>
        let pausa :=
          {| pausa_id := proximo_id (pausas db);
             chamado_id := chamado_id_;
             inicio := data_mudanca;
             fim := None;
             duracao_horas := 0;
             tipo := "status";
             status_pausante := Some status_atual;
             motivo := Some ("Pausa automática - Status: " ++ status_atual)%string |} in
        (Some pausa, com_pausas db (pausas db ++ [pausa]))
    end.

Definition retomar_automaticamente (db : BD) (chamado_id_ : Z)
           (status_atual : string) (data_mudanca : datetime) : bool * BD :=
  if pertence status_atual STATUS_PAUSA then (false, db)
  else
    match find (aberta_de chamado_id_) (pausas db) with
    | None => (false, db)
    | Some _ =>
        (true, com_pausas db (fechar_primeira (aberta_de chamado_id_)
                                              data_mudanca (pausas db)))
    end.

(** [sum(p.duracao_horas for p in pausas if p.duracao_horas)] over the
    closed pauses of the ticket. *)
Definition calcular_tempo_pausado (db : BD) (chamado_id_ : Z) : Q :=
  fold_left Qplus
    (map duracao_horas
         (filter (fun p => negb (Qeq_bool (duracao_horas p) 0))
                 (filter (fun p => (chamado_id p =? chamado_id_)
                                   && (match fim p with Some _ => true | None => false end))
                         (pausas db))))
    0%Q.

Definition calcular_tempo_pausado_ativo (db : BD) (now : datetime)
           (chamado_id_ : Z) : Q :=
  match find (aberta_de chamado_id_) (pausas db) with
  | None => 0%Q
  | Some pausa_ativa => horas (now - inicio pausa_ativa)%Z
  end.

(** ** SLA of one ticket *)

(** A ticket without priority matches no row ([prioridade = NULL]). *)
Definition obter_configuracao_sla (db : BD) (prioridade : option string)
  : option ConfiguracaoSLA :=
  match prioridade with
  | None => None
  | Some p => find (fun c => String.eqb (cfg_prioridade c) p && cfg_ativo c)
                   (configuracoes db)
  end.

(** The dictionary returned by [calcular_sla]. *)
Record ResultadoSLA := {
  tempo_resposta_limite_horas : Q;
  tempo_resposta_decorrido_horas : Q;
  tempo_resposta_pausado_horas : Q;
  percentual_resposta : Q;
  resposta_em_risco : bool;
  resposta_vencida : bool;
  resposta_em_dia : bool;
  tempo_resolucao_limite_horas : Q;
  tempo_resolucao_decorrido_horas : Q;
  tempo_resolucao_pausado_horas : Q;
  percentual_resolucao : Q;
  resolucao_em_risco : bool;
  resolucao_vencida : bool;
  resolucao_em_dia : bool;
  pausado : bool;
  ativo : bool
}.

Definition _criar_resultado_vazio : ResultadoSLA :=
  {| tempo_resposta_limite_horas := 0;
     tempo_resposta_decorrido_horas := 0;
     tempo_resposta_pausado_horas := 0;
     percentual_resposta := 0;
     resposta_em_risco := false;
     resposta_vencida := false;
     resposta_em_dia := true;
     tempo_resolucao_limite_horas := 0;
     tempo_resolucao_decorrido_horas := 0;
     tempo_resolucao_pausado_horas := 0;
     percentual_resolucao := 0;
     resolucao_em_risco := false;
     resolucao_vencida := false;
     resolucao_em_dia := true;
     pausado := false;
     ativo := false |}.

(** What a call hands back to its caller: a value, or the [TypeError]
    of comparing [None] with a datetime. *)
Inductive Saida (A : Type) : Type :=
| Retorna (a : A)
| Levanta_TypeError.
Arguments Retorna {A} a.
Arguments Levanta_TypeError {A}.

(** [(efetivo / limite * 100) if limite > 0 else 0]. *)
Definition percentual (efetivo limite : Q) : Q :=
  if Qlt_le_dec 0 limite then (efetivo / limite * 100)%Q else 0%Q.

Definition calcular_sla (db : BD) (now : datetime) (chamado : Chamado)
  : M (Saida ResultadoSLA) :=
  match obter_configuracao_sla db (prioridade chamado) with
  | None => ret (Retorna _criar_resultado_vazio)
  | Some config =>
      let final :=
        match status chamado with
        | Some st => pertence st STATUS_FINAL
        | None => false
        end in
      let data_ref :=
        if final then
          match data_conclusao chamado with
          | Some d => d
          | None => match cancelado_em chamado with Some d => d | None => now end
          end
        else now in
      match data_abertura chamado with
      | None => ret Levanta_TypeError
      | Some abertura =>
          (* Resposta *)
          relogio_resposta <-
            match data_primeira_resposta chamado with
            | None =>
                tempo_resposta_decorrido <- calcular_horas_uteis db abertura data_ref ;;
                let tempo_resposta_pausado := calcular_tempo_pausado db (id chamado) in
                let tempo_efetivo :=
                  py_max 0 (tempo_resposta_decorrido - tempo_resposta_pausado) in
                let percentual_resposta :=
                  percentual tempo_efetivo (tempo_resposta_horas config) in
                let resposta_vencida :=
                  Qle_bool (tempo_resposta_horas config) tempo_efetivo in
                let resposta_em_risco :=
                  Qle_bool (percentual_risco config) percentual_resposta
                  && negb resposta_vencida in
                ret (tempo_resposta_decorrido, tempo_resposta_pausado,
                     percentual_resposta, resposta_em_risco, resposta_vencida,
                     negb resposta_vencida && negb resposta_em_risco)
            | Some _ => ret (0%Q, 0%Q, 0%Q, false, false, true)
            end ;;
          let '(tempo_resposta_decorrido, tempo_resposta_pausado, percentual_resposta,
                resposta_em_risco, resposta_vencida, resposta_em_dia) :=
            relogio_resposta in
          (* Resolução *)
          tempo_resolucao_decorrido <- calcular_horas_uteis db abertura data_ref ;;
          let tempo_resolucao_pausado := calcular_tempo_pausado db (id chamado) in
          let tempo_efetivo_resolucao :=
            py_max 0 (tempo_resolucao_decorrido - tempo_resolucao_pausado) in
          let percentual_resolucao :=
            percentual tempo_efetivo_resolucao (tempo_resolucao_horas config) in
          let '(resolucao_vencida, resolucao_em_risco, resolucao_em_dia) :=
            if negb final then
              let resolucao_vencida :=
                Qle_bool (tempo_resolucao_horas config) tempo_efetivo_resolucao in
              let resolucao_em_risco :=
                Qle_bool (percentual_risco config) percentual_resolucao
                && negb resolucao_vencida in
              (resolucao_vencida, resolucao_em_risco,
               negb resolucao_vencida && negb resolucao_em_risco)
            else (false, false, true) in
          ret (Retorna
            {| tempo_resposta_limite_horas := tempo_resposta_horas config;
               tempo_resposta_decorrido_horas := py_round tempo_resposta_decorrido 2;
               tempo_resposta_pausado_horas := py_round tempo_resposta_pausado 2;
               percentual_resposta := py_round percentual_resposta 2;
               resposta_em_risco := resposta_em_risco;
               resposta_vencida := resposta_vencida;
               resposta_em_dia := resposta_em_dia;
               tempo_resolucao_limite_horas := tempo_resolucao_horas config;
               tempo_resolucao_decorrido_horas := py_round tempo_resolucao_decorrido 2;
               tempo_resolucao_pausado_horas := py_round tempo_resolucao_pausado 2;
               percentual_resolucao := py_round percentual_resolucao 2;
               resolucao_em_risco := resolucao_em_risco;
               resolucao_vencida := resolucao_vencida;
               resolucao_em_dia := resolucao_em_dia;
               pausado := match status chamado with
                          | Some st => pertence st STATUS_PAUSA
                          | None => false
                          end;
               ativo := match status chamado with
                        | Some st => pertence st STATUS_CONTA
                        | None => false
                        end |})
      end
  end.

End Calculator.

(* ================================================================== *)
(** * backend/modules/sla/service.py                                   *)
(* ================================================================== *)

Module Service.

(** [SlaService.pausar_sla_chamado]: the returned flag and the table
    after the call.  [sla_pausa.chamado_id] is a foreign key to
    [chamado.id] (ti/models/sla_pausa.py): for an id without a ticket row
    [commit()] refuses the new pause and raises, and [except Exception]
    then returns [False]; the table is as it was.  The other branch
    inserts nothing. *)
Definition pausar_sla_chamado (db : BD) (now : datetime)
           (chamado_id_ : Z) (status : string) : bool * BD :=
  let STATUS_PAUSADOS := ["Aguardando"%string] in
  if pertence status STATUS_PAUSADOS then
    match find (aberta_de chamado_id_) (pausas db) with
    | None =>
        if existsb (fun c => id c =? chamado_id_) (chamados db) then
          let nova :=
            {| pausa_id := proximo_id (pausas db);
               chamado_id := chamado_id_;
               inicio := now;
               fim := None;
               duracao_horas := 0;
               tipo := "status";
               status_pausante := Some status;
               motivo := Some ("Pausa automática - " ++ status)%string |} in
          (true, com_pausas db (pausas db ++ [nova]))
        else (false, db)
    | Some _ => (false, db)
    end
  else
    let abertas := filter (aberta_de chamado_id_) (pausas db) in
    (negb (match abertas with [] => true | _ => false end),
     com_pausas db
       (map (fun p => if aberta_de chamado_id_ p
                      then fechar now p else p)
            (pausas db))).

End Service.

(* ================================================================== *)
(** * backend/modules/sla/routes.py: the pause endpoints               *)
(* ================================================================== *)

Module Routes.

(** The HTTP outcome of an endpoint. *)
Inductive Resposta (A : Type) : Type :=
| Ok (a : A)
| HTTP_404
| HTTP_400.
Arguments Ok {A} a.
Arguments HTTP_404 {A}.
Arguments HTTP_400 {A}.

(** [POST /pausa]: "Cria pausa manual de SLA". *)
Definition criar_pausa (db : BD) (now : datetime) (chamado_id_ : Z)
           (motivo_ : option string) : Resposta SLAPausa * BD :=
  match find (fun c => id c =? chamado_id_) (chamados db) with
  | None => (HTTP_404, db)
  | Some _ =>
      let db_pausa :=
        {| pausa_id := proximo_id (pausas db);
           chamado_id := chamado_id_;
           inicio := now;
           fim := None;
           duracao_horas := 0;
           tipo := "manual";
           status_pausante := None;
           motivo := motivo_ |} in
      (Ok db_pausa, com_pausas db (pausas db ++ [db_pausa]))
  end.

(** [POST /pausa/{pausa_id}/retomar]. *)
Definition retomar_pausa (db : BD) (now : datetime) (pausa_id_ : Z)
  : Resposta SLAPausa * BD :=
  match find (fun p => pausa_id p =? pausa_id_) (pausas db) with
  | None => (HTTP_404, db)
  | Some pausa =>
      match fim pausa with
      | Some _ => (HTTP_400, db)
      | None =>
          (Ok (fechar now pausa),
           com_pausas db
             (fechar_primeira (fun p => pausa_id p =? pausa_id_)
                                         now (pausas db)))
      end
  end.

(** [DELETE /pausa/{pausa_id}]. *)
Fixpoint remover_primeira (sel : SLAPausa -> bool) (tabela : list SLAPausa)
  : list SLAPausa :=
  match tabela with
  | [] => []
  | p :: r => if sel p then r else p :: remover_primeira sel r
  end.

Definition deletar_pausa (db : BD) (pausa_id_ : Z) : Resposta unit * BD :=
  match find (fun p => pausa_id p =? pausa_id_) (pausas db) with
  | None => (HTTP_404, db)
  | Some _ =>
      (Ok tt, com_pausas db
                (remover_primeira (fun p => pausa_id p =? pausa_id_) (pausas db)))
  end.

End Routes.

(* ================================================================== *)
(** * The per-ticket lookup of service.py                              *)
(* ================================================================== *)

Module SlaService.

(** [SlaService.calcular_sla_chamado(chamado_id)], called by
    [GET /api/sla/chamado/{chamado_id}] of main.py. *)
Definition calcular_sla_chamado `{Minusculas} (db : BD) (now : datetime) (chamado_id_ : Z)
  : option Metrics.SlaChamado :=
  match find (fun c => id c =? chamado_id_) (chamados db) with
  | None => None
  | Some chamado => Metrics.calcular_sla_chamado db now chamado
  end.

End SlaService.

(* ================================================================== *)
(** * Vocabulary of the statements                                     *)
(* ================================================================== *)

(** Values with at most [n] decimals. *)
Definition na_grade (n : nat) (x : Q) : Prop := exists z : Z, x == z # pow10 n.

(** The hours a single day adds. *)
Definition contribuicao (inicio fim : datetime) (d : date) : Q :=
  Metrics.corpo_dia inicio fim d 0.

(** Sum of [f] over the [n] days that start at [d]. *)
Fixpoint soma_dias (f : date -> Q) (d : date) (n : nat) : Q :=
  match n with
  | O => 0
  | S k => f d + soma_dias f (d + 1) k
  end.

(** ** The calendar of calculator.py, read straight from the tables *)

(** The caches of a calculator hold what the tables hold. *)
Definition coerente (db : BD) (self : Calculator.CalculadorSLA) : Prop :=
  (forall ano l, dict_get Z.eqb ano (Calculator._cache_feriados self) = Some l ->
                 l = Calculator.consulta_feriados db ano)
  /\ (forall h, Calculator._cache_horarios self = Some h ->
                h = Calculator.consulta_horarios db).

(** [d] is the date of an active row of the holiday table. *)
Definition feriado_ativo_em (db : BD) (d : date) : Prop :=
  exists f, In f (feriados db) /\ feriado_ativo f = true /\ feriado_data f = d.

Definition dia_util (db : BD) (d : date) : bool :=
  negb (weekday d >=? 5)
  && negb (existsb (Z.eqb d) (Calculator.consulta_feriados db (year_of d))).

Definition janela (db : BD) (d : date) : option (time * time) :=
  if dia_util db d
  then Some (match dict_get Z.eqb (weekday d) (Calculator.consulta_horarios db) with
             | Some h => h
             | None => Calculator.horario_padrao
             end)
  else None.

(** The hours a single day adds in calculator.py. *)
Definition contribuicao_calc (db : BD) (data_inicio data_fim : datetime) (d : date) : Q :=
  Calculator.corpo_dia data_inicio data_fim d (time_of data_inicio) (janela db d) 0.

(** ** Tables used in the examples *)

(** No row at all: the calculator falls back to 08:00-18:00, Monday to Friday. *)
Definition bd_vazio : BD :=
  {| chamados := []; configuracoes := []; pausas := []; feriados := []; horarios := [] |}.

(** Good Friday 2026 (2026-04-03) as the only active holiday. *)
Definition bd_sexta_santa : BD :=
  {| chamados := []; configuracoes := []; pausas := [];
     feriados := [ {| feriado_data := ymd2ord 2026 4 3; feriado_ativo := true |} ];
     horarios := [] |}.

(** ** Classification *)

(** Exactly one of three flags is set. *)
Definition exatamente_um (a b c : bool) : Prop :=
  (a = true /\ b = false /\ c = false)
  \/ (a = false /\ b = true /\ c = false)
  \/ (a = false /\ b = false /\ c = true).

(** Priority "Alta": response within 2 h, resolution within 8 h, risk at 75 %. *)
Definition bd_alta : BD :=
  {| chamados := [];
     configuracoes :=
       [ {| cfg_prioridade := "Alta"; tempo_resposta_horas := 2;
            tempo_resolucao_horas := 8; percentual_risco := 75; cfg_ativo := true |} ];
     pausas := []; feriados := []; horarios := [] |}.

(** A ticket opened on Monday 2026-02-16 at 09:00, answered at 12:00 and
    concluded at 13:00 the same day. *)
Definition chamado_concluido : Chamado :=
  {| id := 1; codigo := "TI-0001"; prioridade := Some "Alta"%string;
     status := Some "Concluído"%string;
     data_abertura := Some (mk_datetime 2026 2 16 9 0 0);
     data_primeira_resposta := Some (mk_datetime 2026 2 16 12 0 0);
     data_conclusao := Some (mk_datetime 2026 2 16 13 0 0);
     cancelado_em := None; deletado_em := None |}.

(** The ticket above if it had been concluded without a first response. *)
Definition chamado_concluido_sem_resposta : Chamado :=
  {| id := 1; codigo := "TI-0001"; prioridade := Some "Alta"%string;
     status := Some "Concluído"%string;
     data_abertura := Some (mk_datetime 2026 2 16 9 0 0);
     data_primeira_resposta := None;
     data_conclusao := Some (mk_datetime 2026 2 16 13 0 0);
     cancelado_em := None; deletado_em := None |}.

(** ** The clocks of calculator.py *)

(** [data_ref] of [calcular_sla]. *)
Definition referencia (now : datetime) (chamado : Chamado) : datetime :=
  if match status chamado with
     | Some st => pertence st Calculator.STATUS_FINAL
     | None => false
     end
  then match data_conclusao chamado with
       | Some d => d
       | None => match cancelado_em chamado with Some d => d | None => now end
       end
  else now.

(** The effective hours of a clock, [max(0, decorrido - pausado)], with
    [decorrido] as a calculator in state [self] computes it. *)
Definition tempo_efetivo (db : BD) (now : datetime) (chamado : Chamado)
           (abertura : datetime) (self : Calculator.CalculadorSLA) : Q :=
  py_max 0 (fst (Calculator.calcular_horas_uteis db abertura (referencia now chamado) self)
            - Calculator.calcular_tempo_pausado db (id chamado)).

(** ** The pause list of a ticket, later on *)

(** What the pause list of a ticket can become from instant [t] on: an
    open pause is closed at or after [t], or a pause that starts at or
    after [t] is appended; any number of times. *)
Inductive evolui (t : datetime)
  : list (datetime * option datetime) -> list (datetime * option datetime) -> Prop :=
| evolui_igual (l : list (datetime * option datetime)) : evolui t l l
| evolui_fecha (l1 l2 : list (datetime * option datetime)) (p_ini q : datetime) :
    t <= q ->
    evolui t (l1 ++ (p_ini, None) :: l2) (l1 ++ (p_ini, Some q) :: l2)
| evolui_nova (l : list (datetime * option datetime))
              (p_ini : datetime) (p_fim : option datetime) :
    t <= p_ini -> evolui t l (l ++ [(p_ini, p_fim)])
| evolui_trans (l1 l2 l3 : list (datetime * option datetime)) :
    evolui t l1 l2 -> evolui t l2 l3 -> evolui t l1 l3.

(** The ticket above while still in progress, before it was concluded. *)
Definition chamado_em_atendimento : Chamado :=
  {| id := 1; codigo := "TI-0001"; prioridade := Some "Alta"%string;
     status := Some "Em atendimento"%string;
     data_abertura := Some (mk_datetime 2026 2 16 9 0 0);
     data_primeira_resposta := Some (mk_datetime 2026 2 16 12 0 0);
     data_conclusao := None;
     cancelado_em := None; deletado_em := None |}.

(** ** Results without data *)

(** Every numeric field is zero and no risk or breach flag is set. *)
Definition sem_dados (r : Calculator.ResultadoSLA) : Prop :=
  Calculator.tempo_resposta_limite_horas r == 0
  /\ Calculator.tempo_resposta_decorrido_horas r == 0
  /\ Calculator.tempo_resposta_pausado_horas r == 0
  /\ Calculator.percentual_resposta r == 0
  /\ Calculator.tempo_resolucao_limite_horas r == 0
  /\ Calculator.tempo_resolucao_decorrido_horas r == 0
  /\ Calculator.tempo_resolucao_pausado_horas r == 0
  /\ Calculator.percentual_resolucao r == 0
  /\ Calculator.resposta_em_risco r = false
  /\ Calculator.resposta_vencida r = false
  /\ Calculator.resolucao_em_risco r = false
  /\ Calculator.resolucao_vencida r = false.

(** ** The ticket table *)

Definition com_chamados (db : BD) (tabela : list Chamado) : BD :=
  {| chamados := tabela; configuracoes := configuracoes db;
     pausas := pausas db; feriados := feriados db; horarios := horarios db |}.

(** A ticket opened on Tuesday 2026-02-10, before the cutover. *)
Definition chamado_antigo : Chamado :=
  {| id := 7; codigo := "TI-0007"; prioridade := Some "Alta"%string;
     status := Some "Aberto"%string;
     data_abertura := Some (mk_datetime 2026 2 10 9 0 0);
     data_primeira_resposta := None; data_conclusao := None;
     cancelado_em := None; deletado_em := None |}.

(** A ticket whose priority has no configuration row in [bd_alta]. *)
Definition chamado_sem_config : Chamado :=
  {| id := 8; codigo := "TI-0008"; prioridade := Some "Baixa"%string;
     status := Some "Aberto"%string;
     data_abertura := Some (mk_datetime 2026 2 16 9 0 0);
     data_primeira_resposta := None; data_conclusao := None;
     cancelado_em := None; deletado_em := None |}.

(** ** Open pauses *)

(** Number of pauses of a ticket with [fim = NULL]. *)
Definition abertas (chamado_id_ : Z) (db : BD) : nat :=
  List.length (filter (aberta_de chamado_id_) (pausas db)).

Definition no_maximo_uma_aberta (db : BD) : Prop :=
  forall chamado_id_, (abertas chamado_id_ db <= 1)%nat.

(** The calls that open or close pauses with a look at the pauses already
    open: the two status hooks of calculator.py, the status hook of
    service.py, and the resume and delete endpoints of routes.py. *)
Inductive Operacao : Type :=
| PausarAutomaticamente (chamado_id_ : Z) (status_atual : string) (data_mudanca : datetime)
| RetomarAutomaticamente (chamado_id_ : Z) (status_atual : string) (data_mudanca : datetime)
| PausarSlaChamado (chamado_id_ : Z) (status : string) (now : datetime)
| RetomarPausa (pausa_id_ : Z) (now : datetime)
| DeletarPausa (pausa_id_ : Z).

Definition executar (db : BD) (op : Operacao) : BD :=
  match op with
  | PausarAutomaticamente i st t => snd (Calculator.pausar_automaticamente db i st t)
  | RetomarAutomaticamente i st t => snd (Calculator.retomar_automaticamente db i st t)
  | PausarSlaChamado i st t => snd (Service.pausar_sla_chamado db t i st)
  | RetomarPausa i t => snd (Routes.retomar_pausa db t i)
  | DeletarPausa i => snd (Routes.deletar_pausa db i)
  end.

(** Ticket 1 alone, without pauses. *)
Definition bd_um_chamado : BD :=
  {| chamados := [chamado_em_atendimento]; configuracoes := [];
     pausas := []; feriados := []; horarios := [] |}.

(** ** Buckets of the dashboard *)

(** The four buckets, decided in the order paused, breached, at-risk,
    else on-time. *)
Inductive Balde : Type := Pausado | Vencido | EmRisco | EmDia.

Definition balde (s : Metrics.SlaChamado) : Balde :=
  if Metrics.pausado s then Pausado
  else if Metrics.resolucao_vencida s then Vencido
  else if Metrics.resolucao_em_risco s then EmRisco
  else EmDia.

Definition balde_eqb (a b : Balde) : bool :=
  match a, b with
  | Pausado, Pausado | Vencido, Vencido | EmRisco, EmRisco | EmDia, EmDia => true
  | _, _ => false
  end.

Definition no_balde (b : Balde) (s : Metrics.SlaChamado) : bool := balde_eqb (balde s) b.

(** Number of elements of [l] that satisfy [f]. *)
Definition conta {A : Type} (f : A -> bool) (l : list A) : Z := len (filter f l).

(** The results of the tickets of a population that have one. *)
Definition avaliados `{Minusculas} (db : BD) (now : datetime) (populacao : list Chamado)
  : list Metrics.SlaChamado :=
  flat_map (fun c => match Metrics.calcular_sla_chamado db now c with
                     | Some s => [s]
                     | None => []
                     end) populacao.

(** The key of a result in the per-priority breakdown. *)
Definition chave_prioridade (s : Metrics.SlaChamado) : string :=
  str_or (Metrics.s_prioridade s) "Normal".

Definition da_prioridade (p : string) (s : Metrics.SlaChamado) : bool :=
  String.eqb (chave_prioridade s) p.

(** The entry of [p] in [prio_map]. *)
Definition entrada (p : string) (m : list Metrics.Prio) : option Metrics.Prio :=
  find (fun v => String.eqb (Metrics.pp_prioridade v) p) m.

(** A ticket waiting on the requester ("Aguardando") since Tuesday, after
    a full Monday of work: paused, and past its 8 hours. *)
Definition chamado_aguardando : Chamado :=
  {| id := 2; codigo := "TI-0002"; prioridade := Some "Alta"%string;
     status := Some "Aguardando"%string;
     data_abertura := Some (mk_datetime 2026 2 16 8 0 0);
     data_primeira_resposta := Some (mk_datetime 2026 2 16 9 0 0);
     data_conclusao := None; cancelado_em := None; deletado_em := None |}.

Definition bd_aguardando : BD :=
  {| chamados := [chamado_aguardando];
     configuracoes :=
       [ {| cfg_prioridade := "Alta"; tempo_resposta_horas := 2;
            tempo_resolucao_horas := 8; percentual_risco := 75; cfg_ativo := true |} ];
     pausas :=
       [ {| pausa_id := 1; chamado_id := 2; inicio := mk_datetime 2026 2 17 8 0 0;
            fim := None; duracao_horas := 0; tipo := "status";
            status_pausante := Some "Aguardando"%string;
            motivo := Some "Pausa automática - Aguardando"%string |} ];
     feriados := []; horarios := [] |}.

(** The entry [prio_map] creates for a priority seen for the first time. *)
Definition prio_zero (p : string) : Metrics.Prio :=
  {| Metrics.pp_prioridade := p; Metrics.pp_total := 0; Metrics.pp_em_risco := 0;
     Metrics.pp_vencidos := 0; Metrics.pp_pausados := 0 |}.

(** ** Business time in whole microseconds *)

(** The business microseconds of day [d] inside [inicio, fim]. *)
Definition us_do_dia (inicio fim : datetime) (d : date) : Z :=
  if Metrics._eh_dia_util d
  then Z.max 0 (Z.min (combine d Metrics.HORA_FIM) fim
                - Z.max (combine d Metrics.HORA_INICIO) inicio)
  else 0.

Fixpoint soma_us (f : date -> Z) (d : date) (n : nat) : Z :=
  match n with
  | O => 0
  | S k => f d + soma_us f (d + 1) k
  end.

(** Sum of [f] over the dates from [de] to [ate], both included. *)
Definition soma_entre (f : date -> Z) (de ate : date) : Z :=
  soma_us f de (Z.to_nat (ate - de + 1)).

(** The business microseconds between two instants. *)
Definition us_entre (inicio fim : datetime) : Z :=
  soma_entre (us_do_dia inicio fim) (date_of inicio) (date_of fim).

(** The same after the start is moved to the cutover, as [_horas_uteis]
    does. *)
Definition us_uteis (inicio fim : datetime) : Z :=
  us_entre (Z.max inicio Metrics.SLA_DATA_INICIO) fim.

(** The business microseconds of the pauses, pause by pause, as
    [_horas_uteis_com_pausas] intersects them with [inicio, fim]. *)
Fixpoint us_pausas (now inicio fim : datetime)
         (pausas : list (datetime * option datetime)) : Z :=
  match pausas with
  | [] => 0
  | (p_ini, p_fim) :: resto =>
      let p_fim_real := match p_fim with Some f => f | None => now end in
      let i2 := Z.max p_ini inicio in
      let f2 := Z.min p_fim_real fim in
      (if i2 <? f2 then us_uteis i2 f2 else 0) + us_pausas now inicio fim resto
  end.

(** Pauses in chronological order, each one over before the next starts. *)
Fixpoint sem_sobreposicao (now : datetime)
         (pausas : list (datetime * option datetime)) : Prop :=
  match pausas with
  | [] => True
  | (p_ini, p_fim) :: resto =>
      (forall q, In q resto ->
                 match p_fim with Some f => f | None => now end <= fst q)
      /\ sem_sobreposicao now resto
  end.

(** ** More tickets and tables for the examples *)

(** A ticket under analysis ("Em análise", a pause status of
    calculator.py), opened after the cutover. *)
Definition chamado_em_analise : Chamado :=
  {| id := 3; codigo := "TI-0003"; prioridade := Some "Alta"%string;
     status := Some "Em análise"%string;
     data_abertura := Some (mk_datetime 2026 2 16 9 0 0);
     data_primeira_resposta := None; data_conclusao := None;
     cancelado_em := None; deletado_em := None |}.

(** The rows the population query can return for some period. *)
Definition visivel (c : Chamado) : bool :=
  match data_abertura c, status c with
  | Some abertura, Some st =>
      (abertura >=? Metrics.SLA_DATA_INICIO)
      && (match deletado_em c with None => true | Some _ => false end)
      && pertence st (Metrics.STATUS_ATIVOS ++ Metrics.STATUS_PAUSADOS
                      ++ Metrics.STATUS_FINAIS)
  | _, _ => false
  end.

(** The rows counted in [chamados_abertos]. *)
Definition em_aberto (c : Chamado) : bool :=
  match data_abertura c, status c with
  | Some abertura, Some st =>
      (abertura >=? Metrics.SLA_DATA_INICIO)
      && (match deletado_em c with None => true | Some _ => false end)
      && pertence st (Metrics.STATUS_ATIVOS ++ Metrics.STATUS_PAUSADOS)
  | _, _ => false
  end.

(** Two open tickets and a concluded one. *)
Definition bd_tres_chamados : BD :=
  {| chamados := [chamado_em_atendimento; chamado_aguardando; chamado_concluido];
     configuracoes :=
       [ {| cfg_prioridade := "Alta"; tempo_resposta_horas := 2;
            tempo_resolucao_horas := 8; percentual_risco := 75; cfg_ativo := true |} ];
     pausas := []; feriados := []; horarios := [] |}.


(** ** The holiday table *)

Definition com_feriados (db : BD) (tabela : list Feriado) : BD :=
  {| chamados := chamados db; configuracoes := configuracoes db;
     pausas := pausas db; feriados := tabela; horarios := horarios db |}.

(** ** Histories of status changes *)

(** The pauses of a ticket are in chronological order up to instant [t]:
    every pause started by [t], a closed pause ended by [t] and before the
    later ones start, and only the last pause may be open. *)
Fixpoint cronologica (t : datetime) (l : list (datetime * option datetime)) : Prop :=
  match l with
  | [] => True
  | (p_ini, p_fim) :: resto =>
      p_ini <= t
      /\ match p_fim with
         | Some f => f <= t /\ (forall q, In q resto -> f <= fst q) /\ cronologica t resto
         | None => resto = []
         end
  end.

(** A status change as ti/api/chamados.py reports it to the hook: the
    instant of the call, the ticket and its new status. *)
Definition Mudanca : Type := datetime * Z * string.

(** The pause table after the hook has been called for each change. *)
Definition historico (db : BD) (mudancas : list Mudanca) : BD :=
  fold_left (fun db m => snd (Service.pausar_sla_chamado db (fst (fst m)) (snd (fst m)) (snd m)))
            mudancas db.

(** The changes come at instants that do not go back, from [t] on. *)
Fixpoint em_ordem (t : datetime) (mudancas : list Mudanca) : Prop :=
  match mudancas with
  | [] => True
  | m :: resto => t <= fst (fst m) /\ em_ordem (fst (fst m)) resto
  end.

Definition ultimo_instante (t : datetime) (mudancas : list Mudanca) : datetime :=
  fold_left (fun _ m => fst (fst m)) mudancas t.

(* ================================================================== *)
(** * Facts about dates, hours and rounding                            *)
(* ================================================================== *)

Ltac datas :=
  unfold date_of, time_of, combine, mk_time, us_per_day, us_per_second in *;
  Z.div_mod_to_equations; lia.

Lemma date_of_unique (d : date) (dt : datetime) :
  combine d 0 <= dt < combine (d + 1) 0 -> date_of dt = d.
Proof. intros H. datas. Qed.

Lemma date_of_bounds (dt : datetime) :
  combine (date_of dt) 0 <= dt < combine (date_of dt + 1) 0.
Proof. datas. Qed.

Lemma combine_date_time (dt : datetime) : combine (date_of dt) (time_of dt) = dt.
Proof. datas. Qed.

Lemma time_of_bounds (dt : datetime) : 0 <= time_of dt < us_per_day.
Proof. datas. Qed.

Lemma horas_zero : horas 0 == 0.
Proof. reflexivity. Qed.

Lemma horas_nonneg (td : timedelta) : 0 <= td -> (0 <= horas td)%Q.
Proof.
  intros H. unfold horas, total_seconds, us_per_second.
  apply Qle_shift_div_l; [reflexivity|]. apply Qle_shift_div_l; [reflexivity|].
  unfold Qle; simpl. lia.
Qed.

Lemma horas_pos (td : timedelta) : 0 < td -> (0 < horas td)%Q.
Proof.
  intros H. unfold horas, total_seconds, us_per_second.
  apply Qlt_shift_div_l; [reflexivity|]. apply Qlt_shift_div_l; [reflexivity|].
  unfold Qlt; simpl. lia.
Qed.

Lemma horas_plus (a b : timedelta) : horas (a + b) == horas a + horas b.
Proof.
  unfold horas, total_seconds. rewrite inject_Z_plus. field.
  unfold us_per_second. discriminate.
Qed.

Lemma round_half_even_comp (x y : Q) :
  x == y -> round_half_even x = round_half_even y.
Proof.
  intros E. unfold round_half_even.
  rewrite (Qfloor_comp _ _ E).
  assert (C : (x - inject_Z (Qfloor y) ?= 1 # 2)%Q = (y - inject_Z (Qfloor y) ?= 1 # 2)%Q).
  { apply Qcompare_comp; [rewrite E|]; reflexivity. }
  now rewrite C.
Qed.

Lemma round_half_even_inject (z : Z) : round_half_even (inject_Z z) = z.
Proof.
  unfold round_half_even. rewrite Qfloor_Z.
  assert (C : (inject_Z z - inject_Z z ?= 1 # 2)%Q = Lt).
  { rewrite <- Qlt_alt. assert (E : inject_Z z - inject_Z z == 0) by ring.
    rewrite E. reflexivity. }
  now rewrite C.
Qed.

Lemma round_half_even_floor (x : Q) :
  Qfloor x <= round_half_even x <= Qfloor x + 1.
Proof.
  unfold round_half_even.
  destruct (x - inject_Z (Qfloor x) ?= 1 # 2)%Q; [destruct (Z.even _)| |]; lia.
Qed.

Lemma py_round_comp (x y : Q) (n : nat) : x == y -> py_round x n = py_round y n.
Proof.
  intros E. unfold py_round. f_equal. apply round_half_even_comp. now rewrite E.
Qed.

Lemma py_round_na_grade (x : Q) (n : nat) : na_grade n (py_round x n).
Proof. eexists. unfold py_round. reflexivity. Qed.

Lemma py_round_grade (x : Q) (n : nat) : na_grade n x -> py_round x n == x.
Proof.
  intros [z E]. rewrite E at 2. unfold py_round.
  assert (R : x * inject_Z (Z.pos (pow10 n)) == inject_Z z).
  { rewrite E. unfold Qeq, Qmult, inject_Z; simpl. lia. }
  rewrite (round_half_even_comp _ _ R), round_half_even_inject. reflexivity.
Qed.

Lemma na_grade_zero (n : nat) : na_grade n 0.
Proof. exists 0. reflexivity. Qed.

Lemma na_grade_comp (n : nat) (x y : Q) : x == y -> na_grade n x -> na_grade n y.
Proof. intros E [z H]. exists z. now rewrite <- E. Qed.

Lemma na_grade_plus (n : nat) (x y : Q) :
  na_grade n x -> na_grade n y -> na_grade n (x + y).
Proof.
  intros [a Ha] [b Hb]. exists (a + b). rewrite Ha, Hb.
  unfold Qeq, Qplus; simpl. nia.
Qed.

Lemma na_grade_minus (n : nat) (x y : Q) :
  na_grade n x -> na_grade n y -> na_grade n (x - y).
Proof.
  intros [a Ha] [b Hb]. exists (a - b). rewrite Ha, Hb.
  unfold Qeq, Qminus, Qplus, Qopp; simpl. nia.
Qed.

Lemma na_grade_max (n : nat) (x y : Q) :
  na_grade n x -> na_grade n y -> na_grade n (py_max x y).
Proof.
  intros Hx Hy. unfold py_max.
  destruct (Q.max_spec x y) as [[_ E]|[_ E]]; eapply na_grade_comp;
    try (symmetry; exact E); assumption.
Qed.

(** The floor of the subtraction, as [max(0, b - p)] computes it. *)
Lemma py_max_floor (b p : Q) : py_max 0 (b - p) + p == Qmax b p.
Proof.
  unfold py_max.
  destruct (Q.max_spec 0 (b - p)) as [[L E]|[L E]];
  destruct (Q.max_spec b p) as [[L' E']|[L' E']]; rewrite E, E'; lra.
Qed.

Lemma py_max_nonneg (x : Q) : (0 <= py_max 0 x)%Q.
Proof. unfold py_max. apply Q.le_max_l. Qed.

(** Rounding never goes below a whole number already reached. *)
Lemma py_round_ge_Z (x : Q) (n : nat) (k : Z) :
  (inject_Z k <= x)%Q -> (inject_Z k <= py_round x n)%Q.
Proof.
  intros H. unfold py_round.
  set (p := pow10 n).
  assert (F : k * Z.pos p <= Qfloor (x * inject_Z (Z.pos p))).
  { rewrite <- (Qfloor_Z (k * Z.pos p)). apply Qfloor_resp_le.
    rewrite inject_Z_mult. apply Qmult_le_compat_r; [exact H|].
    unfold Qle; simpl; lia. }
  pose proof (round_half_even_floor (x * inject_Z (Z.pos p))) as [L _].
  change (k * Z.pos p <= round_half_even (x * inject_Z (Z.pos p)) * 1). lia.
Qed.

(** Rounding keeps the order. *)
Lemma round_half_even_mono (x y : Q) :
  (x <= y)%Q -> round_half_even x <= round_half_even y.
Proof.
  intros H. pose proof (Qfloor_resp_le x y H) as F.
  pose proof (round_half_even_floor x) as [_ Ux].
  pose proof (round_half_even_floor y) as [Ly _].
  destruct (Z_lt_le_dec (Qfloor x) (Qfloor y)) as [L|G]; [lia|].
  assert (E : Qfloor x = Qfloor y) by lia. clear F G Ux Ly.
  unfold round_half_even. rewrite E.
  set (f := Qfloor y) in *.
  destruct (x - inject_Z f ?= 1 # 2)%Q eqn:Cx;
    destruct (y - inject_Z f ?= 1 # 2)%Q eqn:Cy;
    first [apply Qeq_alt in Cx | apply Qlt_alt in Cx | apply Qgt_alt in Cx];
    first [apply Qeq_alt in Cy | apply Qlt_alt in Cy | apply Qgt_alt in Cy];
    try destruct (Z.even f); try lia; exfalso; lra.
Qed.

Lemma py_round_mono (x y : Q) (n : nat) :
  (x <= y)%Q -> (py_round x n <= py_round y n)%Q.
Proof.
  intros H. unfold py_round.
  assert (M : (x * inject_Z (Z.pos (pow10 n)) <= y * inject_Z (Z.pos (pow10 n)))%Q).
  { apply Qmult_le_compat_r; [exact H|]. unfold Qle; simpl; lia. }
  apply round_half_even_mono in M.
  unfold Qle. cbn [Qnum Qden]. nia.
Qed.

(* ================================================================== *)
(** * The day loop of metrics.py                                       *)
(* ================================================================== *)

(** More fuel than days left changes nothing: the loop of [_horas_uteis]
    ends by its own test. *)
Lemma laco_dias_fuel (fuel : nat) :
  forall inicio fim current total,
    (Metrics.dias_restantes current fim <= fuel)%nat ->
    Metrics.laco_dias fuel inicio fim current total =
    Metrics.laco_dias (Metrics.dias_restantes current fim) inicio fim current total.
Proof.
  induction fuel as [|k IH]; intros inicio fim current total Hf.
  - assert (E : Metrics.dias_restantes current fim = O) by lia. now rewrite E.
  - unfold Metrics.dias_restantes in *.
    destruct (Z.leb_spec current (date_of fim)) as [Hle|Hgt].
    + replace (Z.to_nat (date_of fim - current + 1))
        with (S (Z.to_nat (date_of fim - (current + 1) + 1))) by lia.
      simpl. apply Z.leb_le in Hle. rewrite Hle.
      apply IH. lia.
    + replace (Z.to_nat (date_of fim - current + 1)) with O by lia.
      simpl. apply Z.leb_gt in Hgt. now rewrite Hgt.
Qed.

Lemma corpo_dia_contribuicao (inicio fim : datetime) (d : date) (total : Q) :
  Metrics.corpo_dia inicio fim d total == total + contribuicao inicio fim d.
Proof.
  unfold contribuicao, Metrics.corpo_dia.
  destruct (Metrics._eh_dia_util d); [|ring].
  destruct (_ <? _); ring.
Qed.

Lemma laco_dias_soma (n : nat) :
  forall inicio fim current total,
    (n <= Metrics.dias_restantes current fim)%nat ->
    Metrics.laco_dias n inicio fim current total ==
    total + soma_dias (contribuicao inicio fim) current n.
Proof.
  induction n as [|k IH]; intros inicio fim current total Hn; simpl.
  - ring.
  - unfold Metrics.dias_restantes in *.
    assert (Hle : (current <=? date_of fim) = true) by (apply Z.leb_le; lia).
    rewrite Hle, IH by lia. rewrite corpo_dia_contribuicao. ring.
Qed.

(** ** C10 *)

(** C10. [_horas_uteis] moves a start earlier than the cutover
    (2026-02-16 00:00) to the cutover: for every start before it and every
    end, the result is the one computed from the cutover itself, in
    modules/sla/metrics.py and in ti/services/metrics.py alike. *)
Theorem horas_uteis_start_clamped_to_cutover (inicio : datetime) (fim : option datetime) :
  inicio < Metrics.SLA_DATA_INICIO ->
  Metrics._horas_uteis (Some inicio) fim =
  Metrics._horas_uteis (Some Metrics.SLA_DATA_INICIO) fim
  /\ TiMetrics._horas_uteis (Some inicio) fim =
     TiMetrics._horas_uteis (Some TiMetrics.SLA_DATA_INICIO) fim.
Proof.
  intros H. split.
  - unfold Metrics._horas_uteis. destruct fim as [fim|]; [|reflexivity].
    apply Z.ltb_lt in H. rewrite H, Z.ltb_irrefl. reflexivity.
  - unfold TiMetrics._horas_uteis. destruct fim as [fim|]; [|reflexivity].
    change TiMetrics.SLA_DATA_INICIO with Metrics.SLA_DATA_INICIO.
    apply Z.ltb_lt in H. rewrite H, Z.ltb_irrefl. reflexivity.
Qed.

Lemma horas_uteis_start_clamped_to_cutover_witness :
  Metrics._horas_uteis (Some (mk_datetime 2026 2 13 9 0 0))
                       (Some (mk_datetime 2026 2 16 10 0 0)) =
  Metrics._horas_uteis (Some Metrics.SLA_DATA_INICIO)
                       (Some (mk_datetime 2026 2 16 10 0 0))
  /\ TiMetrics._horas_uteis (Some (mk_datetime 2026 2 13 9 0 0))
                            (Some (mk_datetime 2026 2 16 10 0 0)) =
     TiMetrics._horas_uteis (Some TiMetrics.SLA_DATA_INICIO)
                            (Some (mk_datetime 2026 2 16 10 0 0)).
Proof.
  apply (horas_uteis_start_clamped_to_cutover (mk_datetime 2026 2 13 9 0 0)).
  vm_compute. reflexivity.
Defined.

(* ================================================================== *)
(** * The calendar and the day loop of calculator.py                   *)
(* ================================================================== *)

Lemma dict_get_app {K V : Type} (eqb : K -> K -> bool) (k k' : K) (v : V)
      (d : list (K * V)) :
  dict_get eqb k (d ++ [(k', v)]) =
  if eqb k k' then Some v else dict_get eqb k d.
Proof.
  induction d as [|[k0 v0] d IH]; simpl.
  - reflexivity.
  - rewrite IH. destruct (eqb k k'); [reflexivity|].
    destruct (dict_get eqb k d); reflexivity.
Qed.

Lemma coerente_novo (db : BD) : coerente db Calculator.novo.
Proof. split; simpl; intros; discriminate. Qed.

Lemma carregar_feriados_coerente (db : BD) (ano : Z) (self : Calculator.CalculadorSLA) :
  coerente db self ->
  fst (Calculator._carregar_feriados db ano self) = Calculator.consulta_feriados db ano
  /\ coerente db (snd (Calculator._carregar_feriados db ano self)).
Proof.
  intros H. pose proof H as [Hf Hh]. unfold Calculator._carregar_feriados.
  destruct (dict_get Z.eqb ano (Calculator._cache_feriados self)) as [l|] eqn:E; simpl.
  - split; [now apply Hf | exact H].
  - split; [reflexivity|]. split; simpl; [|exact Hh].
    intros ano' l. rewrite dict_get_app.
    destruct (Z.eqb_spec ano' ano) as [->|_]; [congruence | apply Hf].
Qed.

Lemma carregar_horarios_coerente (db : BD) (self : Calculator.CalculadorSLA) :
  coerente db self ->
  fst (Calculator._carregar_horarios_comerciais db self) = Calculator.consulta_horarios db
  /\ coerente db (snd (Calculator._carregar_horarios_comerciais db self)).
Proof.
  intros H. pose proof H as [Hf Hh]. unfold Calculator._carregar_horarios_comerciais.
  destruct (Calculator._cache_horarios self) as [h|] eqn:E; simpl.
  - split; [now apply Hh | exact H].
  - split; [reflexivity|]. split; simpl; [exact Hf | congruence].
Qed.

Lemma eh_dia_util_coerente (db : BD) (d : date) (self : Calculator.CalculadorSLA) :
  coerente db self ->
  fst (Calculator.eh_dia_util db d self) = dia_util db d
  /\ coerente db (snd (Calculator.eh_dia_util db d self)).
Proof.
  intros H. unfold Calculator.eh_dia_util, dia_util.
  destruct (weekday d >=? 5); simpl; [now split|].
  unfold Calculator.bind, Calculator.ret.
  destruct (carregar_feriados_coerente db (year_of d) self H) as [E C].
  destruct (Calculator._carregar_feriados db (year_of d) self) as [l self']; simpl in *.
  subst l. now split.
Qed.

Lemma obter_horario_comercial_coerente (db : BD) (d : date)
      (self : Calculator.CalculadorSLA) :
  coerente db self ->
  fst (Calculator.obter_horario_comercial db d self) = janela db d
  /\ coerente db (snd (Calculator.obter_horario_comercial db d self)).
Proof.
  intros H. unfold Calculator.obter_horario_comercial, janela, Calculator.bind.
  destruct (eh_dia_util_coerente db d self H) as [E C].
  destruct (Calculator.eh_dia_util db d self) as [u self1]; simpl in *. subst u.
  destruct (dia_util db d); simpl; [|now split].
  destruct (carregar_horarios_coerente db self1 C) as [E' C'].
  destruct (Calculator._carregar_horarios_comerciais db self1) as [h self2]; simpl in *.
  subst h. now split.
Qed.

Lemma calc_corpo_dia_contribuicao (i f : datetime) (d : date) (t : time)
      (j : option (time * time)) (total : Q) :
  Calculator.corpo_dia i f d t j total == total + Calculator.corpo_dia i f d t j 0.
Proof.
  unfold Calculator.corpo_dia. destruct j as [[hi hf]|]; [|ring].
  destruct (_ <? _); ring.
Qed.

Lemma calc_corpo_dia_time (i f : datetime) (d : date) (t : time)
      (j : option (time * time)) (total : Q) :
  d <> date_of i ->
  Calculator.corpo_dia i f d t j total =
  Calculator.corpo_dia i f d (time_of i) j total.
Proof.
  intros Hd. unfold Calculator.corpo_dia. destruct j as [[hi hf]|]; [|reflexivity].
  apply Z.eqb_neq in Hd. now rewrite Hd.
Qed.

(** With coherent caches the monadic loop computes the sum of the daily
    contributions and leaves the caches coherent. *)
Lemma calc_laco_dias_soma (db : BD) (i f : datetime) (n : nat) :
  forall current t total self,
    coerente db self ->
    (n <= Z.to_nat (date_of f - current + 1))%nat ->
    date_of i <= current ->
    (current = date_of i -> t = time_of i) ->
    fst (Calculator.laco_dias n db i f current t total self) ==
    total + soma_dias (contribuicao_calc db i f) current n
    /\ coerente db (snd (Calculator.laco_dias n db i f current t total self)).
Proof.
  induction n as [|k IH]; intros current t total self C Hn Hc Ht; simpl.
  - split; [ring | exact C].
  - assert (Hle : (current <=? date_of f) = true) by (apply Z.leb_le; lia).
    rewrite Hle. unfold Calculator.bind.
    destruct (obter_horario_comercial_coerente db current self C) as [E C'].
    destruct (Calculator.obter_horario_comercial db current self) as [j self']; simpl in *.
    subst j.
    destruct (IH (current + 1) (mk_time 0 0)
                 (Calculator.corpo_dia i f current t (janela db current) total)
                 self' C') as [V C''].
    + lia.
    + lia.
    + intros e. exfalso. lia.
    + split; [|exact C''].
      rewrite V, calc_corpo_dia_contribuicao. unfold contribuicao_calc.
      destruct (Z.eq_dec current (date_of i)) as [e|ne].
      * rewrite (Ht e). ring.
      * rewrite (calc_corpo_dia_time i f current t _ 0 ne). ring.
Qed.

(* ================================================================== *)
(** * C4: one business day                                             *)
(* ================================================================== *)

Lemma metrics_single_day (d : date) (inicio fim : datetime) :
  Metrics._eh_dia_util d = true ->
  Metrics.SLA_DATA_INICIO <= inicio ->
  combine d Metrics.HORA_INICIO <= inicio -> inicio < fim ->
  fim <= combine d Metrics.HORA_FIM ->
  Metrics._horas_uteis (Some inicio) (Some fim) = py_round (horas (fim - inicio)) 4.
Proof.
  intros Hu He Hi Hlt Hf.
  assert (Di : date_of inicio = d).
  { apply date_of_unique. unfold Metrics.HORA_INICIO, Metrics.HORA_FIM in *. datas. }
  assert (Df : date_of fim = d).
  { apply date_of_unique. unfold Metrics.HORA_INICIO, Metrics.HORA_FIM in *. datas. }
  unfold Metrics._horas_uteis.
  assert (E1 : (inicio <? Metrics.SLA_DATA_INICIO) = false) by (apply Z.ltb_ge; lia).
  assert (E2 : (inicio >=? fim) = false) by (rewrite Z.geb_leb; apply Z.leb_gt; lia).
  rewrite E1, E2. unfold Metrics.dias_restantes. rewrite Di, Df.
  replace (Z.to_nat (d - d + 1)) with 1%nat by lia.
  cbn [Metrics.laco_dias]. rewrite Df, Z.leb_refl.
  unfold Metrics.corpo_dia. rewrite Hu.
  rewrite Z.max_r, Z.min_r by lia.
  apply Z.ltb_lt in Hlt. rewrite Hlt.
  apply py_round_comp. ring.
Qed.

Lemma calculator_single_day (db : BD) (self : Calculator.CalculadorSLA)
      (d : date) (hi hf : time) (inicio fim : datetime) :
  coerente db self ->
  fst (Calculator.obter_horario_comercial db d self) = Some (hi, hf) ->
  0 <= hi -> hf < us_per_day ->
  combine d hi <= inicio -> inicio < fim -> fim <= combine d hf ->
  fst (Calculator.calcular_horas_uteis db inicio fim self) == horas (fim - inicio).
Proof.
  intros C Hj Hhi Hhf Hi Hlt Hf.
  destruct (obter_horario_comercial_coerente db d self C) as [Ej _].
  rewrite Ej in Hj.
  assert (Di : date_of inicio = d) by (apply date_of_unique; datas).
  assert (Df : date_of fim = d) by (apply date_of_unique; datas).
  unfold Calculator.calcular_horas_uteis.
  assert (E2 : (inicio >=? fim) = false) by (rewrite Z.geb_leb; apply Z.leb_gt; lia).
  rewrite E2, Di, Df.
  replace (Z.to_nat (d - d + 1)) with 1%nat by lia.
  destruct (calc_laco_dias_soma db inicio fim 1 d (time_of inicio) 0 self C) as [V _];
    [lia | lia | reflexivity |].
  rewrite V. cbn [soma_dias]. unfold contribuicao_calc. rewrite Hj.
  unfold Calculator.corpo_dia. rewrite Di, Df, Z.eqb_refl.
  assert (Ti : hi <= time_of inicio) by datas.
  assert (Tf : time_of fim <= hf) by datas.
  assert (Tlt : time_of inicio < time_of fim) by datas.
  rewrite Z.max_l, Z.min_l by lia.
  apply Z.ltb_lt in Tlt. rewrite Tlt.
  rewrite <- Di at 2. rewrite <- Df at 1. rewrite !combine_date_time. ring.
Qed.

(** C4, as the code has it.  When start < end lie in the business window
    of one business day, [_horas_uteis] of metrics.py returns (end - start)
    in hours rounded to 4 decimals provided the start is not before the
    cutover, and [calcular_horas_uteis] of calculator.py (coherent caches,
    window as [obter_horario_comercial] gives it) returns exactly
    (end - start) in hours. *)
Theorem single_business_day_identity :
  (forall (d : date) (inicio fim : datetime),
      Metrics._eh_dia_util d = true ->
      Metrics.SLA_DATA_INICIO <= inicio ->
      combine d Metrics.HORA_INICIO <= inicio -> inicio < fim ->
      fim <= combine d Metrics.HORA_FIM ->
      Metrics._horas_uteis (Some inicio) (Some fim) = py_round (horas (fim - inicio)) 4)
  /\
  (forall (db : BD) (self : Calculator.CalculadorSLA)
          (d : date) (hi hf : time) (inicio fim : datetime),
      coerente db self ->
      fst (Calculator.obter_horario_comercial db d self) = Some (hi, hf) ->
      0 <= hi -> hf < us_per_day ->
      combine d hi <= inicio -> inicio < fim -> fim <= combine d hf ->
      fst (Calculator.calcular_horas_uteis db inicio fim self) == horas (fim - inicio)).
Proof.
  split.
  - exact metrics_single_day.
  - exact calculator_single_day.
Qed.

Lemma single_business_day_identity_witness :
  Metrics._horas_uteis (Some (mk_datetime 2026 2 16 9 0 0))
                       (Some (mk_datetime 2026 2 16 10 30 0)) =
  py_round (horas (mk_datetime 2026 2 16 10 30 0 - mk_datetime 2026 2 16 9 0 0)) 4
  /\ fst (Calculator.calcular_horas_uteis bd_vazio (mk_datetime 2026 2 10 9 0 0)
                                          (mk_datetime 2026 2 10 10 30 0) Calculator.novo)
     == horas (mk_datetime 2026 2 10 10 30 0 - mk_datetime 2026 2 10 9 0 0).
Proof.
  split.
  - apply (proj1 single_business_day_identity (ymd2ord 2026 2 16));
      vm_compute; solve [reflexivity | discriminate].
  - apply (proj2 single_business_day_identity bd_vazio Calculator.novo
                 (ymd2ord 2026 2 10) (mk_time 8 0) (mk_time 18 0)).
    + apply coerente_novo.
    + vm_compute; reflexivity.
    + vm_compute; discriminate.
    + vm_compute; reflexivity.
    + vm_compute; discriminate.
    + vm_compute; reflexivity.
    + vm_compute; discriminate.
Defined.

(** C4 as stated fails in metrics.py before the cutover: Tuesday
    2026-02-10, 09:00 to 10:00, lies inside the window of a business day,
    yet [_horas_uteis] returns 0 and not 1. *)
Lemma single_business_day_identity_fails_before_cutover :
  let d := ymd2ord 2026 2 10 in
  let inicio := mk_datetime 2026 2 10 9 0 0 in
  let fim := mk_datetime 2026 2 10 10 0 0 in
  Metrics._eh_dia_util d = true
  /\ combine d Metrics.HORA_INICIO <= inicio /\ inicio < fim
  /\ fim <= combine d Metrics.HORA_FIM
  /\ horas (fim - inicio) == 1
  /\ Metrics._horas_uteis (Some inicio) (Some fim) == 0
  /\ ~ Metrics._horas_uteis (Some inicio) (Some fim) == horas (fim - inicio).
Proof.
  cbv zeta. repeat split; vm_compute; solve [reflexivity | discriminate].
Qed.

(* ================================================================== *)
(** * C5: weekends and holidays                                        *)
(* ================================================================== *)

Lemma metrics_horas_uteis_soma (inicio fim : datetime) :
  Z.max inicio Metrics.SLA_DATA_INICIO < fim ->
  Metrics._horas_uteis (Some inicio) (Some fim) =
  py_round (soma_dias (contribuicao (Z.max inicio Metrics.SLA_DATA_INICIO) fim)
                      (date_of (Z.max inicio Metrics.SLA_DATA_INICIO))
                      (Metrics.dias_restantes
                         (date_of (Z.max inicio Metrics.SLA_DATA_INICIO)) fim)) 4.
Proof.
  intros H. unfold Metrics._horas_uteis.
  assert (E : (if inicio <? Metrics.SLA_DATA_INICIO then Metrics.SLA_DATA_INICIO else inicio)
              = Z.max inicio Metrics.SLA_DATA_INICIO).
  { destruct (Z.ltb_spec inicio Metrics.SLA_DATA_INICIO); lia. }
  rewrite E.
  assert (E2 : (Z.max inicio Metrics.SLA_DATA_INICIO >=? fim) = false)
    by (rewrite Z.geb_leb; apply Z.leb_gt; lia).
  rewrite E2. apply py_round_comp.
  rewrite laco_dias_soma by lia. ring.
Qed.

Lemma metrics_weekend_zero (inicio fim : datetime) (d : date) :
  5 <= weekday d -> contribuicao inicio fim d = 0%Q.
Proof.
  intros H. unfold contribuicao, Metrics.corpo_dia, Metrics._eh_dia_util.
  apply Z.ltb_ge in H. now rewrite H.
Qed.

Lemma calculator_horas_uteis_soma (db : BD) (self : Calculator.CalculadorSLA)
      (inicio fim : datetime) :
  coerente db self -> inicio < fim ->
  fst (Calculator.calcular_horas_uteis db inicio fim self) ==
  soma_dias (contribuicao_calc db inicio fim) (date_of inicio)
            (Z.to_nat (date_of fim - date_of inicio + 1)).
Proof.
  intros C H. unfold Calculator.calcular_horas_uteis.
  assert (E2 : (inicio >=? fim) = false) by (rewrite Z.geb_leb; apply Z.leb_gt; lia).
  rewrite E2.
  destruct (calc_laco_dias_soma db inicio fim
              (Z.to_nat (date_of fim - date_of inicio + 1))
              (date_of inicio) (time_of inicio) 0 self C) as [V _];
    [lia | lia | reflexivity |].
  rewrite V. ring.
Qed.

Lemma feriado_ativo_em_consulta (db : BD) (d : date) :
  feriado_ativo_em db d ->
  existsb (Z.eqb d) (Calculator.consulta_feriados db (year_of d)) = true.
Proof.
  intros (f & Hin & Ha & Hd). apply existsb_exists. exists d. split; [|apply Z.eqb_refl].
  unfold Calculator.consulta_feriados. apply in_map_iff. exists f. split; [exact Hd|].
  apply filter_In. split; [exact Hin|]. rewrite Ha, Hd, Z.eqb_refl. reflexivity.
Qed.

Lemma janela_nao_util (db : BD) (d : date) :
  5 <= weekday d \/ feriado_ativo_em db d -> janela db d = None.
Proof.
  intros H. unfold janela, dia_util. destruct H as [H|H].
  - assert (E : (weekday d >=? 5) = true) by (rewrite Z.geb_leb; apply Z.leb_le; lia).
    now rewrite E.
  - rewrite (feriado_ativo_em_consulta db d H).
    now rewrite andb_false_r.
Qed.

(** C5, as the code has it.  Both accumulators return the (rounded, in
    metrics.py) sum of one contribution per calendar date from the start
    date to the end date.  A Saturday or Sunday contributes 0 in both.  A
    date of the active holiday table contributes 0 in calculator.py
    (coherent caches), where [obter_horario_comercial] gives no window for
    it; metrics.py does not read the holiday table. *)
Theorem weekend_and_holiday_days_contribute_zero :
  (forall inicio fim : datetime,
      Z.max inicio Metrics.SLA_DATA_INICIO < fim ->
      Metrics._horas_uteis (Some inicio) (Some fim) =
      py_round (soma_dias (contribuicao (Z.max inicio Metrics.SLA_DATA_INICIO) fim)
                          (date_of (Z.max inicio Metrics.SLA_DATA_INICIO))
                          (Metrics.dias_restantes
                             (date_of (Z.max inicio Metrics.SLA_DATA_INICIO)) fim)) 4)
  /\ (forall (inicio fim : datetime) (d : date),
         5 <= weekday d -> contribuicao inicio fim d = 0%Q)
  /\ (forall (db : BD) (self : Calculator.CalculadorSLA) (inicio fim : datetime),
         coerente db self -> inicio < fim ->
         fst (Calculator.calcular_horas_uteis db inicio fim self) ==
         soma_dias (contribuicao_calc db inicio fim) (date_of inicio)
                   (Z.to_nat (date_of fim - date_of inicio + 1)))
  /\ (forall (db : BD) (self : Calculator.CalculadorSLA) (inicio fim : datetime) (d : date),
         coerente db self ->
         5 <= weekday d \/ feriado_ativo_em db d ->
         fst (Calculator.obter_horario_comercial db d self) = None
         /\ contribuicao_calc db inicio fim d = 0%Q).
Proof.
  split; [exact metrics_horas_uteis_soma|].
  split; [exact metrics_weekend_zero|].
  split; [exact calculator_horas_uteis_soma|].
  intros db self inicio fim d C H.
  destruct (obter_horario_comercial_coerente db d self C) as [E _].
  rewrite E. unfold contribuicao_calc. rewrite (janela_nao_util db d H). now split.
Qed.

Lemma weekend_and_holiday_days_contribute_zero_witness :
  contribuicao (mk_datetime 2026 2 20 17 0 0) (mk_datetime 2026 2 23 9 0 0)
               (ymd2ord 2026 2 21) = 0%Q
  /\ (fst (Calculator.obter_horario_comercial bd_sexta_santa (ymd2ord 2026 4 3)
                                              Calculator.novo) = None
      /\ contribuicao_calc bd_sexta_santa (mk_datetime 2026 4 2 9 0 0)
                           (mk_datetime 2026 4 6 9 0 0) (ymd2ord 2026 4 3) = 0%Q).
Proof.
  split.
  - apply (proj1 (proj2 weekend_and_holiday_days_contribute_zero)).
    vm_compute; discriminate.
  - apply (proj2 (proj2 (proj2 weekend_and_holiday_days_contribute_zero))
                 bd_sexta_santa Calculator.novo).
    + apply coerente_novo.
    + right. exists {| feriado_data := ymd2ord 2026 4 3; feriado_ativo := true |}.
      repeat split. simpl. left. reflexivity.
Defined.

(** C5 as stated fails in metrics.py for holidays: with Good Friday
    2026-04-03 (a Friday) in the active holiday table, calculator.py counts
    nothing on that day while [_horas_uteis] counts the hour from 09:00 to
    10:00. *)
Lemma holiday_counts_in_metrics :
  let d := ymd2ord 2026 4 3 in
  let inicio := mk_datetime 2026 4 3 9 0 0 in
  let fim := mk_datetime 2026 4 3 10 0 0 in
  feriado_ativo_em bd_sexta_santa d
  /\ weekday d = 4
  /\ fst (Calculator.calcular_horas_uteis bd_sexta_santa inicio fim Calculator.novo) == 0
  /\ contribuicao inicio fim d == 1
  /\ Metrics._horas_uteis (Some inicio) (Some fim) == 1.
Proof.
  cbv zeta. repeat split; try (vm_compute; reflexivity).
  exists {| feriado_data := ymd2ord 2026 4 3; feriado_ativo := true |}.
  repeat split. simpl. left. reflexivity.
Qed.

(* ================================================================== *)
(** * Hours and pauses on the grid of four decimals                    *)
(* ================================================================== *)

Lemma horas_uteis_na_grade (inicio fim : option datetime) :
  na_grade 4 (Metrics._horas_uteis inicio fim).
Proof.
  unfold Metrics._horas_uteis.
  destruct inicio as [i|]; [|apply na_grade_zero].
  destruct fim as [f|]; [|apply na_grade_zero].
  destruct (_ >=? _); [apply na_grade_zero | apply py_round_na_grade].
Qed.

Lemma soma_pausas_na_grade (now inicio fim : datetime)
      (pausas : list (datetime * option datetime)) :
  forall pausado, na_grade 4 pausado ->
                  na_grade 4 (Metrics.soma_pausas now inicio fim pausas pausado).
Proof.
  induction pausas as [|[p_ini p_fim] r IH]; intros pausado H;
    cbn [Metrics.soma_pausas].
  - exact H.
  - apply IH. destruct (_ <? _); [|exact H].
    apply na_grade_plus; [exact H | apply horas_uteis_na_grade].
Qed.

Lemma contribuicao_nonneg (i f : datetime) (c : date) : (0 <= contribuicao i f c)%Q.
Proof.
  unfold contribuicao, Metrics.corpo_dia.
  destruct (Metrics._eh_dia_util c); [|lra].
  destruct (Z.ltb_spec (Z.max (combine c Metrics.HORA_INICIO) i)
                       (Z.min (combine c Metrics.HORA_FIM) f)); [|lra].
  pose proof (horas_nonneg (Z.min (combine c Metrics.HORA_FIM) f
                            - Z.max (combine c Metrics.HORA_INICIO) i)) as P.
  assert (0 <= horas (Z.min (combine c Metrics.HORA_FIM) f
                      - Z.max (combine c Metrics.HORA_INICIO) i)%Z)%Q
    by (apply P; lia).
  lra.
Qed.

Lemma soma_dias_nonneg (f : date -> Q) (n : nat) :
  (forall d, (0 <= f d)%Q) -> forall d, (0 <= soma_dias f d n)%Q.
Proof.
  intros Hf. induction n as [|k IH]; intros d; cbn [soma_dias]; [lra|].
  specialize (Hf d). specialize (IH (d + 1)). lra.
Qed.

Lemma horas_uteis_nonneg (inicio fim : option datetime) :
  (0 <= Metrics._horas_uteis inicio fim)%Q.
Proof.
  unfold Metrics._horas_uteis.
  destruct inicio as [i|]; [|lra].
  destruct fim as [f|]; [|lra].
  destruct (_ >=? _); [lra|].
  change 0%Q with (inject_Z 0). apply py_round_ge_Z.
  rewrite laco_dias_soma by lia.
  pose proof (soma_dias_nonneg _ (Metrics.dias_restantes
                (date_of (if i <? Metrics.SLA_DATA_INICIO
                          then Metrics.SLA_DATA_INICIO else i)) f)
                (contribuicao_nonneg (if i <? Metrics.SLA_DATA_INICIO
                                      then Metrics.SLA_DATA_INICIO else i) f)
                (date_of (if i <? Metrics.SLA_DATA_INICIO
                          then Metrics.SLA_DATA_INICIO else i))) as S.
  change (inject_Z 0) with 0%Q. lra.
Qed.

Lemma soma_pausas_nonneg (now inicio fim : datetime)
      (pausas : list (datetime * option datetime)) :
  forall pausado, (0 <= pausado)%Q ->
                  (0 <= Metrics.soma_pausas now inicio fim pausas pausado)%Q.
Proof.
  induction pausas as [|[p_ini p_fim] r IH]; intros pausado H;
    cbn [Metrics.soma_pausas].
  - exact H.
  - apply IH. destruct (_ <? _); [|exact H].
    pose proof (horas_uteis_nonneg (Some (Z.max p_ini inicio))
                  (Some (Z.min (match p_fim with Some f => f | None => now end) fim))) as P.
    set (h := Metrics._horas_uteis _ _) in *. clearbody h. lra.
Qed.

(* ================================================================== *)
(** * Business time is additive                                        *)
(* ================================================================== *)

Ltac janelas :=
  unfold us_do_dia, Metrics._eh_dia_util, Metrics.HORA_INICIO, Metrics.HORA_FIM in *.

Lemma soma_us_ext (f g : date -> Z) (n : nat) :
  forall d, (forall x, d <= x < d + Z.of_nat n -> f x = g x) ->
            soma_us f d n = soma_us g d n.
Proof.
  induction n as [|k IH]; intros d H; cbn [soma_us]; [reflexivity|].
  rewrite (H d) by lia. rewrite (IH (d + 1)); [reflexivity|].
  intros x Hx. apply H. lia.
Qed.

Lemma soma_us_zero (f : date -> Z) (n : nat) :
  forall d, (forall x, d <= x < d + Z.of_nat n -> f x = 0) -> soma_us f d n = 0.
Proof.
  induction n as [|k IH]; intros d H; cbn [soma_us]; [reflexivity|].
  rewrite (H d) by lia. rewrite (IH (d + 1)); [reflexivity|].
  intros x Hx. apply H. lia.
Qed.

Lemma soma_us_app (f : date -> Z) (n m : nat) :
  forall d, soma_us f d (n + m) = soma_us f d n + soma_us f (d + Z.of_nat n) m.
Proof.
  induction n as [|k IH]; intros d; cbn [soma_us Nat.add].
  - replace (d + Z.of_nat 0) with d by lia. lia.
  - rewrite IH. replace (d + 1 + Z.of_nat k) with (d + Z.of_nat (S k)) by lia. lia.
Qed.

Lemma soma_us_plus (f g : date -> Z) (n : nat) :
  forall d, soma_us (fun x => f x + g x) d n = soma_us f d n + soma_us g d n.
Proof.
  induction n as [|k IH]; intros d; cbn [soma_us]; [reflexivity|].
  rewrite IH. lia.
Qed.

Lemma soma_us_nonneg (f : date -> Z) (n : nat) :
  (forall x, 0 <= f x) -> forall d, 0 <= soma_us f d n.
Proof.
  intros H. induction n as [|k IH]; intros d; cbn [soma_us]; [lia|].
  specialize (H d). specialize (IH (d + 1)). lia.
Qed.

(** A sum over a range is the sum over a larger one when [f] is zero on
    the dates added. *)
Lemma soma_entre_larger (f : date -> Z) (de ate de' ate' : date) :
  de' <= de -> ate <= ate' ->
  (forall x, de' <= x < de -> f x = 0) ->
  (forall x, ate < x <= ate' -> f x = 0) ->
  (forall x, ate < de -> de' <= x <= ate' -> f x = 0) ->
  soma_entre f de ate = soma_entre f de' ate'.
Proof.
  intros Hd Ha Z1 Z2 Z3. unfold soma_entre.
  destruct (Z_lt_le_dec ate de) as [Hempty|Hne].
  - replace (Z.to_nat (ate - de + 1)) with O by lia. cbn [soma_us].
    symmetry. apply soma_us_zero. intros x Hx. apply Z3; lia.
  - replace (Z.to_nat (ate' - de' + 1))
      with (Z.to_nat (de - de') + (Z.to_nat (ate - de + 1) + Z.to_nat (ate' - ate)))%nat
      by lia.
    rewrite !soma_us_app.
    rewrite (soma_us_zero f (Z.to_nat (de - de')) de') by (intros x Hx; apply Z1; lia).
    replace (de' + Z.of_nat (Z.to_nat (de - de'))) with de by lia.
    rewrite (soma_us_zero f (Z.to_nat (ate' - ate))) by (intros x Hx; apply Z2; lia).
    lia.
Qed.

Lemma us_do_dia_nonneg (a b : datetime) (d : date) : 0 <= us_do_dia a b d.
Proof. janelas. destruct (_ <? _); lia. Qed.

Lemma us_do_dia_antes (a b : datetime) (d : date) :
  d < date_of a -> us_do_dia a b d = 0.
Proof.
  intros H. pose proof (date_of_bounds a) as B. janelas.
  destruct (_ <? _); [|reflexivity].
  unfold combine, mk_time, us_per_day, us_per_second in *. lia.
Qed.

Lemma us_do_dia_depois (a b : datetime) (d : date) :
  date_of b < d -> us_do_dia a b d = 0.
Proof.
  intros H. pose proof (date_of_bounds b) as B. janelas.
  destruct (_ <? _); [|reflexivity].
  unfold combine, mk_time, us_per_day, us_per_second in *. lia.
Qed.

Lemma us_do_dia_vazio (a b : datetime) (d : date) :
  b <= a -> us_do_dia a b d = 0.
Proof.
  intros H. janelas. destruct (_ <? _); [|reflexivity].
  unfold combine, mk_time, us_per_day, us_per_second in *. lia.
Qed.

Lemma us_do_dia_aditivo (a b c : datetime) (d : date) :
  a <= b -> b <= c -> us_do_dia a c d = us_do_dia a b d + us_do_dia b c d.
Proof.
  intros H1 H2. janelas. destruct (_ <? _); [|reflexivity].
  unfold combine, mk_time, us_per_day, us_per_second in *. lia.
Qed.

Lemma date_of_mono (a b : datetime) : a <= b -> date_of a <= date_of b.
Proof. intros H. datas. Qed.

(** The sum of [us_entre] may run over any range of dates that covers
    the two instants. *)
Lemma us_entre_larger (a b : datetime) (de ate : date) :
  de <= date_of a -> date_of b <= ate ->
  us_entre a b = soma_entre (us_do_dia a b) de ate.
Proof.
  intros H1 H2. unfold us_entre. apply soma_entre_larger; try assumption.
  - intros x Hx. apply us_do_dia_antes. lia.
  - intros x Hx. apply us_do_dia_depois. lia.
  - intros x He _. apply us_do_dia_vazio.
    destruct (Z_lt_le_dec a b) as [L|G]; [|exact G].
    pose proof (date_of_mono a b). lia.
Qed.

Lemma us_entre_nonneg (a b : datetime) : 0 <= us_entre a b.
Proof. unfold us_entre, soma_entre. apply soma_us_nonneg, us_do_dia_nonneg. Qed.

Lemma us_entre_vazio (a b : datetime) : b <= a -> us_entre a b = 0.
Proof.
  intros H. unfold us_entre, soma_entre. apply soma_us_zero.
  intros x _. now apply us_do_dia_vazio.
Qed.

Lemma us_entre_aditivo (a b c : datetime) :
  a <= b -> b <= c -> us_entre a c = us_entre a b + us_entre b c.
Proof.
  intros H1 H2.
  pose proof (date_of_mono a b H1). pose proof (date_of_mono b c H2).
  rewrite (us_entre_larger a b (date_of a) (date_of c)) by lia.
  rewrite (us_entre_larger b c (date_of a) (date_of c)) by lia.
  unfold us_entre, soma_entre. rewrite <- soma_us_plus.
  apply soma_us_ext. intros x _. now apply us_do_dia_aditivo.
Qed.

(** A piece of an interval holds no more business time than the
    interval, and two pieces one after the other no more than it either. *)
Lemma us_entre_pedacos (a x y b : datetime) :
  a <= x -> y <= b -> a <= b ->
  us_entre x y + us_entre (Z.max a y) b <= us_entre a b.
Proof.
  intros H1 H2 H3.
  destruct (Z_lt_le_dec x y) as [L|G].
  - rewrite (us_entre_aditivo a x b) by lia.
    rewrite (us_entre_aditivo x y b) by lia.
    rewrite Z.max_r by lia.
    pose proof (us_entre_nonneg a x). lia.
  - rewrite (us_entre_vazio x y) by lia.
    destruct (Z_lt_le_dec a y) as [L'|G'].
    + rewrite Z.max_r by lia.
      rewrite (us_entre_aditivo a y b) by lia.
      pose proof (us_entre_nonneg a y). lia.
    + rewrite Z.max_l by lia. lia.
Qed.

Lemma contribuicao_us (i f : datetime) (d : date) :
  contribuicao i f d == horas (us_do_dia i f d).
Proof.
  unfold contribuicao, Metrics.corpo_dia, us_do_dia.
  destruct (Metrics._eh_dia_util d); [|reflexivity].
  destruct (Z.ltb_spec (Z.max (combine d Metrics.HORA_INICIO) i)
                       (Z.min (combine d Metrics.HORA_FIM) f)) as [L|G].
  - rewrite (Z.max_r 0) by lia. ring.
  - rewrite (Z.max_l 0) by lia. reflexivity.
Qed.

Lemma soma_dias_us (i f : datetime) (n : nat) :
  forall d, soma_dias (contribuicao i f) d n == horas (soma_us (us_do_dia i f) d n).
Proof.
  induction n as [|k IH]; intros d; cbn [soma_dias soma_us]; [reflexivity|].
  rewrite horas_plus, IH, contribuicao_us. reflexivity.
Qed.

(** [_horas_uteis] is the rounding of a whole number of microseconds. *)
Lemma horas_uteis_us (a b : datetime) :
  Metrics._horas_uteis (Some a) (Some b) == py_round (horas (us_uteis a b)) 4.
Proof.
  unfold Metrics._horas_uteis, us_uteis.
  assert (E : (if a <? Metrics.SLA_DATA_INICIO then Metrics.SLA_DATA_INICIO else a)
              = Z.max a Metrics.SLA_DATA_INICIO).
  { destruct (Z.ltb_spec a Metrics.SLA_DATA_INICIO); lia. }
  rewrite E. set (a' := Z.max a Metrics.SLA_DATA_INICIO).
  destruct (Z.geb_spec a' b) as [G|L].
  - rewrite us_entre_vazio by lia. reflexivity.
  - rewrite (py_round_comp _ (horas (us_entre a' b))); [reflexivity|].
    rewrite laco_dias_soma by lia. rewrite soma_dias_us.
    unfold us_entre, soma_entre, Metrics.dias_restantes. ring.
Qed.

Lemma round_half_even_bounds (x : Q) :
  (x - (1 # 2) <= inject_Z (round_half_even x) <= x + (1 # 2))%Q.
Proof.
  pose proof (Qfloor_le x) as Lo. pose proof (Qlt_floor x) as Hi.
  rewrite inject_Z_plus in Hi. change (inject_Z 1) with 1%Q in Hi.
  unfold round_half_even.
  destruct (x - inject_Z (Qfloor x) ?= 1 # 2)%Q eqn:C.
  - apply Qeq_alt in C. destruct (Z.even (Qfloor x)).
    + split; lra.
    + rewrite inject_Z_plus. change (inject_Z 1) with 1%Q. split; lra.
  - apply Qlt_alt in C. split; lra.
  - apply Qgt_alt in C. rewrite inject_Z_plus. change (inject_Z 1) with 1%Q.
    split; lra.
Qed.

(** Rounding to 4 decimals moves a value by at most half a unit of the
    last decimal. *)
Lemma py_round_4_bounds (x : Q) :
  (x - (1 # 20000) <= py_round x 4 <= x + (1 # 20000))%Q.
Proof.
  unfold py_round.
  change (inject_Z (Z.pos (pow10 4))) with 10000%Q.
  pose proof (round_half_even_bounds (x * 10000)) as [Lo Hi].
  set (r := round_half_even (x * 10000)) in *.
  assert (E : r # pow10 4 == inject_Z r * (1 # 10000)).
  { unfold Qeq, Qmult, inject_Z. simpl. lia. }
  rewrite E. split; lra.
Qed.

Lemma soma_pausas_limite (now inicio fim : datetime)
      (pausas : list (datetime * option datetime)) :
  forall pausado,
    (Metrics.soma_pausas now inicio fim pausas pausado
     <= pausado + horas (us_pausas now inicio fim pausas)
        + inject_Z (len pausas) * (1 # 20000))%Q.
Proof.
  induction pausas as [|[p_ini p_fim] r IH]; intros pausado;
    cbn [Metrics.soma_pausas us_pausas].
  - unfold len. cbn. rewrite horas_zero. change (inject_Z 0) with 0%Q. lra.
  - eapply Qle_trans; [apply IH|].
    assert (L : inject_Z (len ((p_ini, p_fim) :: r)) == inject_Z (len r) + 1).
    { unfold len. cbn [List.length]. rewrite Nat2Z.inj_succ, <- Z.add_1_r.
      rewrite inject_Z_plus. reflexivity. }
    rewrite L, horas_plus.
    set (w := horas (us_pausas now inicio fim r)). clearbody w.
    set (n := inject_Z (len r)). clearbody n. clear L IH.
    destruct (_ <? _).
    + match goal with
      | |- context [Metrics._horas_uteis (Some ?i2) (Some ?f2)] =>
          pose proof (horas_uteis_us i2 f2) as E;
          pose proof (py_round_4_bounds (horas (us_uteis i2 f2))) as [_ Hi];
          set (u := horas (us_uteis i2 f2)) in *; clearbody u
      end.
      set (h := Metrics._horas_uteis _ _) in *. clearbody h.
      set (pr := py_round _ 4) in *. clearbody pr.
      lra.
    + rewrite horas_zero. lra.
Qed.

(** Pauses that do not overlap hold no more business time than the
    interval they are cut to. *)
Lemma us_pausas_limite (now inicio fim : datetime)
      (pausas : list (datetime * option datetime)) :
  forall a,
    Metrics.SLA_DATA_INICIO <= a ->
    (forall q, In q pausas ->
               a <= Z.max (Z.max (fst q) inicio) Metrics.SLA_DATA_INICIO) ->
    sem_sobreposicao now pausas ->
    us_pausas now inicio fim pausas <= us_entre a fim.
Proof.
  induction pausas as [|[p_ini p_fim] r IH]; intros a Ha Hq Hs;
    cbn [us_pausas sem_sobreposicao] in *.
  - apply us_entre_nonneg.
  - destruct Hs as [Hnext Hs].
    set (fr := match p_fim with Some f => f | None => now end) in *.
    set (i2 := Z.max p_ini inicio). set (f2 := Z.min fr fim).
    pose proof (Hq (p_ini, p_fim) (or_introl eq_refl)) as Hx. cbn [fst] in Hx.
    fold i2 in Hx.
    assert (T : (if i2 <? f2 then us_uteis i2 f2 else 0)
                <= us_entre (Z.max i2 Metrics.SLA_DATA_INICIO) f2).
    { destruct (i2 <? f2); [unfold us_uteis; lia | apply us_entre_nonneg]. }
    destruct (Z_lt_le_dec a fim) as [L|G].
    + pose proof (us_entre_pedacos a (Z.max i2 Metrics.SLA_DATA_INICIO) f2 fim) as P.
      assert (R : us_pausas now inicio fim r <= us_entre (Z.max a f2) fim).
      { apply IH; [lia | | exact Hs].
        intros q Hin. pose proof (Hq q (or_intror Hin)) as Q1.
        pose proof (Hnext q Hin) as Q2. change (fr <= fst q) in Q2.
        unfold f2. lia. }
      unfold f2 in *. lia.
    + rewrite (us_entre_vazio a fim) by lia.
      assert (R : us_pausas now inicio fim r <= us_entre a fim)
        by (apply IH; [lia | intros q Hin; apply Hq; now right | exact Hs]).
      rewrite (us_entre_vazio a fim) in R by lia.
      rewrite (us_entre_vazio (Z.max i2 Metrics.SLA_DATA_INICIO) f2) in T
        by (unfold f2; lia).
      lia.
Qed.

(* ================================================================== *)
(** * C1: pause accounting                                             *)
(* ================================================================== *)

Lemma horas_le (a b : timedelta) : a <= b -> (horas a <= horas b)%Q.
Proof.
  intros H. pose proof (horas_nonneg (b - a)) as P.
  assert (N : (0 <= horas (b - a)%Z)%Q) by (apply P; lia).
  assert (E : horas b == horas a + horas (b - a)%Z).
  { rewrite <- horas_plus. replace (a + (b - a)) with b by lia. reflexivity. }
  rewrite E. lra.
Qed.

(** C1, as the code has it.  With [bruto] the business hours between open
    and end, [_horas_uteis_com_pausas] returns worked hours that are never
    negative and paused hours that are the sum, pause by pause, of the
    business hours of the intersection with [open, end]; worked + paused
    equals the larger of [bruto] and paused.  Hence worked + paused ==
    [bruto] holds exactly when paused does not exceed [bruto]; otherwise
    worked is 0.  For pauses in chronological order that do not overlap,
    worked + paused exceeds [bruto] by at most half a unit of the fourth
    decimal per rounding made (one per pause, one for [bruto]). *)
Theorem pause_accounting_with_floor
        (now inicio fim : datetime) (pausas : list (datetime * option datetime)) :
  let bruto := Metrics._horas_uteis (Some inicio) (Some fim) in
  let r := Metrics._horas_uteis_com_pausas now inicio fim pausas in
  (0 <= fst r)%Q
  /\ snd r == Metrics.soma_pausas now inicio fim pausas 0
  /\ fst r + snd r == Qmax bruto (snd r)
  /\ ((snd r <= bruto)%Q -> fst r + snd r == bruto)
  /\ ((bruto < snd r)%Q -> fst r == 0)
  /\ (sem_sobreposicao now pausas ->
      (bruto <= fst r + snd r)%Q
      /\ (fst r + snd r <= bruto + inject_Z (len pausas + 1) * (1 # 20000))%Q).
Proof.
  intros bruto r.
  set (pausado := Metrics.soma_pausas now inicio fim pausas 0).
  assert (Gp : na_grade 4 pausado)
    by (apply soma_pausas_na_grade, na_grade_zero).
  assert (Gb : na_grade 4 bruto) by apply horas_uteis_na_grade.
  assert (Ep : snd r == pausado) by (apply py_round_grade; exact Gp).
  assert (Ew : fst r == py_max 0 (bruto - pausado)).
  { apply py_round_grade, na_grade_max; [apply na_grade_zero|].
    now apply na_grade_minus. }
  assert (S : fst r + snd r == Qmax bruto pausado).
  { rewrite Ew, Ep. apply py_max_floor. }
  assert (N : (0 <= fst r)%Q) by (rewrite Ew; apply py_max_nonneg).
  split; [exact N|]. split; [exact Ep|].
  split; [rewrite S, Ep; reflexivity|].
  split; [|split].
  - intros L. rewrite S. rewrite Ep in L. apply Q.max_l. exact L.
  - intros L. rewrite Ep in L. rewrite Ew. unfold py_max.
    apply Q.max_l. lra.
  - intros Hs. rewrite S.
    pose proof (soma_pausas_limite now inicio fim pausas 0) as A. fold pausado in A.
    assert (B : us_pausas now inicio fim pausas <= us_uteis inicio fim).
    { unfold us_uteis. apply us_pausas_limite; [lia | intros q _; lia | exact Hs]. }
    apply horas_le in B.
    pose proof (horas_uteis_us inicio fim) as Eb. fold bruto in Eb.
    pose proof (py_round_4_bounds (horas (us_uteis inicio fim))) as [Lo _].
    rewrite inject_Z_plus. change (inject_Z 1) with 1%Q.
    assert (Nn : (0 <= inject_Z (len pausas))%Q).
    { change 0%Q with (inject_Z 0). rewrite <- Zle_Qle. unfold len. lia. }
    set (n := inject_Z (len pausas)) in *. clearbody n.
    set (hp := horas (us_pausas now inicio fim pausas)) in *. clearbody hp.
    set (hu := horas (us_uteis inicio fim)) in *. clearbody hu.
    set (pr := py_round hu 4) in *. clearbody pr.
    clearbody pausado. clearbody bruto. clear - A B Eb Lo Nn.
    destruct (Q.max_spec bruto pausado) as [[L E]|[L E]]; rewrite E; split; lra.
Qed.

Lemma pause_accounting_with_floor_witness :
  let now := mk_datetime 2026 2 17 12 0 0 in
  let inicio := mk_datetime 2026 2 16 9 0 0 in
  let fim := mk_datetime 2026 2 16 17 0 0 in
  let pausas := [(mk_datetime 2026 2 16 12 0 0, Some (mk_datetime 2026 2 16 14 0 0))] in
  let r := Metrics._horas_uteis_com_pausas now inicio fim pausas in
  fst r + snd r == Metrics._horas_uteis (Some inicio) (Some fim)
  /\ (fst r + snd r
      <= Metrics._horas_uteis (Some inicio) (Some fim)
         + inject_Z (len pausas + 1) * (1 # 20000))%Q.
Proof.
  intros now inicio fim pausas r. split.
  - apply (proj1 (proj2 (proj2 (proj2
             (pause_accounting_with_floor now inicio fim pausas))))).
    vm_compute. discriminate.
  - apply (proj2 (proj2 (proj2 (proj2 (proj2
             (pause_accounting_with_floor now inicio fim pausas)))))).
    cbn. split; [intros q []|exact I].
Defined.

(** C1 as stated fails when pauses overlap: one hour of business time,
    paused twice over by two identical closed pauses, gives worked = 0 and
    paused = 2, one hour more than the business hours between open and
    end. *)
Lemma pause_accounting_fails_for_overlapping_pauses :
  let now := mk_datetime 2026 2 17 12 0 0 in
  let inicio := mk_datetime 2026 2 16 9 0 0 in
  let fim := mk_datetime 2026 2 16 10 0 0 in
  let pausa := (inicio, Some fim) in
  let r := Metrics._horas_uteis_com_pausas now inicio fim [pausa; pausa] in
  Metrics._horas_uteis (Some inicio) (Some fim) == 1
  /\ fst r == 0 /\ snd r == 2
  /\ ~ fst r + snd r == Metrics._horas_uteis (Some inicio) (Some fim).
Proof.
  cbv zeta. repeat split; vm_compute; solve [reflexivity | discriminate].
Qed.

(* ================================================================== *)
(** * C3: classification                                               *)
(* ================================================================== *)

Lemma Qgeb_true (a b : Q) : Metrics.Qgeb a b = true -> (b <= a)%Q.
Proof. unfold Metrics.Qgeb. apply Qle_bool_iff. Qed.

Lemma Qgtb_true (a b : Q) : Metrics.Qgtb a b = true -> (b < a)%Q.
Proof.
  unfold Metrics.Qgtb. intros H. apply negb_true_iff in H.
  apply Qnot_le_lt. intros L. apply Qle_bool_iff in L. congruence.
Qed.

(** Reaching the limit is reaching 100 %. *)
Lemma percentual_ge_100 (trab lim : Q) :
  (0 < lim)%Q -> (lim <= trab)%Q -> (100 <= Metrics.percentual trab lim)%Q.
Proof.
  intros Hl Ht. unfold Metrics.percentual.
  destruct (Qlt_le_dec 0 lim) as [_|N]; [|lra].
  change 100%Q with (inject_Z 100). apply py_round_ge_Z.
  change (inject_Z 100) with 100%Q.
  assert (1 <= trab / lim)%Q by (apply Qle_shift_div_l; lra).
  lra.
Qed.

Lemma calcular_sla_chamado_some {mi : Minusculas} (db : BD) (now : datetime) (chamado : Chamado)
      (r : Metrics.SlaChamado) :
  Metrics.calcular_sla_chamado db now chamado = Some r ->
  exists abertura cfg,
    data_abertura chamado = Some abertura
    /\ Metrics.SLA_DATA_INICIO <= abertura
    /\ Metrics.config_do_chamado db chamado = Some cfg
    /\ r = Metrics.avaliar now chamado abertura cfg (Metrics._pausas db (id chamado)).
Proof.
  unfold Metrics.calcular_sla_chamado.
  destruct (data_abertura chamado) as [ab|]; [|discriminate].
  destruct (Z.ltb_spec ab Metrics.SLA_DATA_INICIO); [discriminate|].
  destruct (Metrics.config_do_chamado db chamado) as [cfg|]; [|discriminate].
  intros E. injection E as <-. exists ab, cfg. repeat split; auto.
Qed.

(** Reads the flags of a result back into inequalities and settles the
    goals that follow from them. *)
Ltac classifica :=
  intros;
  repeat match goal with
    | H : (_ && _)%bool = true |- _ => apply andb_true_iff in H as [? ?]
    | H : negb _ = true |- _ => apply negb_true_iff in H
    | H : Metrics.Qgeb _ _ = true |- _ => apply Qgeb_true in H
    | H : Metrics.Qgtb _ _ = true |- _ => apply Qgtb_true in H
    end;
  first
    [ assumption
    | discriminate
    | reflexivity
    | apply percentual_ge_100;
      [assumption | first [assumption | apply Qlt_le_weak; assumption]]
    | apply Qlt_le_weak; assumption
    | match goal with H : ?b = true |- context [negb ?b] => rewrite H end;
      simpl; rewrite ?andb_false_r; reflexivity ].

Lemma exatamente_um_flags (venc risco : bool) :
  (risco = true -> venc = false) ->
  exatamente_um (negb venc && negb risco) risco venc.
Proof.
  unfold exatamente_um. destruct venc, risco; simpl; intros H; auto.
  specialize (H eq_refl). discriminate.
Qed.

Lemma metrics_classificacao {mi : Minusculas}
      (db : BD) (now : datetime) (chamado : Chamado)
        (cfg : Metrics.Cfg) (r : Metrics.SlaChamado) :
  Metrics.calcular_sla_chamado db now chamado = Some r ->
  Metrics.config_do_chamado db chamado = Some cfg ->
  let final := pertence (Metrics.s_status r) Metrics.STATUS_FINAIS in
  exatamente_um (Metrics.resolucao_em_dia r) (Metrics.resolucao_em_risco r)
                (Metrics.resolucao_vencida r)
  /\ exatamente_um (Metrics.resposta_em_dia r) (Metrics.resposta_em_risco r)
                   (Metrics.resposta_vencida r)
  /\ (Metrics.resolucao_vencida r = true ->
      (Metrics.resolucao_limite_horas r <= Metrics.resolucao_trabalhado_horas r)%Q
      /\ ((0 < Metrics.resolucao_limite_horas r)%Q ->
          (100 <= Metrics.percentual_resolucao r)%Q)
      /\ final = false)
  /\ (Metrics.resolucao_em_risco r = true ->
      (Metrics.risco cfg <= Metrics.percentual_resolucao r)%Q
      /\ Metrics.resolucao_vencida r = false /\ final = false)
  /\ (Metrics.resposta_vencida r = true ->
      (Metrics.resposta_limite_horas r <= Metrics.resposta_trabalhado_horas r)%Q
      /\ ((0 < Metrics.resposta_limite_horas r)%Q ->
          (100 <= Metrics.percentual_resposta r)%Q))
  /\ (Metrics.resposta_em_risco r = true ->
      (Metrics.risco cfg <= Metrics.percentual_resposta r)%Q
      /\ Metrics.resposta_vencida r = false /\ final = false
      /\ data_primeira_resposta chamado = None)
  /\ (final = true ->
      Metrics.resolucao_vencida r = false /\ Metrics.resolucao_em_risco r = false
      /\ Metrics.resposta_em_risco r = false
      /\ (data_primeira_resposta chamado = None -> Metrics.resposta_vencida r = false)).
Proof.
  intros Hr Hc final.
  destruct (calcular_sla_chamado_some db now chamado r Hr)
    as (ab & cfg' & Hab & He & Hc' & ->).
  rewrite Hc in Hc'. injection Hc' as <-. clear Hr Hc.
  subst final. unfold Metrics.avaliar.
  set (st := str_or (status chamado) "Aberto").
  set (fin := pertence st Metrics.STATUS_FINAIS).
  set (ref := if negb fin then now else _).
  destruct (Metrics._horas_uteis_com_pausas now ab ref (Metrics._pausas db (id chamado)))
    as [res_trab res_paus].
  destruct (data_primeira_resposta chamado) as [primeira|];
    [destruct (Metrics._horas_uteis_com_pausas now ab primeira
                 (Metrics._pausas db (id chamado))) as [resp_trab resp_paus]|];
    cbn [Metrics.resolucao_em_dia Metrics.resolucao_em_risco Metrics.resolucao_vencida
         Metrics.resposta_em_dia Metrics.resposta_em_risco Metrics.resposta_vencida
         Metrics.resolucao_limite_horas Metrics.resolucao_trabalhado_horas
         Metrics.percentual_resolucao Metrics.resposta_limite_horas
         Metrics.resposta_trabalhado_horas Metrics.percentual_resposta Metrics.s_status];
    fold st; fold fin.
  all: (split; [apply exatamente_um_flags; classifica|]).
  all: (split; [apply exatamente_um_flags; classifica|]).
  all: repeat split; classifica.
Qed.

Lemma calc_percentual_ge_100 (efetivo limite : Q) :
  (0 < limite)%Q -> (limite <= efetivo)%Q ->
  (100 <= Calculator.percentual efetivo limite)%Q.
Proof.
  intros Hl He. unfold Calculator.percentual.
  destruct (Qlt_le_dec 0 limite) as [_|N]; [|lra].
  assert (1 <= efetivo / limite)%Q by (apply Qle_shift_div_l; lra).
  lra.
Qed.

(** What the flags of one clock of calculator.py say, the flags being
    [vencida = (limite <= efetivo)] and
    [em_risco = (risco <= percentual) and not vencida]. *)
Lemma calculator_relogio (limite risco efetivo : Q) :
  let vencida := Qle_bool limite efetivo in
  let em_risco := Qle_bool risco (Calculator.percentual efetivo limite) && negb vencida in
  exatamente_um (negb vencida && negb em_risco) em_risco vencida
  /\ (vencida = true ->
      (limite <= efetivo)%Q
      /\ ((0 < limite)%Q ->
          (100 <= py_round (Calculator.percentual efetivo limite) 2)%Q))
  /\ (em_risco = true ->
      (risco <= Calculator.percentual efetivo limite)%Q
      /\ (py_round risco 2 <= py_round (Calculator.percentual efetivo limite) 2)%Q
      /\ vencida = false).
Proof.
  intros vencida em_risco. split; [|split].
  - apply exatamente_um_flags. unfold em_risco. intros H.
    apply andb_true_iff in H as [_ H]. now apply negb_true_iff in H.
  - intros V. apply Qle_bool_iff in V. split; [exact V|]. intros L.
    change 100%Q with (inject_Z 100). apply py_round_ge_Z.
    change (inject_Z 100) with 100%Q. now apply calc_percentual_ge_100.
  - unfold em_risco. intros R. apply andb_true_iff in R as [R N].
    apply Qle_bool_iff in R. apply negb_true_iff in N.
    split; [exact R|]. split; [now apply py_round_mono | exact N].
Qed.

Lemma calculator_classificacao (db : BD) (now : datetime) (chamado : Chamado)
      (self : Calculator.CalculadorSLA) (r : Calculator.ResultadoSLA) :
  fst (Calculator.calcular_sla db now chamado self) = Calculator.Retorna r ->
  let final := match status chamado with
               | Some st => pertence st Calculator.STATUS_FINAL
               | None => false
               end in
  exatamente_um (Calculator.resolucao_em_dia r) (Calculator.resolucao_em_risco r)
                (Calculator.resolucao_vencida r)
  /\ exatamente_um (Calculator.resposta_em_dia r) (Calculator.resposta_em_risco r)
                   (Calculator.resposta_vencida r)
  /\ (final = true ->
      Calculator.resolucao_vencida r = false /\ Calculator.resolucao_em_risco r = false)
  /\ (data_primeira_resposta chamado <> None ->
      Calculator.resposta_vencida r = false /\ Calculator.resposta_em_risco r = false)
  /\ (forall (config : ConfiguracaoSLA) (abertura : datetime),
        Calculator.obter_configuracao_sla db (prioridade chamado) = Some config ->
        data_abertura chamado = Some abertura ->
        let efetivo_resposta := tempo_efetivo db now chamado abertura self in
        let self' :=
          match data_primeira_resposta chamado with
          | None => snd (Calculator.calcular_horas_uteis db abertura
                           (referencia now chamado) self)
          | Some _ => self
          end in
        let efetivo_resolucao := tempo_efetivo db now chamado abertura self' in
        (data_primeira_resposta chamado = None ->
         Calculator.resposta_vencida r
         = Qle_bool (tempo_resposta_horas config) efetivo_resposta
         /\ Calculator.resposta_em_risco r
            = Qle_bool (percentual_risco config)
                       (Calculator.percentual efetivo_resposta
                                              (tempo_resposta_horas config))
              && negb (Calculator.resposta_vencida r))
        /\ (final = false ->
            Calculator.resolucao_vencida r
            = Qle_bool (tempo_resolucao_horas config) efetivo_resolucao
            /\ Calculator.resolucao_em_risco r
               = Qle_bool (percentual_risco config)
                          (Calculator.percentual efetivo_resolucao
                                                 (tempo_resolucao_horas config))
                 && negb (Calculator.resolucao_vencida r))
        /\ (Calculator.resposta_vencida r = true ->
            (tempo_resposta_horas config <= efetivo_resposta)%Q
            /\ ((0 < tempo_resposta_horas config)%Q ->
                (100 <= Calculator.percentual_resposta r)%Q))
        /\ (Calculator.resposta_em_risco r = true ->
            (percentual_risco config
             <= Calculator.percentual efetivo_resposta (tempo_resposta_horas config))%Q
            /\ (py_round (percentual_risco config) 2
                <= Calculator.percentual_resposta r)%Q
            /\ Calculator.resposta_vencida r = false)
        /\ (Calculator.resolucao_vencida r = true ->
            (tempo_resolucao_horas config <= efetivo_resolucao)%Q
            /\ ((0 < tempo_resolucao_horas config)%Q ->
                (100 <= Calculator.percentual_resolucao r)%Q)
            /\ final = false)
        /\ (Calculator.resolucao_em_risco r = true ->
            (percentual_risco config
             <= Calculator.percentual efetivo_resolucao (tempo_resolucao_horas config))%Q
            /\ (py_round (percentual_risco config) 2
                <= Calculator.percentual_resolucao r)%Q
            /\ Calculator.resolucao_vencida r = false /\ final = false)).
Proof.
  intros Hr final. revert Hr. subst final. cbv zeta.
  unfold tempo_efetivo, referencia, Calculator.calcular_sla.
  destruct (Calculator.obter_configuracao_sla db (prioridade chamado)) as [config|].
  2:{ cbn. intros E. injection E as <-. cbn.
      split; [left; repeat split|]. split; [left; repeat split|].
      split; [now split|]. split; [now split|]. intros config ab E. discriminate. }
  destruct (data_abertura chamado) as [ab|]; [|discriminate].
  cbv zeta.
  set (final := match status chamado with
                | Some st => pertence st Calculator.STATUS_FINAL
                | None => false
                end).
  match goal with
  | |- context [Calculator.calcular_horas_uteis db ab ?t] => set (ref := t)
  end.
  clearbody ref.
  unfold Calculator.bind, Calculator.ret.
  destruct (data_primeira_resposta chamado) as [primeira|].
  - destruct (Calculator.calcular_horas_uteis db ab ref self) as [v self1] eqn:E1.
    pose proof (calculator_relogio (tempo_resolucao_horas config) (percentual_risco config)
                  (py_max 0 (v - Calculator.calcular_tempo_pausado db (id chamado))))
      as (X & V & R).
    cbv zeta in X, V, R.
    destruct final; cbn; intros E; injection E as <-; cbn.
    + split; [left; repeat split|]. split; [left; repeat split|].
      split; [now split|]. split; [now split|].
      intros config' ab' Ec Ea. repeat split; discriminate.
    + split; [exact X|]. split; [left; repeat split|].
      split; [discriminate|]. split; [now split|].
      intros config' ab' Ec Ea. injection Ec as <-. injection Ea as <-.
      rewrite E1. cbn [fst].
      split; [discriminate|]. split; [intros _; now split|].
      split; [discriminate|]. split; [discriminate|].
      split.
      * intros H. destruct (V H) as [A B]. repeat split; assumption.
      * intros H. destruct (R H) as (A & B & C). repeat split; assumption.
  - destruct (Calculator.calcular_horas_uteis db ab ref self) as [v self1] eqn:E1.
    destruct (Calculator.calcular_horas_uteis db ab ref self1) as [v' self2] eqn:E2.
    pose proof (calculator_relogio (tempo_resposta_horas config) (percentual_risco config)
                  (py_max 0 (v - Calculator.calcular_tempo_pausado db (id chamado))))
      as (X0 & V0 & R0).
    pose proof (calculator_relogio (tempo_resolucao_horas config) (percentual_risco config)
                  (py_max 0 (v' - Calculator.calcular_tempo_pausado db (id chamado))))
      as (X & V & R).
    cbv zeta in X0, V0, R0, X, V, R.
    destruct final; cbn; intros E; injection E as <-; cbn.
    + split; [left; repeat split|]. split; [exact X0|].
      split; [now split|]. split; [intros N; now contradiction N|].
      intros config' ab' Ec Ea. injection Ec as <-. injection Ea as <-.
      rewrite E1. cbn [fst snd]. rewrite E2. cbn [fst].
      split; [intros _; now split|]. split; [discriminate|].
      split; [intros H; destruct (V0 H) as [A B]; now split|].
      split; [intros H; destruct (R0 H) as (A & B & C); repeat split; assumption|].
      split; discriminate.
    + split; [exact X|]. split; [exact X0|].
      split; [discriminate|]. split; [intros N; now contradiction N|].
      intros config' ab' Ec Ea. injection Ec as <-. injection Ea as <-.
      rewrite E1. cbn [fst snd]. rewrite E2. cbn [fst].
      split; [intros _; now split|]. split; [intros _; now split|].
      split; [intros H; destruct (V0 H) as [A B]; now split|].
      split; [intros H; destruct (R0 H) as (A & B & C); repeat split; assumption|].
      split.
      * intros H. destruct (V H) as [A B]. repeat split; assumption.
      * intros H. destruct (R H) as (A & B & C). repeat split; assumption.
Qed.

(** The response clock of calculator.py does not look at the status: a
    ticket concluded 4 business hours after opening, never answered, against
    a response limit of 2 hours, is response-breached. *)
Lemma calculator_marks_final_unanswered_ticket :
  exists r,
    fst (Calculator.calcular_sla bd_alta (mk_datetime 2026 2 17 12 0 0)
                                 chamado_concluido_sem_resposta Calculator.novo)
    = Calculator.Retorna r
    /\ Calculator.tempo_resposta_decorrido_horas r == 4
    /\ Calculator.tempo_resposta_limite_horas r == 2
    /\ Calculator.resposta_vencida r = true
    /\ Calculator.resolucao_vencida r = false.
Proof.
  eexists. split; [vm_compute; reflexivity|]. repeat split.
Qed.

(** C3, as the code has it.  In every result of [calcular_sla_chamado]
    of metrics.py, for each clock exactly one of on-time, at-risk and
    breached is set; breached implies worked hours >= limit (and percent
    >= 100 when the limit is positive); at-risk implies percent >= risk
    threshold, not breached and a status that is not final.  A ticket in a
    final status is never resolution-breached, resolution-at-risk or
    response-at-risk, and is response-breached only if it has a first
    response.  In every result of [calcular_sla] of calculator.py, for each
    clock exactly one of the three is set; breached implies effective hours
    (business hours elapsed minus the hours of the closed pauses, floored
    at 0) >= limit, and a reported percent >= 100 when the limit is
    positive; at-risk implies percent >= risk threshold (reported percent
    >= the threshold rounded to 2 decimals) and not breached.  There a
    ticket in a final status is never resolution-breached or
    resolution-at-risk and a ticket with a first response is never
    response-breached or response-at-risk; the response clock of a ticket
    without first response is classified by the same rule whatever the
    status. *)
Theorem classification_exclusive_and_sound {mi : Minusculas} :
  (forall (db : BD) (now : datetime) (chamado : Chamado)
          (cfg : Metrics.Cfg) (r : Metrics.SlaChamado),
      Metrics.calcular_sla_chamado db now chamado = Some r ->
      Metrics.config_do_chamado db chamado = Some cfg ->
      let final := pertence (Metrics.s_status r) Metrics.STATUS_FINAIS in
      exatamente_um (Metrics.resolucao_em_dia r) (Metrics.resolucao_em_risco r)
                    (Metrics.resolucao_vencida r)
      /\ exatamente_um (Metrics.resposta_em_dia r) (Metrics.resposta_em_risco r)
                       (Metrics.resposta_vencida r)
      /\ (Metrics.resolucao_vencida r = true ->
          (Metrics.resolucao_limite_horas r <= Metrics.resolucao_trabalhado_horas r)%Q
          /\ ((0 < Metrics.resolucao_limite_horas r)%Q ->
              (100 <= Metrics.percentual_resolucao r)%Q)
          /\ final = false)
      /\ (Metrics.resolucao_em_risco r = true ->
          (Metrics.risco cfg <= Metrics.percentual_resolucao r)%Q
          /\ Metrics.resolucao_vencida r = false /\ final = false)
      /\ (Metrics.resposta_vencida r = true ->
          (Metrics.resposta_limite_horas r <= Metrics.resposta_trabalhado_horas r)%Q
          /\ ((0 < Metrics.resposta_limite_horas r)%Q ->
              (100 <= Metrics.percentual_resposta r)%Q))
      /\ (Metrics.resposta_em_risco r = true ->
          (Metrics.risco cfg <= Metrics.percentual_resposta r)%Q
          /\ Metrics.resposta_vencida r = false /\ final = false
          /\ data_primeira_resposta chamado = None)
      /\ (final = true ->
          Metrics.resolucao_vencida r = false /\ Metrics.resolucao_em_risco r = false
          /\ Metrics.resposta_em_risco r = false
          /\ (data_primeira_resposta chamado = None ->
              Metrics.resposta_vencida r = false)))
  /\
  (forall (db : BD) (now : datetime) (chamado : Chamado)
          (self : Calculator.CalculadorSLA) (r : Calculator.ResultadoSLA),
      fst (Calculator.calcular_sla db now chamado self) = Calculator.Retorna r ->
      let final := match status chamado with
                   | Some st => pertence st Calculator.STATUS_FINAL
                   | None => false
                   end in
      exatamente_um (Calculator.resolucao_em_dia r) (Calculator.resolucao_em_risco r)
                    (Calculator.resolucao_vencida r)
      /\ exatamente_um (Calculator.resposta_em_dia r) (Calculator.resposta_em_risco r)
                       (Calculator.resposta_vencida r)
      /\ (final = true ->
          Calculator.resolucao_vencida r = false
          /\ Calculator.resolucao_em_risco r = false)
      /\ (data_primeira_resposta chamado <> None ->
          Calculator.resposta_vencida r = false
          /\ Calculator.resposta_em_risco r = false)
      /\ (forall (config : ConfiguracaoSLA) (abertura : datetime),
            Calculator.obter_configuracao_sla db (prioridade chamado) = Some config ->
            data_abertura chamado = Some abertura ->
            let efetivo_resposta := tempo_efetivo db now chamado abertura self in
            let self' :=
              match data_primeira_resposta chamado with
              | None => snd (Calculator.calcular_horas_uteis db abertura
                               (referencia now chamado) self)
              | Some _ => self
              end in
            let efetivo_resolucao := tempo_efetivo db now chamado abertura self' in
            (data_primeira_resposta chamado = None ->
             Calculator.resposta_vencida r
             = Qle_bool (tempo_resposta_horas config) efetivo_resposta
             /\ Calculator.resposta_em_risco r
                = Qle_bool (percentual_risco config)
                           (Calculator.percentual efetivo_resposta
                                                  (tempo_resposta_horas config))
                  && negb (Calculator.resposta_vencida r))
            /\ (final = false ->
                Calculator.resolucao_vencida r
                = Qle_bool (tempo_resolucao_horas config) efetivo_resolucao
                /\ Calculator.resolucao_em_risco r
                   = Qle_bool (percentual_risco config)
                              (Calculator.percentual efetivo_resolucao
                                                     (tempo_resolucao_horas config))
                     && negb (Calculator.resolucao_vencida r))
            /\ (Calculator.resposta_vencida r = true ->
                (tempo_resposta_horas config <= efetivo_resposta)%Q
                /\ ((0 < tempo_resposta_horas config)%Q ->
                    (100 <= Calculator.percentual_resposta r)%Q))
            /\ (Calculator.resposta_em_risco r = true ->
                (percentual_risco config
                 <= Calculator.percentual efetivo_resposta
                                          (tempo_resposta_horas config))%Q
                /\ (py_round (percentual_risco config) 2
                    <= Calculator.percentual_resposta r)%Q
                /\ Calculator.resposta_vencida r = false)
            /\ (Calculator.resolucao_vencida r = true ->
                (tempo_resolucao_horas config <= efetivo_resolucao)%Q
                /\ ((0 < tempo_resolucao_horas config)%Q ->
                    (100 <= Calculator.percentual_resolucao r)%Q)
                /\ final = false)
            /\ (Calculator.resolucao_em_risco r = true ->
                (percentual_risco config
                 <= Calculator.percentual efetivo_resolucao
                                          (tempo_resolucao_horas config))%Q
                /\ (py_round (percentual_risco config) 2
                    <= Calculator.percentual_resolucao r)%Q
                /\ Calculator.resolucao_vencida r = false /\ final = false))).
Proof.
  split.
  - exact metrics_classificacao.
  - exact calculator_classificacao.
Qed.

Lemma classification_exclusive_and_sound_witness :
  let now := mk_datetime 2026 2 17 12 0 0 in
  let cfg := {| Metrics.resposta := 2; Metrics.resolucao := 8; Metrics.risco := 75 |} in
  let r := Metrics.avaliar now chamado_concluido (mk_datetime 2026 2 16 9 0 0) cfg [] in
  exatamente_um (Metrics.resolucao_em_dia r) (Metrics.resolucao_em_risco r)
                (Metrics.resolucao_vencida r).
Proof.
  intros now cfg r.
  refine (proj1 (proj1 classification_exclusive_and_sound bd_alta now
                   chamado_concluido cfg r _ _)); vm_compute; reflexivity.
Defined.

(** C3 as stated fails for the response clock of a final ticket: a ticket
    concluded after a first response given 3 business hours after opening,
    against a limit of 2 hours, is marked response-breached. *)
Lemma final_ticket_marked_response_breached :
  exists r,
    Metrics.calcular_sla_chamado bd_alta (mk_datetime 2026 2 17 12 0 0)
                                 chamado_concluido = Some r
    /\ pertence (Metrics.s_status r) Metrics.STATUS_FINAIS = true
    /\ Metrics.resposta_trabalhado_horas r == 3
    /\ Metrics.resposta_limite_horas r == 2
    /\ Metrics.resposta_vencida r = true.
Proof.
  eexists. split; [vm_compute; reflexivity|]. repeat split.
Qed.

(* ================================================================== *)
(** * C6: the response clock of an answered ticket                     *)
(* ================================================================== *)

Lemma soma_pausas_app (now inicio fim : datetime)
      (l1 l2 : list (datetime * option datetime)) (pausado : Q) :
  Metrics.soma_pausas now inicio fim (l1 ++ l2) pausado =
  Metrics.soma_pausas now inicio fim l2 (Metrics.soma_pausas now inicio fim l1 pausado).
Proof.
  revert pausado. induction l1 as [|[p_ini p_fim] r IH]; intros pausado;
    cbn [Metrics.soma_pausas app]; [reflexivity | apply IH].
Qed.

(** Up to [fim], an evaluation made at or after [fim] does not depend on
    the instant at which it is made. *)
Lemma soma_pausas_now (now1 now2 inicio fim : datetime)
      (pausas : list (datetime * option datetime)) :
  fim <= now1 -> fim <= now2 ->
  forall pausado,
    Metrics.soma_pausas now1 inicio fim pausas pausado =
    Metrics.soma_pausas now2 inicio fim pausas pausado.
Proof.
  intros H1 H2. induction pausas as [|[p_ini [q|]] r IH]; intros pausado;
    cbn [Metrics.soma_pausas].
  - reflexivity.
  - apply IH.
  - rewrite (Z.min_r now1 fim), (Z.min_r now2 fim) by lia. apply IH.
Qed.

Lemma soma_pausas_evolui (now inicio fim : datetime)
      (l l' : list (datetime * option datetime)) :
  fim <= now -> evolui fim l l' ->
  forall pausado,
    Metrics.soma_pausas now inicio fim l pausado =
    Metrics.soma_pausas now inicio fim l' pausado.
Proof.
  intros Hn E. induction E as [l|l1 l2 p_ini q Hq|l p_ini p_fim Hp|l1 l2 l3 _ IH1 _ IH2];
    intros pausado.
  - reflexivity.
  - rewrite !soma_pausas_app. cbn [Metrics.soma_pausas].
    rewrite (Z.min_r now fim), (Z.min_r q fim) by lia. reflexivity.
  - rewrite soma_pausas_app.
    change (Metrics.soma_pausas now inicio fim [(p_ini, p_fim)]
              (Metrics.soma_pausas now inicio fim l pausado))
      with (if Z.max p_ini inicio
               <? Z.min (match p_fim with Some f => f | None => now end) fim
            then (Metrics.soma_pausas now inicio fim l pausado
                  + Metrics._horas_uteis
                      (Some (Z.max p_ini inicio))
                      (Some (Z.min (match p_fim with Some f => f | None => now end) fim)))%Q
            else Metrics.soma_pausas now inicio fim l pausado).
    assert (E : (Z.max p_ini inicio
                 <? Z.min (match p_fim with Some f => f | None => now end) fim) = false)
      by (apply Z.ltb_ge; lia).
    now rewrite E.
  - now rewrite IH1, IH2.
Qed.

Lemma horas_uteis_com_pausas_congelado (now1 now2 inicio fim : datetime)
      (l l' : list (datetime * option datetime)) :
  fim <= now1 -> fim <= now2 -> evolui fim l l' ->
  Metrics._horas_uteis_com_pausas now1 inicio fim l =
  Metrics._horas_uteis_com_pausas now2 inicio fim l'.
Proof.
  intros H1 H2 E. unfold Metrics._horas_uteis_com_pausas.
  rewrite (soma_pausas_now now1 now2 inicio fim l H1 H2).
  rewrite (soma_pausas_evolui now2 inicio fim l l' H2 E). reflexivity.
Qed.

Lemma avaliar_resposta_respondido (now : datetime) (chamado : Chamado)
      (abertura primeira : datetime) (cfg : Metrics.Cfg)
      (pausas : list (datetime * option datetime)) :
  data_primeira_resposta chamado = Some primeira ->
  let r := Metrics.avaliar now chamado abertura cfg pausas in
  let m := Metrics._horas_uteis_com_pausas now abertura primeira pausas in
  Metrics.resposta_trabalhado_horas r = fst m
  /\ Metrics.resposta_pausado_horas r = snd m
  /\ Metrics.percentual_resposta r = Metrics.percentual (fst m) (Metrics.resposta cfg)
  /\ Metrics.resposta_vencida r = Metrics.Qgtb (fst m) (Metrics.resposta cfg)
  /\ Metrics.resposta_em_risco r = false
  /\ Metrics.resposta_em_dia r = negb (Metrics.Qgtb (fst m) (Metrics.resposta cfg)).
Proof.
  intros Hp r m. subst r m. unfold Metrics.avaliar. rewrite Hp.
  destruct (Metrics._horas_uteis_com_pausas now abertura _ pausas) as [a b].
  destruct (Metrics._horas_uteis_com_pausas now abertura primeira pausas) as [w p].
  cbn. rewrite andb_true_r. repeat split.
Qed.

Lemma calculator_resposta_respondido (db : BD) (now : datetime) (chamado : Chamado)
      (self : Calculator.CalculadorSLA) (primeira : datetime)
      (r : Calculator.ResultadoSLA) :
  data_primeira_resposta chamado = Some primeira ->
  fst (Calculator.calcular_sla db now chamado self) = Calculator.Retorna r ->
  Calculator.tempo_resposta_decorrido_horas r == 0
  /\ Calculator.tempo_resposta_pausado_horas r == 0
  /\ Calculator.percentual_resposta r == 0
  /\ Calculator.resposta_vencida r = false
  /\ Calculator.resposta_em_risco r = false
  /\ Calculator.resposta_em_dia r = true.
Proof.
  intros Hp. unfold Calculator.calcular_sla.
  destruct (Calculator.obter_configuracao_sla db (prioridade chamado)) as [config|].
  - destruct (data_abertura chamado) as [ab|]; [|discriminate].
    rewrite Hp. unfold Calculator.bind, Calculator.ret.
    destruct (Calculator.calcular_horas_uteis db ab _ self) as [v self'].
    destruct (negb _); cbn; intros E; injection E as <-; repeat split.
  - cbn. intros E. injection E as <-. repeat split.
Qed.

(** C6, as the code has it.  Once the first response is recorded,
    [calcular_sla_chamado] of metrics.py measures the response clock as
    [_horas_uteis_com_pausas(data_abertura, data_primeira_resposta, pausas)]:
    two evaluations of the ticket made at or after the first response, with
    the same configuration, agree on every field of the response clock,
    whatever the status has become and even if pauses were closed or added
    since the first response; so a response within its limit is never
    marked breached later.  [calcular_sla] of calculator.py does not
    measure the response clock of an answered ticket: it reports zero
    hours, zero percent and no breach, at every evaluation. *)
Theorem response_clock_frozen_once_answered {mi : Minusculas} :
  (forall (db1 db2 : BD) (now1 now2 : datetime) (c1 c2 : Chamado)
          (r1 r2 : Metrics.SlaChamado) (abertura primeira : datetime) (cfg : Metrics.Cfg),
      Metrics.calcular_sla_chamado db1 now1 c1 = Some r1 ->
      Metrics.calcular_sla_chamado db2 now2 c2 = Some r2 ->
      data_abertura c1 = Some abertura -> data_abertura c2 = Some abertura ->
      data_primeira_resposta c1 = Some primeira ->
      data_primeira_resposta c2 = Some primeira ->
      Metrics.config_do_chamado db1 c1 = Some cfg ->
      Metrics.config_do_chamado db2 c2 = Some cfg ->
      evolui primeira (Metrics._pausas db1 (id c1)) (Metrics._pausas db2 (id c2)) ->
      primeira <= now1 -> primeira <= now2 ->
      (Metrics.resposta_trabalhado_horas r1, Metrics.resposta_pausado_horas r1) =
      Metrics._horas_uteis_com_pausas now1 abertura primeira (Metrics._pausas db1 (id c1))
      /\ Metrics.resposta_trabalhado_horas r2 = Metrics.resposta_trabalhado_horas r1
      /\ Metrics.resposta_pausado_horas r2 = Metrics.resposta_pausado_horas r1
      /\ Metrics.percentual_resposta r2 = Metrics.percentual_resposta r1
      /\ Metrics.resposta_vencida r2 = Metrics.resposta_vencida r1
      /\ Metrics.resposta_em_risco r2 = Metrics.resposta_em_risco r1
      /\ Metrics.resposta_em_dia r2 = Metrics.resposta_em_dia r1
      /\ ((Metrics.resposta_trabalhado_horas r1 <= Metrics.resposta_limite_horas r1)%Q ->
          Metrics.resposta_vencida r2 = false))
  /\
  (forall (db : BD) (now : datetime) (chamado : Chamado)
          (self : Calculator.CalculadorSLA) (primeira : datetime)
          (r : Calculator.ResultadoSLA),
      data_primeira_resposta chamado = Some primeira ->
      fst (Calculator.calcular_sla db now chamado self) = Calculator.Retorna r ->
      Calculator.tempo_resposta_decorrido_horas r == 0
      /\ Calculator.tempo_resposta_pausado_horas r == 0
      /\ Calculator.percentual_resposta r == 0
      /\ Calculator.resposta_vencida r = false
      /\ Calculator.resposta_em_risco r = false
      /\ Calculator.resposta_em_dia r = true).
Proof.
  split; [|exact calculator_resposta_respondido].
  intros db1 db2 now1 now2 c1 c2 r1 r2 abertura primeira cfg
         H1 H2 A1 A2 P1 P2 C1 C2 E N1 N2.
  destruct (calcular_sla_chamado_some db1 now1 c1 r1 H1)
    as (ab1 & cfg1 & A1' & _ & C1' & ->).
  destruct (calcular_sla_chamado_some db2 now2 c2 r2 H2)
    as (ab2 & cfg2 & A2' & _ & C2' & ->).
  assert (ab1 = abertura) by congruence. assert (ab2 = abertura) by congruence.
  assert (cfg1 = cfg) by congruence. assert (cfg2 = cfg) by congruence.
  subst ab1 ab2 cfg1 cfg2.
  destruct (avaliar_resposta_respondido now1 c1 abertura primeira cfg
              (Metrics._pausas db1 (id c1)) P1) as (T1 & U1 & V1 & W1 & X1 & Y1).
  destruct (avaliar_resposta_respondido now2 c2 abertura primeira cfg
              (Metrics._pausas db2 (id c2)) P2) as (T2 & U2 & V2 & W2 & X2 & Y2).
  pose proof (horas_uteis_com_pausas_congelado now1 now2 abertura primeira
                _ _ N1 N2 E) as F.
  rewrite <- F in T2, U2, V2, W2, Y2.
  split; [rewrite T1, U1; now destruct (Metrics._horas_uteis_com_pausas _ _ _ _)|].
  split; [congruence|]. split; [congruence|]. split; [congruence|].
  split; [congruence|]. split; [congruence|]. split; [congruence|].
  intros L. rewrite W2, <- T1.
  assert (Lim : Metrics.resposta_limite_horas
                  (Metrics.avaliar now1 c1 abertura cfg (Metrics._pausas db1 (id c1)))
                = Metrics.resposta cfg).
  { unfold Metrics.avaliar.
    destruct (Metrics._horas_uteis_com_pausas now1 abertura _ _) as [a b].
    rewrite P1.
    destruct (Metrics._horas_uteis_com_pausas now1 abertura primeira _) as [w p].
    reflexivity. }
  rewrite Lim in L. unfold Metrics.Qgtb.
  apply Qle_bool_iff in L. now rewrite L.
Qed.

Lemma response_clock_frozen_once_answered_witness :
  let now1 := mk_datetime 2026 2 16 12 30 0 in
  let now2 := mk_datetime 2026 2 17 12 0 0 in
  Metrics.resposta_vencida
    (Metrics.avaliar now2 chamado_concluido (mk_datetime 2026 2 16 9 0 0)
       {| Metrics.resposta := 2; Metrics.resolucao := 8; Metrics.risco := 75 |} []) =
  Metrics.resposta_vencida
    (Metrics.avaliar now1 chamado_em_atendimento (mk_datetime 2026 2 16 9 0 0)
       {| Metrics.resposta := 2; Metrics.resolucao := 8; Metrics.risco := 75 |} []).
Proof.
  intros now1 now2.
  refine (proj1 (proj2 (proj2 (proj2 (proj2
            (proj1 response_clock_frozen_once_answered
               bd_alta bd_alta now1 now2 chamado_em_atendimento chamado_concluido
               _ _ (mk_datetime 2026 2 16 9 0 0) (mk_datetime 2026 2 16 12 0 0)
               {| Metrics.resposta := 2; Metrics.resolucao := 8; Metrics.risco := 75 |}
               _ _ _ _ _ _ _ _ _ _ _))))));
    try (vm_compute; solve [reflexivity | discriminate]).
  apply evolui_igual.
Defined.

(** C6 as stated fails in calculator.py: for the ticket answered 3
    business hours after opening, [calcular_sla] reports 0 response hours,
    not the 3 hours between opening and first response that metrics.py
    reports. *)
Lemma calculator_does_not_measure_answered_response :
  let now := mk_datetime 2026 2 17 12 0 0 in
  fst (Metrics._horas_uteis_com_pausas now (mk_datetime 2026 2 16 9 0 0)
                                       (mk_datetime 2026 2 16 12 0 0) []) == 3
  /\ (exists r, Metrics.calcular_sla_chamado bd_alta now chamado_concluido = Some r
                /\ Metrics.resposta_trabalhado_horas r == 3)
  /\ (exists r, fst (Calculator.calcular_sla bd_alta now chamado_concluido Calculator.novo)
                = Calculator.Retorna r
                /\ Calculator.tempo_resposta_decorrido_horas r == 0
                /\ ~ Calculator.tempo_resposta_decorrido_horas r == 3).
Proof.
  cbv zeta. split; [vm_compute; reflexivity|]. split.
  - eexists. split; [vm_compute; reflexivity|]. vm_compute. reflexivity.
  - eexists. split; [vm_compute; reflexivity|].
    split; vm_compute; solve [reflexivity | discriminate].
Qed.

(* ================================================================== *)
(** * C7: no configuration                                             *)
(* ================================================================== *)

Lemma find_none_iff {A : Type} (f : A -> bool) (l : list A) :
  (forall x, In x l -> f x = false) -> find f l = None.
Proof.
  induction l as [|a l IH]; intros H; simpl; [reflexivity|].
  rewrite (H a (or_introl eq_refl)). apply IH. intros x Hx. apply H. now right.
Qed.

Lemma dict_get_none {V : Type} (k : string) (d : list (string * V)) :
  (forall k' v, In (k', v) d -> k' <> k) -> dict_get String.eqb k d = None.
Proof.
  induction d as [|[k' v] d IH]; intros H; simpl; [reflexivity|].
  rewrite IH by (intros k0 v0 Hin; apply (H k0 v0); now right).
  destruct (String.eqb_spec k k') as [->|_]; [|reflexivity].
  exfalso. apply (H k' v); [now left | reflexivity].
Qed.

Lemma sem_dados_vazio : sem_dados Calculator._criar_resultado_vazio.
Proof. unfold sem_dados. cbn. repeat split; reflexivity. Qed.

Lemma calculator_sem_config (db : BD) (now : datetime) (chamado : Chamado)
      (self : Calculator.CalculadorSLA) :
  (forall c, In c (configuracoes db) -> cfg_ativo c = true ->
             Some (cfg_prioridade c) <> prioridade chamado) ->
  Calculator.calcular_sla db now chamado self =
  (Calculator.Retorna Calculator._criar_resultado_vazio, self).
Proof.
  intros H. unfold Calculator.calcular_sla.
  assert (E : Calculator.obter_configuracao_sla db (prioridade chamado) = None).
  { unfold Calculator.obter_configuracao_sla.
    destruct (prioridade chamado) as [p|] eqn:Ep; [|reflexivity].
    apply find_none_iff. intros c Hc.
    destruct (cfg_ativo c) eqn:Ea; [|apply andb_false_r].
    rewrite andb_true_r. apply String.eqb_neq. intros Eq.
    apply (H c Hc Ea). now rewrite Eq. }
  now rewrite E.
Qed.

Lemma metrics_sem_config {mi : Minusculas} (db : BD) (chamado : Chamado) :
  (forall c, In c (configuracoes db) -> cfg_ativo c = true ->
             lower (cfg_prioridade c) <> lower (str_or (prioridade chamado) "normal")
             /\ lower (cfg_prioridade c) <> "normal"%string) ->
  Metrics.config_do_chamado db chamado = None.
Proof.
  intros H. unfold Metrics.config_do_chamado.
  assert (K : forall k' v, In (k', v) (Metrics._configs db) ->
                           k' <> lower (str_or (prioridade chamado) "normal")
                           /\ k' <> "normal"%string).
  { intros k' v Hin. unfold Metrics._configs in Hin.
    apply in_map_iff in Hin as (c & Ec & Hc). apply filter_In in Hc as [Hc Ha].
    injection Ec as <- _. now apply H. }
  rewrite dict_get_none by (intros k' v Hin; apply (K k' v Hin)).
  apply dict_get_none. intros k' v Hin. apply (K k' v Hin).
Qed.

(** C7, as the code has it.  A ticket whose priority has no active
    configuration row is evaluated without an exception.  [CalculadorSLA.calcular_sla] returns
    the empty result, with every numeric field zero and no risk or breach
    flag set, and leaves the calculator untouched.
    [ServicoMetricasSLA.calcular_sla_chamado], which also tries the
    "normal" row, returns [None] when that is missing too, and the
    dashboard loop then skips the ticket. *)
Theorem missing_configuration_degrades {mi : Minusculas} :
  (forall (db : BD) (now : datetime) (chamado : Chamado)
          (self : Calculator.CalculadorSLA),
      (forall c, In c (configuracoes db) -> cfg_ativo c = true ->
                 Some (cfg_prioridade c) <> prioridade chamado) ->
      exists r, Calculator.calcular_sla db now chamado self = (Calculator.Retorna r, self)
                /\ sem_dados r)
  /\
  (forall (db : BD) (now : datetime) (chamado : Chamado),
      (forall c, In c (configuracoes db) -> cfg_ativo c = true ->
                 lower (cfg_prioridade c) <> lower (str_or (prioridade chamado) "normal")
                 /\ lower (cfg_prioridade c) <> "normal"%string) ->
      Metrics.calcular_sla_chamado db now chamado = None
      /\ forall a, Metrics.passo db now a chamado = a).
Proof.
  split.
  - intros db now chamado self H. exists Calculator._criar_resultado_vazio.
    split; [now apply calculator_sem_config | apply sem_dados_vazio].
  - intros db now chamado H.
    assert (E : Metrics.calcular_sla_chamado db now chamado = None).
    { unfold Metrics.calcular_sla_chamado.
      destruct (data_abertura chamado) as [ab|]; [|reflexivity].
      destruct (ab <? Metrics.SLA_DATA_INICIO); [reflexivity|].
      now rewrite (metrics_sem_config db chamado H). }
    split; [exact E|]. intros a. unfold Metrics.passo. now rewrite E.
Qed.

Lemma missing_configuration_degrades_witness :
  (exists r, Calculator.calcular_sla bd_alta (mk_datetime 2026 2 17 12 0 0)
                                     chamado_sem_config Calculator.novo
             = (Calculator.Retorna r, Calculator.novo)
             /\ sem_dados r)
  /\ Metrics.calcular_sla_chamado bd_alta (mk_datetime 2026 2 17 12 0 0)
                                  chamado_sem_config = None.
Proof.
  split.
  - apply (proj1 missing_configuration_degrades).
    intros c [<-|[]] _. vm_compute. discriminate.
  - apply (proj2 missing_configuration_degrades bd_alta (mk_datetime 2026 2 17 12 0 0)
                 chamado_sem_config).
    intros c [<-|[]] _. split; vm_compute; discriminate.
Defined.

(** C7 as stated fails in metrics.py: without a row for "Baixa" and
    without a "normal" row, [calcular_sla_chamado] returns [None], not a
    zeroed result, and the dashboard leaves the ticket out of its total
    while still counting it as open. *)
Lemma metrics_returns_none_without_configuration :
  let now := mk_datetime 2026 2 17 12 0 0 in
  let db := com_chamados bd_alta [chamado_sem_config] in
  Metrics.populacao db now None None = [chamado_sem_config]
  /\ Metrics.calcular_sla_chamado db now chamado_sem_config = None
  /\ Metrics.total_chamados (Metrics.obter_metricas_dashboard db now None None) = 0
  /\ Metrics.chamados_abertos (Metrics.obter_metricas_dashboard db now None None) = 1.
Proof.
  cbv zeta. repeat split; vm_compute; reflexivity.
Qed.

(* ================================================================== *)
(** * C2: tickets opened before the cutover                            *)
(* ================================================================== *)

Lemma consulta_antes_do_corte (di df : datetime) (chamado : Chamado) (abertura : datetime) :
  data_abertura chamado = Some abertura -> abertura < Metrics.SLA_DATA_INICIO ->
  Metrics.consulta di df chamado = false.
Proof.
  intros Ha Hlt. unfold Metrics.consulta. rewrite Ha.
  destruct (status chamado); [|reflexivity].
  assert (E : (abertura >=? Metrics.SLA_DATA_INICIO) = false)
    by (rewrite Z.geb_leb; apply Z.leb_gt; lia).
  now rewrite E.
Qed.

Lemma filter_sem (A : Type) (f : A -> bool) (l1 l2 : list A) (x : A) :
  f x = false -> filter f (l1 ++ x :: l2) = filter f (l1 ++ l2).
Proof. intros H. rewrite !filter_app. simpl. now rewrite H. Qed.

(** C2.  For a ticket opened strictly before 2026-02-16 00:00,
    [calcular_sla_chamado] returns [None], the population query of the
    dashboard never returns the ticket, and the whole dashboard payload is
    the one computed from the ticket table without it. *)
Theorem cutover_exclusion {mi : Minusculas}
        (db : BD) (now : datetime) (chamado : Chamado) (abertura : datetime) :
  data_abertura chamado = Some abertura ->
  abertura < Metrics.SLA_DATA_INICIO ->
  Metrics.calcular_sla_chamado db now chamado = None
  /\ (forall di df, ~ In chamado (Metrics.populacao db now di df))
  /\ (forall antes depois di df,
         Metrics.obter_metricas_dashboard
           (com_chamados db (antes ++ chamado :: depois)) now di df =
         Metrics.obter_metricas_dashboard
           (com_chamados db (antes ++ depois)) now di df).
Proof.
  intros Ha Hlt. split; [|split].
  - unfold Metrics.calcular_sla_chamado. rewrite Ha.
    apply Z.ltb_lt in Hlt. now rewrite Hlt.
  - intros di df Hin. unfold Metrics.populacao in Hin.
    destruct (Metrics.periodo now di df) as [i f].
    apply filter_In in Hin as [_ Hc].
    rewrite (consulta_antes_do_corte i f chamado abertura Ha Hlt) in Hc. discriminate.
  - intros antes depois di df.
    assert (P : Metrics.populacao (com_chamados db (antes ++ chamado :: depois)) now di df
                = Metrics.populacao (com_chamados db (antes ++ depois)) now di df).
    { unfold Metrics.populacao. destruct (Metrics.periodo now di df) as [i f].
      cbn [chamados com_chamados].
      apply filter_sem. exact (consulta_antes_do_corte i f chamado abertura Ha Hlt). }
    unfold Metrics.obter_metricas_dashboard. rewrite P. reflexivity.
Qed.

Lemma cutover_exclusion_witness :
  Metrics.calcular_sla_chamado bd_alta (mk_datetime 2026 2 17 12 0 0) chamado_antigo = None
  /\ (forall di df,
         ~ In chamado_antigo
              (Metrics.populacao bd_alta (mk_datetime 2026 2 17 12 0 0) di df))
  /\ (forall antes depois di df,
         Metrics.obter_metricas_dashboard
           (com_chamados bd_alta (antes ++ chamado_antigo :: depois))
           (mk_datetime 2026 2 17 12 0 0) di df =
         Metrics.obter_metricas_dashboard
           (com_chamados bd_alta (antes ++ depois))
           (mk_datetime 2026 2 17 12 0 0) di df).
Proof.
  apply (cutover_exclusion bd_alta (mk_datetime 2026 2 17 12 0 0) chamado_antigo
                           (mk_datetime 2026 2 10 9 0 0)).
  - reflexivity.
  - vm_compute. reflexivity.
Defined.

(* ================================================================== *)
(** * C8: open pauses per ticket                                       *)
(* ================================================================== *)

Lemma find_none_filter {A : Type} (f : A -> bool) (l : list A) :
  find f l = None -> filter f l = [].
Proof.
  induction l as [|a l IH]; simpl; [reflexivity|].
  destruct (f a); [discriminate | exact IH].
Qed.

Lemma aberta_de_fechar (i : Z) (q : datetime) (p : SLAPausa) :
  aberta_de i (fechar q p) = false.
Proof. unfold aberta_de, fechar. cbn. apply andb_false_r. Qed.

Lemma aberta_de_outro (i j : Z) (p : SLAPausa) :
  chamado_id p = i -> j <> i -> aberta_de j p = false.
Proof.
  intros E N. unfold aberta_de. rewrite E.
  apply Z.eqb_neq in N. rewrite Z.eqb_sym in N. now rewrite N.
Qed.

Lemma abertas_fechar_primeira (sel : SLAPausa -> bool) (q : datetime) (i : Z)
      (l : list SLAPausa) :
  (List.length (filter (aberta_de i) (fechar_primeira sel q l))
   <= List.length (filter (aberta_de i) l))%nat.
Proof.
  induction l as [|p l IH]; simpl; [lia|].
  destruct (sel p); simpl.
  - rewrite (aberta_de_fechar i q p). destruct (aberta_de i p); simpl; lia.
  - destruct (aberta_de i p); simpl; lia.
Qed.

Lemma abertas_fechar_todas (j : Z) (q : datetime) (i : Z) (l : list SLAPausa) :
  (List.length (filter (aberta_de i)
                       (map (fun p => if aberta_de j p then fechar q p else p) l))
   <= List.length (filter (aberta_de i) l))%nat.
Proof.
  induction l as [|p l IH]; simpl; [lia|].
  destruct (aberta_de j p); simpl.
  - rewrite (aberta_de_fechar i q p). destruct (aberta_de i p); simpl; lia.
  - destruct (aberta_de i p); simpl; lia.
Qed.

Lemma abertas_remover_primeira (sel : SLAPausa -> bool) (i : Z) (l : list SLAPausa) :
  (List.length (filter (aberta_de i) (Routes.remover_primeira sel l))
   <= List.length (filter (aberta_de i) l))%nat.
Proof.
  induction l as [|p l IH]; simpl; [lia|].
  destruct (sel p); simpl; destruct (aberta_de i p); simpl; lia.
Qed.

(** A pause appended for a ticket that has none open. *)
Lemma abertas_nova (db : BD) (i : Z) (nova : SLAPausa) :
  no_maximo_uma_aberta db ->
  chamado_id nova = i ->
  find (aberta_de i) (pausas db) = None ->
  no_maximo_uma_aberta (com_pausas db (pausas db ++ [nova])).
Proof.
  intros Inv Ei Hf j. unfold abertas. cbn [pausas com_pausas].
  rewrite filter_app, length_app.
  destruct (Z.eq_dec j i) as [->|N].
  - rewrite (find_none_filter _ _ Hf). simpl. destruct (aberta_de i nova); simpl; lia.
  - specialize (Inv j). unfold abertas in Inv.
    simpl. rewrite (aberta_de_outro i j nova Ei N). simpl. lia.
Qed.

Lemma executar_preserva (db : BD) (op : Operacao) :
  no_maximo_uma_aberta db -> no_maximo_uma_aberta (executar db op).
Proof.
  intros Inv. destruct op as [i st t|i st t|i st t|i t|i]; cbn [executar].
  - unfold Calculator.pausar_automaticamente.
    destruct (negb _); [exact Inv|].
    destruct (find (aberta_de i) (pausas db)) eqn:Hf; [exact Inv|].
    cbn [snd]. now apply (abertas_nova db i).
  - unfold Calculator.retomar_automaticamente.
    destruct (pertence _ _); [exact Inv|].
    destruct (find (aberta_de i) (pausas db)); [|exact Inv].
    cbn [snd]. intros j. unfold abertas. cbn [pausas com_pausas].
    pose proof (abertas_fechar_primeira (aberta_de i) t j (pausas db)).
    specialize (Inv j). unfold abertas in Inv. lia.
  - unfold Service.pausar_sla_chamado.
    destruct (pertence _ _).
    + destruct (find (aberta_de i) (pausas db)) eqn:Hf; [exact Inv|].
      destruct (existsb _ (chamados db)); [|exact Inv].
      cbn [snd]. now apply (abertas_nova db i).
    + cbn [snd]. intros j. unfold abertas. cbn [pausas com_pausas].
      pose proof (abertas_fechar_todas i t j (pausas db)).
      specialize (Inv j). unfold abertas in Inv. lia.
  - unfold Routes.retomar_pausa.
    destruct (find _ (pausas db)) as [p|]; [|exact Inv].
    destruct (fim p); [exact Inv|].
    cbn [snd]. intros j. unfold abertas. cbn [pausas com_pausas].
    pose proof (abertas_fechar_primeira (fun p => pausa_id p =? i) t j (pausas db)).
    specialize (Inv j). unfold abertas in Inv. lia.
  - unfold Routes.deletar_pausa.
    destruct (find _ (pausas db)); [|exact Inv].
    cbn [snd]. intros j. unfold abertas. cbn [pausas com_pausas].
    pose proof (abertas_remover_primeira (fun p => pausa_id p =? i) j (pausas db)).
    specialize (Inv j). unfold abertas in Inv. lia.
Qed.

(** C8.  At most one open pause per ticket.  From a table in which no
    ticket has more than one open pause (one without open pauses, for
    instance), every sequence of calls of the status hooks of calculator.py
    and of service.py (the one behind
    [POST /api/sla/chamado/{chamado_id}/pausar] of main.py) and of the
    resume and delete calls of routes.py leaves at most one open pause per
    ticket.  With
    a pause already open, opening is a no-op: [pausar_automaticamente]
    hands the open pause back and [pausar_sla_chamado], whose result is a
    flag, reports [False]; neither changes the table. *)
Theorem status_hooks_keep_one_open_pause (ops : list Operacao) (db : BD) :
  no_maximo_uma_aberta db ->
  no_maximo_uma_aberta (fold_left executar ops db)
  /\ (forall i st t p,
         find (aberta_de i) (pausas db) = Some p ->
         pertence st Calculator.STATUS_PAUSA = true ->
         Calculator.pausar_automaticamente db i st t = (Some p, db))
  /\ (forall i st t p,
         find (aberta_de i) (pausas db) = Some p ->
         pertence st ["Aguardando"%string] = true ->
         Service.pausar_sla_chamado db t i st = (false, db)).
Proof.
  intros Inv. split; [|split].
  - revert db Inv. induction ops as [|op ops IH]; intros db Inv; simpl; [exact Inv|].
    apply IH. now apply executar_preserva.
  - intros i st t p Hf Hs. unfold Calculator.pausar_automaticamente.
    now rewrite Hs, Hf.
  - intros i st t p Hf Hs. unfold Service.pausar_sla_chamado.
    now rewrite Hs, Hf.
Qed.

Lemma status_hooks_keep_one_open_pause_witness :
  let ops :=
    [ PausarSlaChamado 1 "Aguardando" (mk_datetime 2026 2 16 10 0 0);
      PausarAutomaticamente 1 "Aguardando" (mk_datetime 2026 2 16 10 30 0);
      PausarSlaChamado 1 "Aguardando" (mk_datetime 2026 2 16 11 0 0);
      RetomarAutomaticamente 1 "Em atendimento" (mk_datetime 2026 2 16 14 0 0);
      PausarSlaChamado 1 "Aguardando" (mk_datetime 2026 2 17 9 0 0) ] in
  (abertas 1 (fold_left executar ops bd_um_chamado) <= 1)%nat.
Proof.
  intros ops.
  apply (proj1 (status_hooks_keep_one_open_pause ops bd_um_chamado
                  (fun j => Nat.le_0_l 1)) 1).
Defined.

(** [POST /pausa] of routes.py is not among the operations above: main.py
    does not mount the router of routes.py, its SLA endpoints call
    service.py.  As it is written that endpoint inserts a manual pause
    without looking for an open one: from a table without pauses, two
    requests for ticket 1 would leave two open pauses.  The resume and
    delete calls of the same module are among the operations; they only
    close or remove a pause. *)
Lemma manual_pause_twice_leaves_two_open :
  let db0 := bd_um_chamado in
  let db1 := snd (Routes.criar_pausa db0 (mk_datetime 2026 2 16 10 0 0) 1 None) in
  let db2 := snd (Routes.criar_pausa db1 (mk_datetime 2026 2 16 11 0 0) 1 None) in
  abertas 1 db0 = 0%nat
  /\ no_maximo_uma_aberta db0
  /\ abertas 1 db2 = 2%nat
  /\ ~ no_maximo_uma_aberta db2.
Proof.
  cbv zeta. split; [reflexivity|]. split; [intros j; cbn; lia|].
  split; [reflexivity|].
  intros H. specialize (H 1). vm_compute in H. lia.
Qed.

(* ================================================================== *)
(** * C9: the buckets of the dashboard                                 *)
(* ================================================================== *)

Lemma listas_somar (c : Chamado) (ab : datetime) (s : Metrics.SlaChamado)
      (a : Metrics.Acumulado) :
  let a' := Metrics.somar_resolucao c ab s (Metrics.somar_resposta c ab s a) in
  Metrics.processados a' = Metrics.processados a
  /\ Metrics.pausados a' = Metrics.pausados a
  /\ Metrics.vencidos a' = Metrics.vencidos a
  /\ Metrics.em_risco a' = Metrics.em_risco a.
Proof.
  unfold Metrics.somar_resolucao, Metrics.somar_resposta.
  destruct (data_primeira_resposta c); destruct (status c) as [st|];
    try destruct (String.eqb st _); try destruct (Metrics.Qgtb _ 0);
    cbn; repeat split.
Qed.

Lemma listas_classificar (s : Metrics.SlaChamado) (a : Metrics.Acumulado) :
  let a' := Metrics.classificar s a in
  Metrics.processados a' = Metrics.processados a
  /\ Metrics.pausados a' = Metrics.pausados a ++ filter (no_balde Pausado) [s]
  /\ Metrics.vencidos a' = Metrics.vencidos a ++ filter (no_balde Vencido) [s]
  /\ Metrics.em_risco a' = Metrics.em_risco a ++ filter (no_balde EmRisco) [s].
Proof.
  cbn [filter]. unfold Metrics.classificar, no_balde, balde.
  destruct (Metrics.pausado s); [cbn; rewrite !app_nil_r; repeat split|].
  destruct (Metrics.resolucao_vencida s); [cbn; rewrite !app_nil_r; repeat split|].
  destruct (Metrics.resolucao_em_risco s); cbn; rewrite ?app_nil_r; repeat split.
Qed.

(** The four lists after the loop, in terms of the results of the
    population. *)
Lemma listas_acumular {mi : Minusculas} (db : BD) (now : datetime) (pop : list Chamado) :
  forall a,
    let a' := fold_left (Metrics.passo db now) pop a in
    Metrics.processados a' = Metrics.processados a ++ avaliados db now pop
    /\ Metrics.pausados a' =
       Metrics.pausados a ++ filter (no_balde Pausado) (avaliados db now pop)
    /\ Metrics.vencidos a' =
       Metrics.vencidos a ++ filter (no_balde Vencido) (avaliados db now pop)
    /\ Metrics.em_risco a' =
       Metrics.em_risco a ++ filter (no_balde EmRisco) (avaliados db now pop).
Proof.
  induction pop as [|c pop IH]; intros a; cbn [fold_left avaliados flat_map].
  - rewrite !app_nil_r. repeat split.
  - cbv zeta in IH. fold (avaliados db now pop).
    destruct (IH (Metrics.passo db now a c)) as (P & Q & R & S).
    rewrite P, Q, R, S. clear IH P Q R S.
    unfold Metrics.passo.
    destruct (Metrics.calcular_sla_chamado db now c) as [s|] eqn:E;
      [|cbn [app]; repeat split].
    destruct (calcular_sla_chamado_some db now c s E) as (ab & cfg & Ha & _).
    rewrite Ha.
    set (a1 := {| Metrics.em_risco := Metrics.em_risco a;
                  Metrics.vencidos := Metrics.vencidos a;
                  Metrics.pausados := Metrics.pausados a;
                  Metrics.processados := Metrics.processados a ++ [s];
                  Metrics.soma_resp := Metrics.soma_resp a;
                  Metrics.soma_res := Metrics.soma_res a;
                  Metrics.cnt_resp := Metrics.cnt_resp a;
                  Metrics.cnt_res := Metrics.cnt_res a |}).
    destruct (listas_somar c ab s (Metrics.classificar s a1)) as (P & Q & R & S).
    destruct (listas_classificar s a1) as (P' & Q' & R' & S').
    rewrite P, Q, R, S, P', Q', R', S'. subst a1. cbn [Metrics.processados
      Metrics.pausados Metrics.vencidos Metrics.em_risco].
    rewrite !filter_app, <- !app_assoc. repeat split.
Qed.

Lemma conta_cons {A : Type} (f : A -> bool) (x : A) (l : list A) :
  conta f (x :: l) = (if f x then 1 else 0) + conta f l.
Proof.
  unfold conta, len. cbn [filter]. destruct (f x); cbn [List.length]; lia.
Qed.

Lemma conta_baldes (ss : list Metrics.SlaChamado) :
  len ss = conta (no_balde Pausado) ss + conta (no_balde Vencido) ss
           + conta (no_balde EmRisco) ss + conta (no_balde EmDia) ss.
Proof.
  induction ss as [|s ss IH]; [reflexivity|].
  rewrite !conta_cons. unfold len in *. cbn [List.length].
  unfold no_balde at 1 3 5 7. destruct (balde s); cbn [balde_eqb]; lia.
Qed.

(** ** The per-priority map *)

Lemma chaves_contar (q : string) (s : Metrics.SlaChamado) (m : list Metrics.Prio) :
  map Metrics.pp_prioridade (Metrics.prio_map_contar q s m) =
  if existsb (String.eqb q) (map Metrics.pp_prioridade m)
  then map Metrics.pp_prioridade m
  else map Metrics.pp_prioridade m ++ [q].
Proof.
  induction m as [|v r IH]; cbn [Metrics.prio_map_contar map existsb app].
  - reflexivity.
  - rewrite (String.eqb_sym q). destruct (String.eqb (Metrics.pp_prioridade v) q).
    + reflexivity.
    + cbn [map orb]. rewrite IH. now destruct (existsb _ _).
Qed.

Lemma nodup_contar (q : string) (s : Metrics.SlaChamado) (m : list Metrics.Prio) :
  NoDup (map Metrics.pp_prioridade m) ->
  NoDup (map Metrics.pp_prioridade (Metrics.prio_map_contar q s m)).
Proof.
  intros H. rewrite chaves_contar.
  destruct (existsb (String.eqb q) (map Metrics.pp_prioridade m)) eqn:E; [exact H|].
  apply NoDup_app; [exact H | repeat constructor; intros [] |].
  intros x Hx [Ex|[]]. subst x.
  assert (X : existsb (String.eqb q) (map Metrics.pp_prioridade m) = true).
  { apply existsb_exists. exists q. split; [exact Hx | apply String.eqb_refl]. }
  congruence.
Qed.

Lemma entrada_in (m : list Metrics.Prio) (v : Metrics.Prio) :
  NoDup (map Metrics.pp_prioridade m) -> In v m ->
  entrada (Metrics.pp_prioridade v) m = Some v.
Proof.
  unfold entrada. induction m as [|w r IH]; intros N Hin; [contradiction|].
  cbn [find map] in *. inversion N as [|? ? Nw Nr]; subst.
  destruct Hin as [->|Hin].
  - now rewrite String.eqb_refl.
  - destruct (String.eqb_spec (Metrics.pp_prioridade w) (Metrics.pp_prioridade v)) as [E|_].
    + exfalso. apply Nw. rewrite E. now apply in_map.
    + now apply IH.
Qed.

Lemma entrada_contar (p q : string) (s : Metrics.SlaChamado) (m : list Metrics.Prio) :
  entrada p (Metrics.prio_map_contar q s m) =
  if String.eqb q p
  then Some (Metrics.contar s (match entrada p m with
                               | Some v => v
                               | None => prio_zero p
                               end))
  else entrada p m.
Proof.
  unfold entrada. induction m as [|v r IH]; cbn [Metrics.prio_map_contar find].
  - cbn. destruct (String.eqb_spec q p) as [->|_]; reflexivity.
  - destruct (String.eqb_spec (Metrics.pp_prioridade v) q) as [Evq|Nvq];
      cbn [find Metrics.contar Metrics.pp_prioridade].
    + destruct (String.eqb_spec (Metrics.pp_prioridade v) p) as [Evp|Nvp];
        destruct (String.eqb_spec q p) as [Eqp|Nqp]; try congruence.
    + destruct (String.eqb_spec (Metrics.pp_prioridade v) p) as [Evp|Nvp].
      * destruct (String.eqb_spec q p) as [Eqp|Nqp]; [congruence | reflexivity].
      * exact IH.
Qed.

(** The counters of one priority after the second loop. *)
Lemma entrada_prio_map (p : string) (ss : list Metrics.SlaChamado) :
  forall (m : list Metrics.Prio) (v : Metrics.Prio),
    entrada p (fold_left (fun m s => Metrics.prio_map_contar (chave_prioridade s) s m)
                         ss m) = Some v ->
    let b := match entrada p m with Some w => w | None => prio_zero p end in
    Metrics.pp_total v = Metrics.pp_total b + conta (da_prioridade p) ss
    /\ Metrics.pp_pausados v =
       Metrics.pp_pausados b + conta (fun s => da_prioridade p s && Metrics.pausado s) ss
    /\ Metrics.pp_vencidos v =
       Metrics.pp_vencidos b
       + conta (fun s => da_prioridade p s && Metrics.resolucao_vencida s) ss
    /\ Metrics.pp_em_risco v =
       Metrics.pp_em_risco b
       + conta (fun s => da_prioridade p s && Metrics.resolucao_em_risco s) ss.
Proof.
  induction ss as [|s ss IH]; intros m v H; cbn [fold_left] in H; cbv zeta.
  - rewrite H. unfold conta, len. cbn. repeat split; lia.
  - specialize (IH _ _ H). cbv zeta in IH. rewrite entrada_contar in IH.
    rewrite !conta_cons. cbv beta.
    change (String.eqb (chave_prioridade s) p) with (da_prioridade p s) in IH.
    destruct (da_prioridade p s).
    + cbn [Metrics.contar Metrics.pp_total Metrics.pp_pausados Metrics.pp_vencidos
           Metrics.pp_em_risco andb] in IH.
      destruct IH as (T & P & V & R). rewrite T, P, V, R. cbn [andb].
      destruct (Metrics.pausado s), (Metrics.resolucao_vencida s),
               (Metrics.resolucao_em_risco s); repeat split; lia.
    + destruct IH as (T & P & V & R). cbn [andb]. repeat split; lia.
Qed.

Lemma nodup_prio_map (ss : list Metrics.SlaChamado) :
  forall m, NoDup (map Metrics.pp_prioridade m) ->
            NoDup (map Metrics.pp_prioridade
                       (fold_left (fun m s => Metrics.prio_map_contar (chave_prioridade s) s m)
                                  ss m)).
Proof.
  induction ss as [|s ss IH]; intros m N; cbn [fold_left]; [exact N|].
  apply IH. now apply nodup_contar.
Qed.

(** The buckets as the code computes them.  With [ss] the results of the
    tickets of the population, the top-level lists and counts put every result in one
    bucket, decided in the order paused, breached, at-risk, else on-time;
    the compliance percentage is computed from the total minus at-risk and
    breached, so it takes the paused tickets together with the on-time
    ones.  The per-priority breakdown counts, for each priority, the
    results, the paused ones, the resolution-breached ones and the
    resolution-at-risk ones, each flag on its own. *)
Lemma dashboard_buckets {mi : Minusculas} (db : BD) (now : datetime) (di df : option datetime) :
  let d := Metrics.obter_metricas_dashboard db now di df in
  let ss := avaliados db now (Metrics.populacao db now di df) in
  Metrics.total_chamados d = len ss
  /\ Metrics.chamados_pausados d = conta (no_balde Pausado) ss
  /\ Metrics.chamados_vencidos d = conta (no_balde Vencido) ss
  /\ Metrics.chamados_em_risco d = conta (no_balde EmRisco) ss
  /\ Metrics.total_chamados d =
     Metrics.chamados_pausados d + Metrics.chamados_vencidos d
     + Metrics.chamados_em_risco d + conta (no_balde EmDia) ss
  /\ Metrics.lista_pausados d = firstn 50 (filter (no_balde Pausado) ss)
  /\ Metrics.lista_vencidos d = firstn 50 (filter (no_balde Vencido) ss)
  /\ Metrics.lista_em_risco d = firstn 50 (filter (no_balde EmRisco) ss)
  /\ Metrics.percentual_cumprimento d =
     Metrics.percentual_de (conta (no_balde EmDia) ss + conta (no_balde Pausado) ss)
                           (len ss)
  /\ Metrics.percentual_vencidos d =
     Metrics.percentual_de (conta (no_balde Vencido) ss) (len ss)
  /\ Metrics.percentual_em_risco d =
     Metrics.percentual_de (conta (no_balde EmRisco) ss) (len ss)
  /\ map Metrics.pp (Metrics.por_prioridade d) = Metrics.prio_map ss
  /\ (forall v, In v (Metrics.prio_map ss) ->
        let p := Metrics.pp_prioridade v in
        Metrics.pp_total v = conta (da_prioridade p) ss
        /\ Metrics.pp_pausados v =
           conta (fun s => da_prioridade p s && Metrics.pausado s) ss
        /\ Metrics.pp_vencidos v =
           conta (fun s => da_prioridade p s && Metrics.resolucao_vencida s) ss
        /\ Metrics.pp_em_risco v =
           conta (fun s => da_prioridade p s && Metrics.resolucao_em_risco s) ss).
Proof.
  intros d ss. subst d. unfold Metrics.obter_metricas_dashboard.
  destruct (listas_acumular db now (Metrics.populacao db now di df)
                            Metrics.acumulado_inicial) as (P & Q & R & S).
  fold (Metrics.acumular db now (Metrics.populacao db now di df)) in P, Q, R, S.
  cbn [Metrics.acumulado_inicial Metrics.processados Metrics.pausados Metrics.vencidos
       Metrics.em_risco app] in P, Q, R, S.
  fold ss in P, Q, R, S.
  cbn [Metrics.total_chamados Metrics.chamados_pausados Metrics.chamados_vencidos
       Metrics.chamados_em_risco Metrics.lista_pausados Metrics.lista_vencidos
       Metrics.lista_em_risco Metrics.percentual_cumprimento Metrics.percentual_vencidos
       Metrics.percentual_em_risco Metrics.por_prioridade].
  rewrite P, Q, R, S. fold (conta (no_balde Pausado) ss).
  fold (conta (no_balde Vencido) ss). fold (conta (no_balde EmRisco) ss).
  pose proof (conta_baldes ss) as B.
  repeat (split; [first [reflexivity | lia | f_equal; lia]|]).
  split.
  - rewrite map_map. cbn [Metrics.pp]. apply map_id.
  - intros v Hin.
    assert (N : NoDup (map Metrics.pp_prioridade (Metrics.prio_map ss)))
      by (apply nodup_prio_map; constructor).
    pose proof (entrada_in _ v N Hin) as E.
    destruct (entrada_prio_map (Metrics.pp_prioridade v) ss [] v E) as (T & U & V & W).
    unfold entrada, prio_zero in T, U, V, W.
    cbn [find Metrics.pp_total Metrics.pp_pausados Metrics.pp_vencidos
         Metrics.pp_em_risco] in T, U, V, W.
    repeat split; lia.
Qed.

Lemma dashboard_buckets_witness :
  let now := mk_datetime 2026 2 18 12 0 0 in
  let ss := avaliados bd_aguardando now (Metrics.populacao bd_aguardando now None None) in
  let v := {| Metrics.pp_prioridade := "Alta"; Metrics.pp_total := 1;
              Metrics.pp_em_risco := 0; Metrics.pp_vencidos := 1;
              Metrics.pp_pausados := 1 |} in
  Metrics.pp_total v = conta (da_prioridade (Metrics.pp_prioridade v)) ss.
Proof.
  intros now ss v.
  pose proof (dashboard_buckets bd_aguardando now None None) as H.
  cbv zeta in H.
  destruct H as (_ & _ & _ & _ & _ & _ & _ & _ & _ & _ & _ & _ & H).
  refine (proj1 (H v _)).
  vm_compute. left. reflexivity.
Defined.

(** C9.  The per-priority breakdown does not bucket the way the top
    level does.  One ticket of priority Alta waits on the requester
    (status Aguardando, pause open) after 10 worked hours against a
    resolution limit of 8.  The top level has it in the paused bucket and
    in no other, with 0 breached tickets and a compliance of 100 %; the
    entry of its priority counts it as paused and as breached, 1 of 1. *)
Theorem paused_ticket_counted_twice_per_priority :
  let now := mk_datetime 2026 2 18 12 0 0 in
  let d := Metrics.obter_metricas_dashboard bd_aguardando now None None in
  Metrics.total_chamados d = 1
  /\ Metrics.chamados_pausados d = 1
  /\ Metrics.chamados_vencidos d = 0
  /\ Metrics.chamados_em_risco d = 0
  /\ Metrics.percentual_cumprimento d == 100
  /\ Metrics.percentual_vencidos d == 0
  /\ map (fun e => (Metrics.pp_prioridade (Metrics.pp e), Metrics.pp_total (Metrics.pp e),
                    Metrics.pp_pausados (Metrics.pp e), Metrics.pp_vencidos (Metrics.pp e),
                    Metrics.pp_em_risco (Metrics.pp e)))
         (Metrics.por_prioridade d)
     = [("Alta"%string, 1, 1, 1, 0)]
  /\ Forall2 Qeq (map Metrics.pp_percentual_vencidos (Metrics.por_prioridade d)) [100%Q].
Proof.
  cbv zeta. repeat split; try (vm_compute; reflexivity).
  vm_compute. repeat constructor.
Qed.

(* ================================================================== *)
(** * Further properties of [_horas_uteis]                             *)
(* ================================================================== *)

Lemma soma_us_le (f g : date -> Z) (n : nat) :
  forall d, (forall x, d <= x < d + Z.of_nat n -> f x <= g x) ->
            soma_us f d n <= soma_us g d n.
Proof.
  induction n as [|k IH]; intros d H; cbn [soma_us]; [lia|].
  pose proof (H d ltac:(lia)).
  assert (soma_us f (d + 1) k <= soma_us g (d + 1) k)
    by (apply IH; intros x Hx; apply H; lia).
  lia.
Qed.

(** The part of day [d] that lies inside [a, b], in microseconds. *)
Lemma soma_us_dias_corridos (a b : datetime) (n : nat) :
  a <= b ->
  forall d,
    soma_us (fun x => Z.max 0 (Z.min (combine (x + 1) 0) b - Z.max (combine x 0) a)) d n
    = Z.max 0 (Z.min (combine (d + Z.of_nat n) 0) b - Z.max (combine d 0) a)
      - Z.max 0 (Z.min (combine d 0) b - Z.max (combine d 0) a).
Proof.
  intros Hab. induction n as [|k IH]; intros d; cbn [soma_us].
  - replace (d + Z.of_nat 0) with d by lia. lia.
  - rewrite IH. replace (d + 1 + Z.of_nat k) with (d + Z.of_nat (S k)) by lia.
    unfold combine, us_per_day, us_per_second. lia.
Qed.

(** Business time never exceeds the time elapsed. *)
Lemma us_entre_le_decorrido (a b : datetime) : a <= b -> us_entre a b <= b - a.
Proof.
  intros Hab. unfold us_entre, soma_entre.
  pose proof (date_of_mono a b Hab) as Hd.
  eapply Z.le_trans.
  - apply (soma_us_le _ (fun x => Z.max 0 (Z.min (combine (x + 1) 0) b
                                           - Z.max (combine x 0) a))).
    intros x _. janelas. destruct (_ <? _);
      unfold combine, mk_time, us_per_day, us_per_second; lia.
  - rewrite (soma_us_dias_corridos a b _ Hab).
    pose proof (date_of_bounds a) as Ba. pose proof (date_of_bounds b) as Bb.
    replace (date_of a + Z.of_nat (Z.to_nat (date_of b - date_of a + 1)))
      with (date_of b + 1) by lia.
    unfold combine, us_per_day, us_per_second in *. lia.
Qed.

Lemma us_entre_mono (a b a' b' : datetime) :
  a' <= a -> b <= b' -> us_entre a b <= us_entre a' b'.
Proof.
  intros Ha Hb. destruct (Z_lt_le_dec a b) as [L|G].
  - pose proof (us_entre_pedacos a' a b b' Ha Hb ltac:(lia)) as P.
    pose proof (us_entre_nonneg (Z.max a' b) b'). lia.
  - rewrite (us_entre_vazio a b) by lia. apply us_entre_nonneg.
Qed.

Lemma us_uteis_nonneg (a b : datetime) : 0 <= us_uteis a b.
Proof. apply us_entre_nonneg. Qed.

(** X1.  [_horas_uteis] is never negative and never more than the hours
    elapsed between the two instants (rounded as the result is); it is 0
    when an instant is missing or the start is not before the end. *)
Theorem horas_uteis_within_elapsed :
  (forall inicio fim : option datetime, (0 <= Metrics._horas_uteis inicio fim)%Q)
  /\ (forall fim : option datetime, Metrics._horas_uteis None fim = 0%Q)
  /\ (forall inicio : option datetime, Metrics._horas_uteis inicio None == 0)
  /\ (forall inicio fim : datetime,
         fim <= inicio -> Metrics._horas_uteis (Some inicio) (Some fim) = 0%Q)
  /\ (forall inicio fim : datetime,
         inicio <= fim ->
         (Metrics._horas_uteis (Some inicio) (Some fim)
          <= py_round (horas (fim - inicio)%Z) 4)%Q).
Proof.
  split; [exact horas_uteis_nonneg|].
  split; [reflexivity|].
  split; [intros [i|]; reflexivity|].
  split.
  - intros i f H. unfold Metrics._horas_uteis.
    destruct (Z.ltb_spec i Metrics.SLA_DATA_INICIO);
      match goal with |- context [?x >=? f] => destruct (Z.geb_spec x f) end;
      solve [reflexivity | lia].
  - intros i f H. rewrite horas_uteis_us. apply py_round_mono, horas_le.
    unfold us_uteis.
    destruct (Z_lt_le_dec (Z.max i Metrics.SLA_DATA_INICIO) f) as [L|G].
    + pose proof (us_entre_le_decorrido (Z.max i Metrics.SLA_DATA_INICIO) f). lia.
    + rewrite us_entre_vazio by lia. lia.
Qed.

Lemma horas_uteis_within_elapsed_witness :
  (Metrics._horas_uteis (Some (mk_datetime 2026 2 20 17 0 0))
                        (Some (mk_datetime 2026 2 23 9 0 0))
   <= py_round (horas (mk_datetime 2026 2 23 9 0 0
                       - mk_datetime 2026 2 20 17 0 0)%Z) 4)%Q.
Proof.
  apply (proj2 (proj2 (proj2 (proj2 horas_uteis_within_elapsed)))).
  vm_compute. discriminate.
Defined.

(** X2.  Widening the interval never lowers the result: an earlier start
    or a later end gives at least as many business hours. *)
Theorem horas_uteis_monotone (inicio fim inicio' fim' : datetime) :
  inicio' <= inicio -> fim <= fim' ->
  (Metrics._horas_uteis (Some inicio) (Some fim)
   <= Metrics._horas_uteis (Some inicio') (Some fim'))%Q.
Proof.
  intros Hi Hf. rewrite !horas_uteis_us. apply py_round_mono, horas_le.
  unfold us_uteis. apply us_entre_mono; lia.
Qed.

Lemma horas_uteis_monotone_witness :
  (Metrics._horas_uteis (Some (mk_datetime 2026 2 17 9 0 0))
                        (Some (mk_datetime 2026 2 17 12 0 0))
   <= Metrics._horas_uteis (Some (mk_datetime 2026 2 16 9 0 0))
                           (Some (mk_datetime 2026 2 18 12 0 0)))%Q.
Proof.
  apply horas_uteis_monotone; vm_compute; discriminate.
Defined.

Lemma us_uteis_aditivo (a b c : datetime) :
  a <= b -> b <= c -> us_uteis a c = us_uteis a b + us_uteis b c.
Proof.
  intros H1 H2. unfold us_uteis.
  destruct (Z_lt_le_dec b Metrics.SLA_DATA_INICIO) as [L|G].
  - rewrite (Z.max_r a), (Z.max_r b) by lia.
    rewrite (us_entre_vazio Metrics.SLA_DATA_INICIO b) by lia. lia.
  - rewrite (Z.max_l b) by lia.
    apply us_entre_aditivo; lia.
Qed.

(** X3.  Splitting an interval at an instant inside it splits its
    business hours: the two parts add up to the whole, up to the three
    roundings to 4 decimals involved. *)
Theorem horas_uteis_additive (a b c : datetime) :
  a <= b -> b <= c ->
  let inteiro := Metrics._horas_uteis (Some a) (Some c) in
  let partes := (Metrics._horas_uteis (Some a) (Some b)
                 + Metrics._horas_uteis (Some b) (Some c))%Q in
  (inteiro - (3 # 20000) <= partes)%Q /\ (partes <= inteiro + (3 # 20000))%Q.
Proof.
  intros H1 H2 inteiro partes. subst inteiro partes.
  rewrite !horas_uteis_us, (us_uteis_aditivo a b c H1 H2).
  rewrite (py_round_comp _ _ 4 (horas_plus (us_uteis a b) (us_uteis b c))).
  pose proof (py_round_4_bounds (horas (us_uteis a b))) as [L1 U1].
  pose proof (py_round_4_bounds (horas (us_uteis b c))) as [L2 U2].
  pose proof (py_round_4_bounds (horas (us_uteis a b) + horas (us_uteis b c))) as [L3 U3].
  set (x := horas (us_uteis a b)) in *. set (y := horas (us_uteis b c)) in *.
  set (rx := py_round x 4) in *. set (ry := py_round y 4) in *.
  set (rxy := py_round (x + y) 4) in *.
  clearbody rx ry rxy x y. split; lra.
Qed.

Lemma horas_uteis_additive_witness :
  let a := mk_datetime 2026 2 16 9 0 0 in
  let b := mk_datetime 2026 2 17 10 20 0 in
  let c := mk_datetime 2026 2 18 12 0 0 in
  (Metrics._horas_uteis (Some a) (Some c) - (3 # 20000)
   <= Metrics._horas_uteis (Some a) (Some b) + Metrics._horas_uteis (Some b) (Some c))%Q
  /\ (Metrics._horas_uteis (Some a) (Some b) + Metrics._horas_uteis (Some b) (Some c)
      <= Metrics._horas_uteis (Some a) (Some c) + (3 # 20000))%Q.
Proof.
  intros a b c. apply (horas_uteis_additive a b c); vm_compute; discriminate.
Defined.

Ltac dia_da_semana :=
  repeat match goal with
    | |- context [?x mod 7 <? 5] =>
        destruct (Z.ltb_spec (x mod 7) 5);
        try (exfalso; Z.div_mod_to_equations; lia)
    end.

Lemma us_entre_semana (a : datetime) :
  us_entre a (a + 7 * us_per_day) = 50 * 3600 * us_per_second.
Proof.
  unfold us_entre, soma_entre.
  pose proof (date_of_bounds a) as Ba.
  assert (Db : date_of (a + 7 * us_per_day) = date_of a + 7).
  { apply date_of_unique. unfold combine, us_per_day, us_per_second in *. lia. }
  rewrite Db. set (d0 := date_of a) in *. clearbody d0.
  replace (Z.to_nat (d0 + 7 - d0 + 1)) with 8%nat by lia.
  cbn [soma_us]. janelas. unfold weekday.
  assert (Hw : (d0 + 6) mod 7 = 0 \/ (d0 + 6) mod 7 = 1 \/ (d0 + 6) mod 7 = 2
               \/ (d0 + 6) mod 7 = 3 \/ (d0 + 6) mod 7 = 4 \/ (d0 + 6) mod 7 = 5
               \/ (d0 + 6) mod 7 = 6)
    by (Z.div_mod_to_equations; lia).
  unfold combine, mk_time, us_per_day, us_per_second in *.
  destruct Hw as [Hw|[Hw|[Hw|[Hw|[Hw|[Hw|Hw]]]]]]; dia_da_semana; lia.
Qed.

(** X4.  Any span of exactly seven days that starts at or after the
    cutover holds 50 business hours, whatever the instant it starts at. *)
Theorem horas_uteis_of_a_week (inicio : datetime) :
  Metrics.SLA_DATA_INICIO <= inicio ->
  Metrics._horas_uteis (Some inicio) (Some (inicio + 7 * us_per_day)) == 50.
Proof.
  intros H. rewrite horas_uteis_us. unfold us_uteis.
  rewrite Z.max_l by lia. rewrite us_entre_semana.
  vm_compute. reflexivity.
Qed.

Lemma horas_uteis_of_a_week_witness :
  Metrics._horas_uteis (Some (mk_datetime 2026 3 4 15 37 12))
                       (Some (mk_datetime 2026 3 4 15 37 12 + 7 * us_per_day)) == 50.
Proof.
  apply horas_uteis_of_a_week. vm_compute. discriminate.
Defined.

(* ================================================================== *)
(** * Further properties of [_horas_uteis_com_pausas]                  *)
(* ================================================================== *)

Lemma soma_pausas_acumulado (now inicio fim : datetime)
      (pausas : list (datetime * option datetime)) :
  forall pausado,
    Metrics.soma_pausas now inicio fim pausas pausado ==
    pausado + Metrics.soma_pausas now inicio fim pausas 0.
Proof.
  induction pausas as [|[p_ini p_fim] r IH]; intros pausado;
    cbn [Metrics.soma_pausas].
  - ring.
  - rewrite IH. rewrite (IH (if _ <? _ then _ else _)).
    destruct (_ <? _); ring.
Qed.

Lemma soma_pausas_permutacao (now inicio fim : datetime)
      (l l' : list (datetime * option datetime)) :
  Permutation l l' ->
  forall pausado,
    Metrics.soma_pausas now inicio fim l pausado ==
    Metrics.soma_pausas now inicio fim l' pausado.
Proof.
  induction 1 as [|[p_ini p_fim] l l' _ IH|[p1 q1] [p2 q2] l|l1 l2 l3 _ IH1 _ IH2];
    intros pausado; cbn [Metrics.soma_pausas].
  - reflexivity.
  - apply IH.
  - etransitivity; [apply soma_pausas_acumulado|].
    symmetry. etransitivity; [apply soma_pausas_acumulado|].
    destruct (Z.max p2 inicio <? _), (Z.max p1 inicio <? _); ring.
  - now rewrite IH1, IH2.
Qed.

(** X5.  The result of [_horas_uteis_com_pausas] does not depend on the
    order in which the pauses of the ticket are listed. *)
Theorem pauses_order_irrelevant (now inicio fim : datetime)
        (pausas pausas' : list (datetime * option datetime)) :
  Permutation pausas pausas' ->
  Metrics._horas_uteis_com_pausas now inicio fim pausas =
  Metrics._horas_uteis_com_pausas now inicio fim pausas'.
Proof.
  intros P. unfold Metrics._horas_uteis_com_pausas.
  pose proof (soma_pausas_permutacao now inicio fim pausas pausas' P 0) as E.
  f_equal; apply py_round_comp.
  - unfold py_max. now rewrite E.
  - exact E.
Qed.

Lemma pauses_order_irrelevant_witness :
  let now := mk_datetime 2026 2 18 12 0 0 in
  let inicio := mk_datetime 2026 2 16 9 0 0 in
  let fim := mk_datetime 2026 2 17 17 0 0 in
  let p1 := (mk_datetime 2026 2 16 12 0 0, Some (mk_datetime 2026 2 16 14 0 0)) in
  let p2 := (mk_datetime 2026 2 17 9 0 0, None) in
  Metrics._horas_uteis_com_pausas now inicio fim [p1; p2] =
  Metrics._horas_uteis_com_pausas now inicio fim [p2; p1].
Proof.
  intros now inicio fim p1 p2.
  apply pauses_order_irrelevant. apply perm_swap.
Defined.

Lemma soma_pausas_fora (now inicio fim : datetime)
      (pausas : list (datetime * option datetime)) :
  (forall p, In p pausas ->
             fim <= fst p
             \/ match snd p with Some f => f | None => now end <= inicio) ->
  forall pausado, Metrics.soma_pausas now inicio fim pausas pausado = pausado.
Proof.
  induction pausas as [|[p_ini p_fim] r IH]; intros H pausado;
    cbn [Metrics.soma_pausas]; [reflexivity|].
  pose proof (H (p_ini, p_fim) (or_introl eq_refl)) as Hp. cbn [fst snd] in Hp.
  match goal with
  | |- context [if ?a <? ?b then _ else _] =>
      destruct (Z.ltb_spec a b); [destruct p_fim; lia|]
  end.
  apply IH. intros p Hin. apply H. now right.
Qed.

(** X6.  Pauses only take hours away: the worked hours lie between 0 and
    the business hours of the interval, and the paused hours are never
    negative.  Pauses that are over by the opening or start at or after
    the end change nothing: the worked hours are the business hours of the
    interval and the paused hours are 0, as with no pause at all. *)
Theorem pauses_only_reduce_worked_hours
        (now inicio fim : datetime) (pausas : list (datetime * option datetime)) :
  let bruto := Metrics._horas_uteis (Some inicio) (Some fim) in
  let r := Metrics._horas_uteis_com_pausas now inicio fim pausas in
  (0 <= fst r)%Q /\ (fst r <= bruto)%Q /\ (0 <= snd r)%Q
  /\ ((forall p, In p pausas ->
                 fim <= fst p
                 \/ match snd p with Some f => f | None => now end <= inicio) ->
      r = Metrics._horas_uteis_com_pausas now inicio fim []
      /\ fst r == bruto /\ snd r == 0).
Proof.
  intros bruto r.
  set (pausado := Metrics.soma_pausas now inicio fim pausas 0).
  assert (Gp : na_grade 4 pausado) by (apply soma_pausas_na_grade, na_grade_zero).
  assert (Gb : na_grade 4 bruto) by apply horas_uteis_na_grade.
  assert (Np : (0 <= pausado)%Q) by (apply soma_pausas_nonneg; lra).
  assert (Nb : (0 <= bruto)%Q) by apply horas_uteis_nonneg.
  assert (Ep : snd r == pausado) by (apply py_round_grade; exact Gp).
  assert (Ew : fst r == py_max 0 (bruto - pausado)).
  { apply py_round_grade, na_grade_max; [apply na_grade_zero|].
    now apply na_grade_minus. }
  split; [rewrite Ew; apply py_max_nonneg|].
  split.
  { rewrite Ew. unfold py_max.
    destruct (Q.max_spec 0 (bruto - pausado)) as [[_ E]|[_ E]]; rewrite E; lra. }
  split; [rewrite Ep; exact Np|].
  intros H.
  assert (Z0 : pausado = 0%Q) by (apply soma_pausas_fora; exact H).
  split; [|split].
  - subst r. unfold Metrics._horas_uteis_com_pausas. fold pausado. rewrite Z0.
    reflexivity.
  - rewrite Ew, Z0. unfold py_max.
    destruct (Q.max_spec 0 (bruto - 0)) as [[L E]|[L E]]; rewrite E; lra.
  - rewrite Ep, Z0. reflexivity.
Qed.

Lemma pauses_only_reduce_worked_hours_witness :
  let now := mk_datetime 2026 2 18 12 0 0 in
  let inicio := mk_datetime 2026 2 17 9 0 0 in
  let fim := mk_datetime 2026 2 17 17 0 0 in
  let pausas := [(mk_datetime 2026 2 16 12 0 0, Some (mk_datetime 2026 2 16 14 0 0));
                 (mk_datetime 2026 2 17 17 30 0, None)] in
  fst (Metrics._horas_uteis_com_pausas now inicio fim pausas)
  == Metrics._horas_uteis (Some inicio) (Some fim).
Proof.
  intros now inicio fim pausas.
  apply (proj2 (proj2 (proj2
           (pauses_only_reduce_worked_hours now inicio fim pausas)))).
  intros p [<-|[<-|[]]]; cbn [fst snd]; [right|left]; vm_compute; discriminate.
Defined.

(* ================================================================== *)
(** * Further properties of [calcular_sla_chamado]                     *)
(* ================================================================== *)

Lemma evolui_antes (t t' : datetime) (l l' : list (datetime * option datetime)) :
  t' <= t -> evolui t l l' -> evolui t' l l'.
Proof.
  intros H E.
  induction E as [l|l1 l2 p_ini q Hq|l p_ini p_fim Hp|l1 l2 l3 _ IH1 _ IH2].
  - apply evolui_igual.
  - apply evolui_fecha. lia.
  - apply evolui_nova. lia.
  - eapply evolui_trans; eassumption.
Qed.

(** X7.  The reading of a finished ticket is frozen.  For a ticket in a
    final status whose conclusion (or, without one, cancellation) instant
    [d] is recorded, every evaluation made at or after [d] returns the
    same dictionary, field by field, whatever the instant of the evaluation
    and even if pauses were closed or added after [d], as long as the active
    configurations are the same and the first response, when there is one,
    was not given after [d]. *)
Theorem finished_ticket_reading_is_frozen {mi : Minusculas}
        (db1 db2 : BD) (now1 now2 : datetime) (c : Chamado) (d : datetime) :
  pertence (str_or (status c) "Aberto") Metrics.STATUS_FINAIS = true ->
  (data_conclusao c = Some d
   \/ (data_conclusao c = None /\ cancelado_em c = Some d)) ->
  d <= now1 -> d <= now2 ->
  (forall p, data_primeira_resposta c = Some p -> p <= d) ->
  Metrics._configs db1 = Metrics._configs db2 ->
  evolui d (Metrics._pausas db1 (id c)) (Metrics._pausas db2 (id c)) ->
  Metrics.calcular_sla_chamado db1 now1 c = Metrics.calcular_sla_chamado db2 now2 c.
Proof.
  intros Hf Hd H1 H2 Hp Hc He.
  unfold Metrics.calcular_sla_chamado, Metrics.config_do_chamado.
  rewrite Hc.
  destruct (data_abertura c) as [ab|]; [|reflexivity].
  destruct (ab <? Metrics.SLA_DATA_INICIO); [reflexivity|].
  destruct (match dict_get String.eqb _ (Metrics._configs db2) with
            | Some cfg => Some cfg
            | None => dict_get String.eqb "normal"%string (Metrics._configs db2)
            end) as [cfg|]; [|reflexivity].
  f_equal.
  set (l := Metrics._pausas db1 (id c)) in *.
  set (l' := Metrics._pausas db2 (id c)) in *.
  assert (R : forall n1 n2 : datetime,
             match data_conclusao c with
             | Some x => x
             | None => match cancelado_em c with Some x => x | None => n1 end
             end = d).
  { intros n1 _. destruct Hd as [E|[E1 E2]]; [now rewrite E | now rewrite E1, E2]. }
  unfold Metrics.avaliar. rewrite Hf. cbn [negb].
  rewrite (R now1 now1), (R now2 now2).
  rewrite (horas_uteis_com_pausas_congelado now1 now2 ab d l l' H1 H2 He).
  destruct (data_primeira_resposta c) as [p|] eqn:Ep.
  - specialize (Hp p eq_refl).
    rewrite (horas_uteis_com_pausas_congelado now1 now2 ab p l l');
      [reflexivity | lia | lia | now apply (evolui_antes d)].
  - reflexivity.
Qed.

Lemma finished_ticket_reading_is_frozen_witness :
  Metrics.calcular_sla_chamado bd_alta (mk_datetime 2026 2 16 13 0 0) chamado_concluido =
  Metrics.calcular_sla_chamado bd_alta (mk_datetime 2026 3 20 9 30 0) chamado_concluido.
Proof.
  apply (finished_ticket_reading_is_frozen bd_alta bd_alta _ _ chamado_concluido
           (mk_datetime 2026 2 16 13 0 0)).
  - reflexivity.
  - left. reflexivity.
  - vm_compute. discriminate.
  - vm_compute. discriminate.
  - intros p E. injection E as <-. vm_compute. discriminate.
  - reflexivity.
  - apply evolui_igual.
Defined.

Lemma soma_pausas_fechadas (now1 now2 inicio : datetime)
      (l : list (datetime * option datetime)) :
  now1 <= now2 ->
  (forall p, In p l -> exists q, snd p = Some q /\ q <= now1) ->
  forall pausado,
    Metrics.soma_pausas now1 inicio now1 l pausado =
    Metrics.soma_pausas now2 inicio now2 l pausado.
Proof.
  intros Hn. induction l as [|[p_ini p_fim] r IH]; intros H pausado;
    cbn [Metrics.soma_pausas]; [reflexivity|].
  destruct (H (p_ini, p_fim) (or_introl eq_refl)) as (q & Eq & Hq).
  cbn [snd] in Eq. subst p_fim.
  rewrite (Z.min_l q now1), (Z.min_l q now2) by lia.
  apply IH. intros p Hp. apply H. now right.
Qed.

(** X8.  While the clock of a ticket runs, a breach is permanent.  For a
    ticket that is not in a final status and whose pauses were all closed
    by the first of two evaluations, the later evaluation reports the same
    paused hours, at least as many worked hours and at least as high a
    percentage; so a resolution that was breached is breached still. *)
Theorem breach_is_permanent_while_running {mi : Minusculas}
        (db : BD) (now1 now2 : datetime) (chamado : Chamado)
        (s1 s2 : Metrics.SlaChamado) :
  now1 <= now2 ->
  pertence (str_or (status chamado) "Aberto") Metrics.STATUS_FINAIS = false ->
  (forall p, In p (Metrics._pausas db (id chamado)) ->
             exists q, snd p = Some q /\ q <= now1) ->
  Metrics.calcular_sla_chamado db now1 chamado = Some s1 ->
  Metrics.calcular_sla_chamado db now2 chamado = Some s2 ->
  Metrics.resolucao_pausado_horas s1 = Metrics.resolucao_pausado_horas s2
  /\ (Metrics.resolucao_trabalhado_horas s1 <= Metrics.resolucao_trabalhado_horas s2)%Q
  /\ (Metrics.percentual_resolucao s1 <= Metrics.percentual_resolucao s2)%Q
  /\ (Metrics.resolucao_vencida s1 = true -> Metrics.resolucao_vencida s2 = true).
Proof.
  intros Hn Hf Hp E1 E2.
  destruct (calcular_sla_chamado_some db now1 chamado s1 E1) as (ab & cfg & Ha & _ & Hc & ->).
  destruct (calcular_sla_chamado_some db now2 chamado s2 E2)
    as (ab' & cfg' & Ha' & _ & Hc' & ->).
  rewrite Ha in Ha'. injection Ha' as <-. rewrite Hc in Hc'. injection Hc' as <-.
  clear E1 E2.
  set (l := Metrics._pausas db (id chamado)) in *.
  unfold Metrics.avaliar. rewrite Hf. cbn [negb].
  unfold Metrics._horas_uteis_com_pausas.
  rewrite <- (soma_pausas_fechadas now1 now2 ab l Hn Hp 0).
  set (P := Metrics.soma_pausas now1 ab now1 l 0).
  set (b1 := Metrics._horas_uteis (Some ab) (Some now1)).
  set (b2 := Metrics._horas_uteis (Some ab) (Some now2)).
  assert (B : (b1 <= b2)%Q).
  { unfold b1, b2. rewrite !horas_uteis_us. apply py_round_mono, horas_le.
    unfold us_uteis. apply us_entre_mono; lia. }
  assert (W : (py_round (py_max 0 (b1 - P)) 4 <= py_round (py_max 0 (b2 - P)) 4)%Q).
  { apply py_round_mono. unfold py_max. apply Q.max_le_compat_l. lra. }
  set (w1 := py_round (py_max 0 (b1 - P)) 4) in *.
  set (w2 := py_round (py_max 0 (b2 - P)) 4) in *.
  destruct (data_primeira_resposta chamado) as [p|];
    cbn [Metrics.resolucao_pausado_horas Metrics.resolucao_trabalhado_horas
         Metrics.percentual_resolucao Metrics.resolucao_vencida].
  all: split; [reflexivity|]; split; [exact W|]; split.
  all: try (rewrite !andb_true_r; intros V; apply Qgeb_true in V;
            apply Qle_bool_iff; lra).
  all: unfold Metrics.percentual;
    destruct (Qlt_le_dec 0 (Metrics.resolucao cfg)) as [L|G]; [|lra];
    apply py_round_mono; apply Qmult_le_compat_r; [|lra];
    apply Qmult_le_compat_r; [exact W|]; apply Qinv_le_0_compat; lra.
Qed.

Lemma breach_is_permanent_while_running_witness :
  let db := com_pausas bd_aguardando [] in
  let cfg := {| Metrics.resposta := 2; Metrics.resolucao := 8; Metrics.risco := 75 |} in
  let s1 := Metrics.avaliar (mk_datetime 2026 2 17 9 0 0) chamado_em_atendimento
                            (mk_datetime 2026 2 16 9 0 0) cfg [] in
  let s2 := Metrics.avaliar (mk_datetime 2026 2 18 9 0 0) chamado_em_atendimento
                            (mk_datetime 2026 2 16 9 0 0) cfg [] in
  Metrics.resolucao_vencida s2 = true.
Proof.
  intros db cfg s1 s2.
  refine (proj2 (proj2 (proj2 (breach_is_permanent_while_running
                                 db (mk_datetime 2026 2 17 9 0 0)
                                 (mk_datetime 2026 2 18 9 0 0)
                                 chamado_em_atendimento s1 s2 _ _ _ _ _))) _).
  - vm_compute. discriminate.
  - reflexivity.
  - intros p [].
  - vm_compute. reflexivity.
  - vm_compute. reflexivity.
  - vm_compute. reflexivity.
Defined.

(* ================================================================== *)
(** * Further properties of [obter_metricas_dashboard]                 *)
(* ================================================================== *)

Lemma pertence_app (s : string) (l1 l2 : list string) :
  pertence s (l1 ++ l2) = pertence s l1 || pertence s l2.
Proof. unfold pertence. apply existsb_app. Qed.

Lemma consulta_visivel (di df : datetime) (c : Chamado) :
  Metrics.consulta di df c = true -> visivel c = true.
Proof.
  unfold Metrics.consulta, visivel.
  destruct (data_abertura c) as [ab|]; [|discriminate].
  destruct (status c) as [st|]; [|discriminate].
  rewrite !pertence_app.
  destruct (ab >=? Metrics.SLA_DATA_INICIO); [|discriminate].
  destruct (deletado_em c); [discriminate|].
  destruct (pertence st Metrics.STATUS_ATIVOS),
           (pertence st Metrics.STATUS_PAUSADOS),
           (pertence st Metrics.STATUS_FINAIS); try reflexivity; discriminate.
Qed.

(** X9.  A ticket that is soft-deleted, has no status, or has a status
    outside the five names the module knows ("Aberto", "Em atendimento",
    "Aguardando", "Concluído", "Expirado") is never returned by the
    population query, and the whole dashboard payload is the one computed
    from the ticket table without it. *)
Theorem dashboard_ignores_deleted_and_unknown_status {mi : Minusculas}
        (db : BD) (now : datetime) (c : Chamado) :
  (deletado_em c <> None
   \/ status c = None
   \/ (exists st, status c = Some st
                  /\ pertence st (Metrics.STATUS_ATIVOS ++ Metrics.STATUS_PAUSADOS
                                  ++ Metrics.STATUS_FINAIS) = false)) ->
  (forall di df, ~ In c (Metrics.populacao db now di df))
  /\ (forall antes depois di df,
         Metrics.obter_metricas_dashboard
           (com_chamados db (antes ++ c :: depois)) now di df =
         Metrics.obter_metricas_dashboard
           (com_chamados db (antes ++ depois)) now di df).
Proof.
  intros H.
  assert (V : visivel c = false).
  { unfold visivel. destruct (data_abertura c) as [ab|]; [|reflexivity].
    destruct H as [D|[S|(st & S & P)]].
    - destruct (status c); [|reflexivity].
      destruct (deletado_em c); [|congruence].
      now rewrite andb_false_r.
    - now rewrite S.
    - rewrite S, P. apply andb_false_r. }
  assert (C : forall i f, Metrics.consulta i f c = false).
  { intros i f. destruct (Metrics.consulta i f c) eqn:E; [|reflexivity].
    apply consulta_visivel in E. congruence. }
  split.
  - intros di df Hin. unfold Metrics.populacao in Hin.
    destruct (Metrics.periodo now di df) as [i f].
    apply filter_In in Hin as [_ Hc]. rewrite C in Hc. discriminate.
  - intros antes depois di df.
    assert (P : Metrics.populacao (com_chamados db (antes ++ c :: depois)) now di df
                = Metrics.populacao (com_chamados db (antes ++ depois)) now di df).
    { unfold Metrics.populacao. destruct (Metrics.periodo now di df) as [i f].
      cbn [chamados com_chamados]. apply filter_sem, C. }
    unfold Metrics.obter_metricas_dashboard. rewrite P. reflexivity.
Qed.

Lemma dashboard_ignores_deleted_and_unknown_status_witness :
  Metrics.obter_metricas_dashboard
    (com_chamados bd_alta [chamado_em_atendimento; chamado_em_analise; chamado_concluido])
    (mk_datetime 2026 2 17 12 0 0) None None =
  Metrics.obter_metricas_dashboard
    (com_chamados bd_alta [chamado_em_atendimento; chamado_concluido])
    (mk_datetime 2026 2 17 12 0 0) None None.
Proof.
  apply (proj2 (dashboard_ignores_deleted_and_unknown_status
                  bd_alta (mk_datetime 2026 2 17 12 0 0) chamado_em_analise
                  (or_intror (or_intror
                     (ex_intro _ "Em análise"%string (conj eq_refl eq_refl)))))
               [chamado_em_atendimento] [chamado_concluido] None None).
Defined.

Lemma filter_filter {A : Type} (f g : A -> bool) (l : list A) :
  filter f (filter g l) = filter (fun x => g x && f x) l.
Proof.
  induction l as [|x l IH]; [reflexivity|]. cbn [filter].
  destruct (g x); cbn [filter andb]; [destruct (f x)|]; now rewrite IH.
Qed.

Lemma chamados_abertos_em_aberto {mi : Minusculas} (db : BD) (now : datetime) (di df : option datetime) :
  Metrics.chamados_abertos (Metrics.obter_metricas_dashboard db now di df) =
  conta em_aberto (chamados db).
Proof.
  unfold Metrics.obter_metricas_dashboard, Metrics.populacao, conta.
  destruct (Metrics.periodo now di df) as [i f].
  cbn [Metrics.chamados_abertos]. rewrite filter_filter. f_equal.
  apply filter_ext. intros c. unfold Metrics.consulta, em_aberto.
  destruct (data_abertura c) as [ab|]; [|reflexivity].
  destruct (status c) as [st|]; [|reflexivity].
  destruct (ab >=? Metrics.SLA_DATA_INICIO); [|reflexivity].
  destruct (deletado_em c); [reflexivity|]. cbn [andb].
  destruct (pertence st (Metrics.STATUS_ATIVOS ++ Metrics.STATUS_PAUSADOS));
    [reflexivity|]. cbn [orb]. now rewrite andb_false_r.
Qed.

(** X10.  [chamados_abertos] does not depend on the requested period nor
    on the instant of the request: it is the number of rows of the ticket
    table opened at or after the cutover, not soft-deleted, whose status is
    "Aberto", "Em atendimento" or "Aguardando", and each of them is in the
    population of every period. *)
Theorem open_tickets_ignore_the_period {mi : Minusculas} (db : BD) :
  (forall now di df,
      Metrics.chamados_abertos (Metrics.obter_metricas_dashboard db now di df) =
      conta em_aberto (chamados db))
  /\ (forall now1 now2 di1 df1 di2 df2,
         Metrics.chamados_abertos (Metrics.obter_metricas_dashboard db now1 di1 df1) =
         Metrics.chamados_abertos (Metrics.obter_metricas_dashboard db now2 di2 df2))
  /\ (forall c now di df,
         In c (chamados db) -> em_aberto c = true ->
         In c (Metrics.populacao db now di df)).
Proof.
  split; [|split].
  - apply chamados_abertos_em_aberto.
  - intros. now rewrite !chamados_abertos_em_aberto.
  - intros c now di df Hin Ha. unfold Metrics.populacao.
    destruct (Metrics.periodo now di df) as [i f].
    apply filter_In. split; [exact Hin|].
    unfold em_aberto in Ha. unfold Metrics.consulta.
    destruct (data_abertura c) as [ab|]; [|discriminate].
    destruct (status c) as [st|]; [|discriminate].
    apply andb_prop in Ha as [Ha Hs]. now rewrite Ha, Hs.
Qed.

Lemma open_tickets_ignore_the_period_witness :
  In chamado_aguardando
     (Metrics.populacao bd_tres_chamados (mk_datetime 2026 6 1 12 0 0)
        (Some (mk_datetime 2026 5 1 0 0 0)) (Some (mk_datetime 2026 5 31 0 0 0))).
Proof.
  apply (proj2 (proj2 (open_tickets_ignore_the_period bd_tres_chamados))).
  - right. left. reflexivity.
  - reflexivity.
Defined.

Lemma pertence_finais (st : string) :
  pertence st Metrics.STATUS_FINAIS = true ->
  st = "Concluído"%string \/ st = "Expirado"%string.
Proof.
  unfold pertence, Metrics.STATUS_FINAIS. cbn [existsb].
  destruct (String.eqb_spec st "Concluído"); [now left|].
  destruct (String.eqb_spec st "Expirado"); [now right | discriminate].
Qed.

Lemma avaliar_final_em_dia (now : datetime) (c : Chamado) (ab : datetime)
      (cfg : Metrics.Cfg) (l : list (datetime * option datetime)) :
  pertence (str_or (status c) "Aberto") Metrics.STATUS_FINAIS = true ->
  balde (Metrics.avaliar now c ab cfg l) = EmDia.
Proof.
  intros Hf. unfold balde, Metrics.avaliar. rewrite Hf.
  assert (P : pertence (str_or (status c) "Aberto") Metrics.STATUS_PAUSADOS = false)
    by (destruct (pertence_finais _ Hf) as [-> | ->]; reflexivity).
  rewrite P.
  destruct (Metrics._horas_uteis_com_pausas now ab _ l) as [res_trab res_paus].
  destruct (data_primeira_resposta c) as [p|];
    [destruct (Metrics._horas_uteis_com_pausas now ab p l) as [resp_trab resp_paus]|];
    cbn [Metrics.pausado Metrics.resolucao_vencida Metrics.resolucao_em_risco negb];
    now rewrite !andb_false_r.
Qed.

Lemma em_aberto_consulta (di df : datetime) (c : Chamado) :
  em_aberto c = true -> Metrics.consulta di df c = true.
Proof.
  unfold em_aberto, Metrics.consulta.
  destruct (data_abertura c) as [ab|]; [|discriminate].
  destruct (status c) as [st|]; [|discriminate].
  intros H. apply andb_prop in H as [Ha Hs]. now rewrite Ha, Hs.
Qed.

Lemma consulta_final (di df : datetime) (c : Chamado) :
  Metrics.consulta di df c = true -> em_aberto c = false ->
  pertence (str_or (status c) "Aberto") Metrics.STATUS_FINAIS = true.
Proof.
  unfold em_aberto, Metrics.consulta.
  destruct (data_abertura c) as [ab|]; [|discriminate].
  destruct (status c) as [st|]; [|discriminate].
  destruct (ab >=? Metrics.SLA_DATA_INICIO); [|discriminate].
  destruct (deletado_em c); [discriminate|]. cbn [andb].
  intros H1 H2. rewrite H2 in H1. cbn [orb] in H1.
  apply andb_prop in H1 as [H1 _]. apply andb_prop in H1 as [H1 _].
  destruct (pertence_finais st H1) as [-> | ->]; reflexivity.
Qed.

Lemma avaliados_cons {mi : Minusculas} (db : BD) (now : datetime) (c : Chamado) (l : list Chamado) :
  avaliados db now (c :: l) =
  match Metrics.calcular_sla_chamado db now c with Some s => [s] | None => [] end
  ++ avaliados db now l.
Proof. reflexivity. Qed.

(** Outside the on-time bucket, the results of a population are those of
    the open tickets of the table. *)
Lemma baldes_dos_abertos {mi : Minusculas} (db : BD) (now di df : datetime) (b : Balde) (l : list Chamado) :
  b <> EmDia ->
  filter (no_balde b) (avaliados db now (filter (Metrics.consulta di df) l)) =
  filter (no_balde b) (avaliados db now (filter em_aberto l)).
Proof.
  intros Hb. induction l as [|c l IH]; [reflexivity|]. cbn [filter].
  destruct (em_aberto c) eqn:Ea.
  - rewrite (em_aberto_consulta di df c Ea), !avaliados_cons, !filter_app.
    now rewrite IH.
  - destruct (Metrics.consulta di df c) eqn:Ec; [|exact IH].
    rewrite avaliados_cons, filter_app, IH.
    destruct (Metrics.calcular_sla_chamado db now c) as [s|] eqn:Es; [|reflexivity].
    destruct (calcular_sla_chamado_some db now c s Es) as (ab & cfg & _ & _ & _ & ->).
    cbn [filter]. unfold no_balde at 1.
    rewrite (avaliar_final_em_dia now c ab cfg _ (consulta_final di df c Ec Ea)).
    destruct b; try reflexivity. congruence.
Qed.

(** X11.  The requested period only selects finished tickets, and a
    finished ticket is in no other bucket than on-time: the numbers and the
    lists of paused, breached and at-risk tickets of the dashboard are the
    same for every period. *)
Theorem period_does_not_change_paused_breached_at_risk {mi : Minusculas}
        (db : BD) (now : datetime) (di1 df1 di2 df2 : option datetime) :
  let d1 := Metrics.obter_metricas_dashboard db now di1 df1 in
  let d2 := Metrics.obter_metricas_dashboard db now di2 df2 in
  Metrics.chamados_pausados d1 = Metrics.chamados_pausados d2
  /\ Metrics.chamados_vencidos d1 = Metrics.chamados_vencidos d2
  /\ Metrics.chamados_em_risco d1 = Metrics.chamados_em_risco d2
  /\ Metrics.lista_pausados d1 = Metrics.lista_pausados d2
  /\ Metrics.lista_vencidos d1 = Metrics.lista_vencidos d2
  /\ Metrics.lista_em_risco d1 = Metrics.lista_em_risco d2.
Proof.
  intros d1 d2. subst d1 d2. unfold Metrics.obter_metricas_dashboard.
  cbn [Metrics.chamados_pausados Metrics.chamados_vencidos Metrics.chamados_em_risco
       Metrics.lista_pausados Metrics.lista_vencidos Metrics.lista_em_risco].
  assert (E : forall di df,
             Metrics.pausados (Metrics.acumular db now (Metrics.populacao db now di df))
             = filter (no_balde Pausado) (avaliados db now (filter em_aberto (chamados db)))
             /\ Metrics.vencidos (Metrics.acumular db now (Metrics.populacao db now di df))
                = filter (no_balde Vencido)
                         (avaliados db now (filter em_aberto (chamados db)))
             /\ Metrics.em_risco (Metrics.acumular db now (Metrics.populacao db now di df))
                = filter (no_balde EmRisco)
                         (avaliados db now (filter em_aberto (chamados db)))).
  { intros di df.
    destruct (listas_acumular db now (Metrics.populacao db now di df)
                              Metrics.acumulado_inicial) as (_ & Q & R & S).
    fold (Metrics.acumular db now (Metrics.populacao db now di df)) in Q, R, S.
    cbn [Metrics.acumulado_inicial Metrics.pausados Metrics.vencidos
         Metrics.em_risco app] in Q, R, S.
    rewrite Q, R, S. unfold Metrics.populacao.
    destruct (Metrics.periodo now di df) as [i f].
    repeat split; apply baldes_dos_abertos; discriminate. }
  destruct (E di1 df1) as (P1 & V1 & R1). destruct (E di2 df2) as (P2 & V2 & R2).
  rewrite P1, V1, R1, P2, V2, R2. repeat split.
Qed.

(** Rounding to 1 decimal moves a value by at most 0.05. *)
Lemma py_round_1_bounds (x : Q) :
  (x - (1 # 20) <= py_round x 1 <= x + (1 # 20))%Q.
Proof.
  unfold py_round.
  change (inject_Z (Z.pos (pow10 1))) with 10%Q.
  pose proof (round_half_even_bounds (x * 10)) as [Lo Hi].
  set (r := round_half_even (x * 10)) in *.
  assert (E : r # pow10 1 == inject_Z r * (1 # 10)).
  { unfold Qeq, Qmult, inject_Z. simpl. lia. }
  rewrite E. split; lra.
Qed.

Lemma fracao_percentual (a b : Z) :
  0 <= a <= b -> 0 < b -> (0 <= inject_Z a / inject_Z b * 100 <= 100)%Q.
Proof.
  intros Ha Hb.
  assert (B : (0 < inject_Z b)%Q) by (change 0%Q with (inject_Z 0); now rewrite <- Zlt_Qlt).
  assert (A : (0 <= inject_Z a)%Q) by (change 0%Q with (inject_Z 0); rewrite <- Zle_Qle; lia).
  assert (L : (inject_Z a <= inject_Z b)%Q) by (rewrite <- Zle_Qle; lia).
  assert (F0 : (0 <= inject_Z a / inject_Z b)%Q).
  { apply Qle_shift_div_l; [exact B|]. lra. }
  assert (F1 : (inject_Z a / inject_Z b <= 1)%Q).
  { apply Qle_shift_div_r; [exact B|]. lra. }
  split; lra.
Qed.

Lemma percentual_de_limites (a b : Z) :
  0 <= a <= b -> (0 <= Metrics.percentual_de a b <= 100)%Q.
Proof.
  intros H. unfold Metrics.percentual_de.
  destruct (Z.ltb_spec 0 b) as [Hb|_]; [|split; lra].
  destruct (fracao_percentual a b H Hb) as [Lo Hi].
  split.
  - change 0%Q with (inject_Z 0). apply py_round_ge_Z. exact Lo.
  - apply (py_round_mono _ _ 1) in Hi.
    rewrite (py_round_grade 100 1) in Hi; [exact Hi|].
    exists 1000. reflexivity.
Qed.

Lemma percentual_de_perto (a b : Z) :
  0 < b ->
  (inject_Z a / inject_Z b * 100 - (1 # 20) <= Metrics.percentual_de a b
   <= inject_Z a / inject_Z b * 100 + (1 # 20))%Q.
Proof.
  intros Hb. unfold Metrics.percentual_de.
  destruct (Z.ltb_spec 0 b) as [_|N]; [|lia].
  apply py_round_1_bounds.
Qed.

(** X12.  The three percentages of the dashboard lie between 0 and 100.
    They are all 0 when no ticket was evaluated; otherwise they add up to
    100 up to the three roundings to one decimal, that is within 0.15. *)
Theorem dashboard_percentages {mi : Minusculas} (db : BD) (now : datetime) (di df : option datetime) :
  let d := Metrics.obter_metricas_dashboard db now di df in
  let soma := (Metrics.percentual_cumprimento d + Metrics.percentual_em_risco d
               + Metrics.percentual_vencidos d)%Q in
  (0 <= Metrics.percentual_cumprimento d <= 100)%Q
  /\ (0 <= Metrics.percentual_em_risco d <= 100)%Q
  /\ (0 <= Metrics.percentual_vencidos d <= 100)%Q
  /\ (Metrics.total_chamados d = 0 -> soma == 0)
  /\ (Metrics.total_chamados d <> 0 ->
      (100 - (3 # 20) <= soma <= 100 + (3 # 20))%Q).
Proof.
  intros d soma. subst soma d. unfold Metrics.obter_metricas_dashboard.
  destruct (listas_acumular db now (Metrics.populacao db now di df)
                            Metrics.acumulado_inicial) as (P & _ & R & S).
  fold (Metrics.acumular db now (Metrics.populacao db now di df)) in P, R, S.
  cbn [Metrics.acumulado_inicial Metrics.processados Metrics.vencidos
       Metrics.em_risco app] in P, R, S.
  cbn [Metrics.total_chamados Metrics.percentual_cumprimento Metrics.percentual_vencidos
       Metrics.percentual_em_risco].
  rewrite P, R, S.
  set (ss := avaliados db now (Metrics.populacao db now di df)).
  fold (conta (no_balde Vencido) ss). fold (conta (no_balde EmRisco) ss).
  pose proof (conta_baldes ss) as B.
  assert (N : forall b, 0 <= conta (no_balde b) ss) by (intros b; unfold conta, len; lia).
  pose proof (N Pausado). pose proof (N Vencido). pose proof (N EmRisco).
  pose proof (N EmDia). clear N.
  set (t := len ss) in *.
  set (v := conta (no_balde Vencido) ss) in *.
  set (r := conta (no_balde EmRisco) ss) in *.
  assert (0 <= t) by (unfold t, len; lia).
  split; [apply percentual_de_limites; lia|].
  split; [apply percentual_de_limites; lia|].
  split; [apply percentual_de_limites; lia|].
  split.
  - intros T. rewrite T. unfold Metrics.percentual_de. cbn. reflexivity.
  - intros T. assert (Ht : 0 < t) by lia.
    pose proof (percentual_de_perto (t - r - v) t Ht) as [C1 C2].
    pose proof (percentual_de_perto r t Ht) as [R1 R2].
    pose proof (percentual_de_perto v t Ht) as [V1 V2].
    assert (E : inject_Z (t - r - v) / inject_Z t * 100 + inject_Z r / inject_Z t * 100
                + inject_Z v / inject_Z t * 100 == 100).
    { unfold Z.sub. rewrite !inject_Z_plus, !inject_Z_opp. field.
      change 0%Q with (inject_Z 0). rewrite inject_Z_injective. lia. }
    set (pc := Metrics.percentual_de (t - r - v) t) in *.
    set (pr := Metrics.percentual_de r t) in *.
    set (pv := Metrics.percentual_de v t) in *.
    set (xc := (inject_Z (t - r - v) / inject_Z t * 100)%Q) in *.
    set (xr := (inject_Z r / inject_Z t * 100)%Q) in *.
    set (xv := (inject_Z v / inject_Z t * 100)%Q) in *.
    clearbody pc pr pv xc xr xv. split; lra.
Qed.

Lemma dashboard_percentages_witness :
  let d := Metrics.obter_metricas_dashboard bd_tres_chamados
             (mk_datetime 2026 2 18 12 0 0) None None in
  (100 - (3 # 20) <= Metrics.percentual_cumprimento d + Metrics.percentual_em_risco d
                     + Metrics.percentual_vencidos d <= 100 + (3 # 20))%Q.
Proof.
  intros d.
  apply (proj2 (proj2 (proj2 (proj2
           (dashboard_percentages bd_tres_chamados (mk_datetime 2026 2 18 12 0 0)
                                  None None))))).
  vm_compute. discriminate.
Defined.

(* ================================================================== *)
(** * Further properties of the calendar of calculator.py              *)
(* ================================================================== *)

(** Two calculators with coherent caches run the day loop to the same
    total. *)
Lemma calc_laco_dias_caches (db : BD) (i f : datetime) (n : nat) :
  forall current t total self1 self2,
    coerente db self1 -> coerente db self2 ->
    fst (Calculator.laco_dias n db i f current t total self1) =
    fst (Calculator.laco_dias n db i f current t total self2)
    /\ coerente db (snd (Calculator.laco_dias n db i f current t total self1)).
Proof.
  induction n as [|k IH]; intros current t total self1 self2 C1 C2;
    cbn [Calculator.laco_dias].
  - split; [reflexivity | exact C1].
  - destruct (current <=? date_of f); [|split; [reflexivity | exact C1]].
    unfold Calculator.bind.
    destruct (obter_horario_comercial_coerente db current self1 C1) as [E1 C1'].
    destruct (obter_horario_comercial_coerente db current self2 C2) as [E2 C2'].
    destruct (Calculator.obter_horario_comercial db current self1) as [j1 s1].
    destruct (Calculator.obter_horario_comercial db current self2) as [j2 s2].
    cbn [fst snd] in *. subst j1 j2. now apply IH.
Qed.

Lemma calcular_horas_uteis_caches (db : BD) (i f : datetime)
      (self1 self2 : Calculator.CalculadorSLA) :
  coerente db self1 -> coerente db self2 ->
  fst (Calculator.calcular_horas_uteis db i f self1) =
  fst (Calculator.calcular_horas_uteis db i f self2)
  /\ coerente db (snd (Calculator.calcular_horas_uteis db i f self1)).
Proof.
  intros C1 C2. unfold Calculator.calcular_horas_uteis.
  destruct (i >=? f); [split; [reflexivity | exact C1]|].
  now apply calc_laco_dias_caches.
Qed.

(** X13.  The caches of a calculator are transparent.  As long as they
    hold what the tables hold, [calcular_horas_uteis] and [calcular_sla]
    return what a fresh calculator returns, and they leave the caches
    holding what the tables hold. *)
Theorem caches_are_transparent (db : BD) (self : Calculator.CalculadorSLA) :
  coerente db self ->
  (forall inicio fim,
      fst (Calculator.calcular_horas_uteis db inicio fim self) =
      fst (Calculator.calcular_horas_uteis db inicio fim Calculator.novo)
      /\ coerente db (snd (Calculator.calcular_horas_uteis db inicio fim self)))
  /\ (forall now chamado,
         fst (Calculator.calcular_sla db now chamado self) =
         fst (Calculator.calcular_sla db now chamado Calculator.novo)
         /\ coerente db (snd (Calculator.calcular_sla db now chamado self))).
Proof.
  intros C. split.
  - intros inicio fim. apply calcular_horas_uteis_caches; [exact C | apply coerente_novo].
  - intros now c. unfold Calculator.calcular_sla.
    destruct (Calculator.obter_configuracao_sla db (prioridade c)) as [config|];
      [|split; [reflexivity | exact C]].
    destruct (data_abertura c) as [ab|]; [|split; [reflexivity | exact C]].
    set (ref := if match status c with
                   | Some st => pertence st Calculator.STATUS_FINAL
                   | None => false
                   end then _ else now).
    unfold Calculator.bind, Calculator.ret.
    destruct (data_primeira_resposta c) as [p|].
    + destruct (calcular_horas_uteis_caches db ab ref self Calculator.novo C
                  (coerente_novo db)) as [E C'].
      destruct (Calculator.calcular_horas_uteis db ab ref self) as [v s].
      destruct (Calculator.calcular_horas_uteis db ab ref Calculator.novo) as [v0 s0].
      cbn [fst snd] in *. subst v0.
      destruct (negb _); cbn [fst snd]; split; [reflexivity | exact C' | reflexivity | exact C'].
    + destruct (calcular_horas_uteis_caches db ab ref self Calculator.novo C
                  (coerente_novo db)) as [E C'].
      destruct (calcular_horas_uteis_caches db ab ref Calculator.novo Calculator.novo
                  (coerente_novo db) (coerente_novo db)) as [_ C0'].
      destruct (Calculator.calcular_horas_uteis db ab ref self) as [v s].
      destruct (Calculator.calcular_horas_uteis db ab ref Calculator.novo) as [v0 s0].
      cbn [fst snd] in *. subst v0.
      destruct (calcular_horas_uteis_caches db ab ref s s0 C' C0') as [E2 C2].
      destruct (Calculator.calcular_horas_uteis db ab ref s) as [w s'].
      destruct (Calculator.calcular_horas_uteis db ab ref s0) as [w0 s0'].
      cbn [fst snd] in *. subst w0.
      destruct (negb _); cbn [fst snd]; split; [reflexivity | exact C2 | reflexivity | exact C2].
Qed.

Lemma caches_are_transparent_witness :
  let self := snd (Calculator.eh_dia_util bd_sexta_santa (ymd2ord 2026 4 3)
                                          Calculator.novo) in
  fst (Calculator.calcular_horas_uteis bd_sexta_santa
         (mk_datetime 2026 4 2 9 0 0) (mk_datetime 2026 4 6 12 0 0) self) =
  fst (Calculator.calcular_horas_uteis bd_sexta_santa
         (mk_datetime 2026 4 2 9 0 0) (mk_datetime 2026 4 6 12 0 0) Calculator.novo).
Proof.
  intros self.
  apply (proj1 (caches_are_transparent bd_sexta_santa self
                  (proj2 (eh_dia_util_coerente bd_sexta_santa (ymd2ord 2026 4 3)
                            Calculator.novo (coerente_novo bd_sexta_santa))))).
Defined.

Lemma carregar_feriados_em_cache (db : BD) (ano : Z) (self : Calculator.CalculadorSLA) :
  coerente db self ->
  dict_get Z.eqb ano (Calculator._cache_feriados
                        (snd (Calculator._carregar_feriados db ano self)))
  = Some (Calculator.consulta_feriados db ano).
Proof.
  intros [Hf _]. unfold Calculator._carregar_feriados.
  destruct (dict_get Z.eqb ano (Calculator._cache_feriados self)) as [l|] eqn:E;
    cbn [snd Calculator._cache_feriados].
  - rewrite E. f_equal. now apply Hf.
  - rewrite dict_get_app, Z.eqb_refl. reflexivity.
Qed.

(** X14.  A calculator that has looked a year up keeps answering from its
    cache.  When a business day [data] has been checked and an active
    holiday is then recorded for that very date, the same calculator still
    reports the date as a business day; after [invalidar_cache] it reports
    a holiday. *)
Theorem cached_calendar_misses_new_holidays
        (db : BD) (self : Calculator.CalculadorSLA) (data : date) :
  coerente db self ->
  fst (Calculator.eh_dia_util db data self) = true ->
  let self' := snd (Calculator.eh_dia_util db data self) in
  let db' := com_feriados db (feriados db ++ [ {| feriado_data := data;
                                                  feriado_ativo := true |} ]) in
  fst (Calculator.eh_dia_util db' data self') = true
  /\ fst (Calculator.eh_dia_util db' data (Calculator.invalidar_cache self')) = false.
Proof.
  intros C Hu self' db'. subst self'. revert Hu.
  unfold Calculator.eh_dia_util.
  destruct (weekday data >=? 5) eqn:W; [discriminate|].
  unfold Calculator.bind, Calculator.ret. intros Hu.
  pose proof (carregar_feriados_em_cache db (year_of data) self C) as K.
  destruct (carregar_feriados_coerente db (year_of data) self C) as [E _].
  destruct (Calculator._carregar_feriados db (year_of data) self) as [l s].
  cbn [fst snd] in *. subst l. split.
  - unfold Calculator._carregar_feriados at 1. rewrite K. exact Hu.
  - unfold Calculator.invalidar_cache, Calculator._carregar_feriados, Calculator.novo.
    cbn [Calculator._cache_feriados dict_get fst].
    apply negb_false_iff, existsb_exists. exists data. split; [|apply Z.eqb_refl].
    unfold Calculator.consulta_feriados, db'. cbn [feriados com_feriados].
    apply in_map_iff. exists {| feriado_data := data; feriado_ativo := true |}.
    split; [reflexivity|]. apply filter_In. split.
    + apply in_or_app. right. now left.
    + cbn [feriado_ativo feriado_data andb]. apply Z.eqb_refl.
Qed.

Lemma cached_calendar_misses_new_holidays_witness :
  let data := ymd2ord 2026 4 3 in
  let self' := snd (Calculator.eh_dia_util bd_vazio data Calculator.novo) in
  fst (Calculator.eh_dia_util bd_sexta_santa data self') = true
  /\ fst (Calculator.eh_dia_util bd_sexta_santa data
            (Calculator.invalidar_cache self')) = false.
Proof.
  intros data self'.
  apply (cached_calendar_misses_new_holidays bd_vazio Calculator.novo data
           (coerente_novo bd_vazio)).
  reflexivity.
Defined.

(* ================================================================== *)
(** * The two accumulators of business hours                           *)
(* ================================================================== *)

Lemma soma_dias_ext (f g : date -> Q) (n : nat) :
  forall d, (forall x, d <= x < d + Z.of_nat n -> f x == g x) ->
            soma_dias f d n == soma_dias g d n.
Proof.
  induction n as [|k IH]; intros d H; cbn [soma_dias]; [reflexivity|].
  rewrite (H d) by lia. rewrite (IH (d + 1)); [reflexivity|].
  intros x Hx. apply H. lia.
Qed.

Lemma dict_get_all {K V : Type} (eqb : K -> K -> bool) (P : V -> Prop) (k : K)
      (d : list (K * V)) (v : V) :
  (forall x, In x d -> P (snd x)) -> dict_get eqb k d = Some v -> P v.
Proof.
  induction d as [|[k' v'] d IH]; cbn [dict_get]; intros H E; [discriminate|].
  destruct (dict_get eqb k d) as [w|] eqn:G.
  - injection E as <-. apply IH; [|reflexivity]. intros x Hx. apply H. now right.
  - destruct (eqb k k'); [|discriminate]. injection E as <-.
    apply (H (k', v')). now left.
Qed.

(** The window of a day under the default calendar. *)
Lemma janela_padrao (db : BD) (d : date) :
  (forall f, In f (feriados db) -> feriado_ativo f = true -> feriado_data f <> d) ->
  (forall h, In h (horarios db) -> horario_ativo h = true ->
             hora_inicio h = mk_time 8 0 /\ hora_fim h = mk_time 18 0) ->
  janela db d = if Metrics._eh_dia_util d then Some Calculator.horario_padrao else None.
Proof.
  intros Hf Hh. unfold janela, dia_util, Metrics._eh_dia_util.
  rewrite Z.geb_leb.
  destruct (Z.ltb_spec (weekday d) 5) as [L|G];
    [|assert (E : (5 <=? weekday d) = true) by (apply Z.leb_le; lia);
      now rewrite E].
  assert (E : (5 <=? weekday d) = false) by (apply Z.leb_gt; lia). rewrite E.
  assert (N : existsb (Z.eqb d) (Calculator.consulta_feriados db (year_of d)) = false).
  { destruct (existsb _ _) eqn:X; [|reflexivity].
    apply existsb_exists in X as (x & Hx & Ex). apply Z.eqb_eq in Ex. subst x.
    unfold Calculator.consulta_feriados in Hx.
    apply in_map_iff in Hx as (f & Ed & Hin). apply filter_In in Hin as [Hin Ha].
    apply andb_prop in Ha as [Ha _]. exfalso. exact (Hf f Hin Ha Ed). }
  rewrite N. cbn [negb andb]. f_equal.
  destruct (dict_get Z.eqb (weekday d) (Calculator.consulta_horarios db)) as [h|] eqn:G;
    [|reflexivity].
  apply (dict_get_all Z.eqb (fun h => h = Calculator.horario_padrao) _ _ _) in G;
    [exact G|].
  intros x Hx. unfold Calculator.consulta_horarios in Hx.
  destruct (map _ (filter horario_ativo (horarios db))) as [|y r] eqn:M.
  - cbn in Hx. decompose [or] Hx; subst; try reflexivity; contradiction.
  - rewrite <- M in Hx. apply in_map_iff in Hx as (h0 & <- & Hin).
    apply filter_In in Hin as [Hin Ha]. destruct (Hh h0 Hin Ha) as [E1 E2].
    cbn [snd]. now rewrite E1, E2.
Qed.

(** One day of [calcular_horas_uteis] with the window 08:00-18:00 is one
    day of [_horas_uteis]. *)
Lemma corpo_dia_padrao (a b : datetime) (d : date) :
  date_of a <= d <= date_of b ->
  Calculator.corpo_dia a b d (time_of a) (Some Calculator.horario_padrao) 0 =
  (let j_ini := Z.max (combine d Metrics.HORA_INICIO) a in
   let j_fim := Z.min (combine d Metrics.HORA_FIM) b in
   if j_ini <? j_fim then (0 + horas (j_fim - j_ini)%Z)%Q else 0%Q).
Proof.
  intros Hd. unfold Calculator.corpo_dia, Calculator.horario_padrao.
  cbv zeta.
  set (ti := if d =? date_of a then Z.max (time_of a) (mk_time 8 0) else mk_time 8 0).
  set (tf := if d =? date_of b then Z.min (time_of b) (mk_time 18 0) else mk_time 18 0).
  assert (Ei : combine d ti = Z.max (combine d Metrics.HORA_INICIO) a).
  { subst ti. unfold Metrics.HORA_INICIO. destruct (Z.eqb_spec d (date_of a)) as [->|N].
    - datas.
    - assert (date_of a < d) by lia. datas. }
  assert (Ef : combine d tf = Z.min (combine d Metrics.HORA_FIM) b).
  { subst tf. unfold Metrics.HORA_FIM. destruct (Z.eqb_spec d (date_of b)) as [->|N].
    - datas.
    - assert (d < date_of b) by lia. datas. }
  rewrite <- Ei, <- Ef.
  assert (C : (ti <? tf) = (combine d ti <? combine d tf)).
  { unfold combine. destruct (Z.ltb_spec ti tf), (Z.ltb_spec (d * us_per_day + ti)
                                                            (d * us_per_day + tf));
      try reflexivity; lia. }
  rewrite C. reflexivity.
Qed.

(** X15.  Under the default calendar the two accumulators agree.  When no
    active holiday falls between the two dates and every active row of the
    business-hours table is 08:00-18:00, [_horas_uteis] of metrics.py is
    [calcular_horas_uteis] of calculator.py rounded to 4 decimals, for
    every start at or after the cutover. *)
Theorem accumulators_agree_on_default_calendar
        (db : BD) (self : Calculator.CalculadorSLA) (inicio fim : datetime) :
  coerente db self ->
  Metrics.SLA_DATA_INICIO <= inicio ->
  (forall f, In f (feriados db) -> feriado_ativo f = true ->
             ~ (date_of inicio <= feriado_data f <= date_of fim)) ->
  (forall h, In h (horarios db) -> horario_ativo h = true ->
             hora_inicio h = mk_time 8 0 /\ hora_fim h = mk_time 18 0) ->
  Metrics._horas_uteis (Some inicio) (Some fim) ==
  py_round (fst (Calculator.calcular_horas_uteis db inicio fim self)) 4.
Proof.
  intros C Hc Hf Hh.
  destruct (Z_lt_le_dec inicio fim) as [L|G].
  - rewrite metrics_horas_uteis_soma by lia.
    rewrite Z.max_l by lia.
    rewrite (py_round_comp _ _ 4 (calculator_horas_uteis_soma db self inicio fim C L)).
    unfold Metrics.dias_restantes.
    erewrite py_round_comp; [reflexivity|].
    apply soma_dias_ext. intros d Hd.
    assert (Hr : date_of inicio <= d <= date_of fim).
    { pose proof (date_of_mono inicio fim). lia. }
    unfold contribuicao_calc, contribuicao, Metrics.corpo_dia.
    rewrite (janela_padrao db d); [|intros f Hin Ha E; apply (Hf f Hin Ha); lia | exact Hh].
    destruct (Metrics._eh_dia_util d); [|reflexivity].
    rewrite (corpo_dia_padrao inicio fim d Hr). reflexivity.
  - unfold Metrics._horas_uteis, Calculator.calcular_horas_uteis.
    assert (E1 : (inicio <? Metrics.SLA_DATA_INICIO) = false) by (apply Z.ltb_ge; lia).
    assert (E2 : (inicio >=? fim) = true) by (rewrite Z.geb_leb; apply Z.leb_le; lia).
    rewrite E1, E2. reflexivity.
Qed.

Lemma accumulators_agree_on_default_calendar_witness :
  Metrics._horas_uteis (Some (mk_datetime 2026 3 31 16 0 0))
                       (Some (mk_datetime 2026 4 2 9 30 0)) ==
  py_round (fst (Calculator.calcular_horas_uteis bd_sexta_santa
                   (mk_datetime 2026 3 31 16 0 0) (mk_datetime 2026 4 2 9 30 0)
                   Calculator.novo)) 4.
Proof.
  apply (accumulators_agree_on_default_calendar bd_sexta_santa Calculator.novo).
  - apply coerente_novo.
  - vm_compute. discriminate.
  - intros f [<-|[]] _. vm_compute. intros [_ H]. apply H. reflexivity.
  - intros h [].
Defined.

(* ================================================================== *)
(** * Open pauses in calculator.py                                     *)
(* ================================================================== *)

Lemma obter_horario_comercial_tabelas (db db' : BD) (d : date)
      (self : Calculator.CalculadorSLA) :
  feriados db = feriados db' -> horarios db = horarios db' ->
  Calculator.obter_horario_comercial db d self =
  Calculator.obter_horario_comercial db' d self.
Proof.
  intros Hf Hh.
  unfold Calculator.obter_horario_comercial, Calculator.eh_dia_util,
    Calculator._carregar_feriados, Calculator._carregar_horarios_comerciais,
    Calculator.consulta_feriados, Calculator.consulta_horarios.
  now rewrite Hf, Hh.
Qed.

Lemma calc_laco_dias_tabelas (db db' : BD) (i f : datetime) (n : nat) :
  feriados db = feriados db' -> horarios db = horarios db' ->
  forall current t total self,
    Calculator.laco_dias n db i f current t total self =
    Calculator.laco_dias n db' i f current t total self.
Proof.
  intros Hf Hh. induction n as [|k IH]; intros current t total self;
    cbn [Calculator.laco_dias]; [reflexivity|].
  destruct (current <=? date_of f); [|reflexivity].
  unfold Calculator.bind.
  rewrite (obter_horario_comercial_tabelas db db' current self Hf Hh).
  destruct (Calculator.obter_horario_comercial db' current self) as [j s].
  apply IH.
Qed.

Lemma calcular_sla_tabelas (db db' : BD) (now : datetime) (c : Chamado)
      (self : Calculator.CalculadorSLA) :
  configuracoes db = configuracoes db' ->
  feriados db = feriados db' -> horarios db = horarios db' ->
  Calculator.calcular_tempo_pausado db (id c) = Calculator.calcular_tempo_pausado db' (id c) ->
  Calculator.calcular_sla db now c self = Calculator.calcular_sla db' now c self.
Proof.
  intros Hc Hf Hh Hp.
  assert (U : forall a b s, Calculator.calcular_horas_uteis db a b s
                            = Calculator.calcular_horas_uteis db' a b s).
  { intros a b s. unfold Calculator.calcular_horas_uteis.
    destruct (a >=? b); [reflexivity|]. now apply calc_laco_dias_tabelas. }
  unfold Calculator.calcular_sla, Calculator.obter_configuracao_sla.
  rewrite Hc, Hp.
  destruct (match prioridade c with
            | Some p => find _ (configuracoes db')
            | None => None
            end) as [config|]; [|reflexivity].
  destruct (data_abertura c) as [ab|]; [|reflexivity].
  unfold Calculator.bind.
  destruct (data_primeira_resposta c) as [p|]; cbv beta iota delta [Calculator.ret];
    rewrite !U; [reflexivity|].
  destruct (Calculator.calcular_horas_uteis db' ab _ self) as [v s].
  rewrite U. reflexivity.
Qed.

Lemma calcular_tempo_pausado_aberta (db : BD) (i : Z) (antes depois : list SLAPausa)
      (p : SLAPausa) :
  fim p = None ->
  Calculator.calcular_tempo_pausado (com_pausas db (antes ++ p :: depois)) i =
  Calculator.calcular_tempo_pausado (com_pausas db (antes ++ depois)) i.
Proof.
  intros H. unfold Calculator.calcular_tempo_pausado. cbn [pausas com_pausas].
  rewrite filter_sem; [reflexivity|]. rewrite H. apply andb_false_r.
Qed.

(** X16.  An open pause does not stop the clock of calculator.py.
    [calcular_sla] reads the closed pauses only: a pause row with
    [fim = NULL], wherever it stands in the table, leaves the result and
    the caches as they are without it.  In particular the result is the
    same before and after [pausar_automaticamente], whatever the ticket,
    the status and the instant. *)
Theorem calculator_ignores_open_pauses
        (db : BD) (now : datetime) (chamado : Chamado) (self : Calculator.CalculadorSLA) :
  (forall antes depois p,
      fim p = None ->
      Calculator.calcular_sla (com_pausas db (antes ++ p :: depois)) now chamado self =
      Calculator.calcular_sla (com_pausas db (antes ++ depois)) now chamado self)
  /\ (forall chamado_id_ status_atual data_mudanca,
         Calculator.calcular_sla
           (snd (Calculator.pausar_automaticamente db chamado_id_ status_atual data_mudanca))
           now chamado self =
         Calculator.calcular_sla db now chamado self).
Proof.
  split.
  - intros antes depois p H. apply calcular_sla_tabelas; try reflexivity.
    now apply calcular_tempo_pausado_aberta.
  - intros i st t. unfold Calculator.pausar_automaticamente.
    destruct (negb _); [reflexivity|].
    destruct (find (aberta_de i) (pausas db)); [reflexivity|]. cbn [snd].
    apply calcular_sla_tabelas; try reflexivity.
    unfold Calculator.calcular_tempo_pausado. cbn [pausas com_pausas].
    rewrite filter_app. cbn [filter fim]. rewrite andb_false_r, app_nil_r. reflexivity.
Qed.

Lemma calculator_ignores_open_pauses_witness :
  Calculator.calcular_sla bd_aguardando (mk_datetime 2026 2 18 12 0 0)
                          chamado_aguardando Calculator.novo =
  Calculator.calcular_sla (com_pausas bd_aguardando []) (mk_datetime 2026 2 18 12 0 0)
                          chamado_aguardando Calculator.novo.
Proof.
  apply (proj1 (calculator_ignores_open_pauses
                  bd_aguardando (mk_datetime 2026 2 18 12 0 0) chamado_aguardando
                  Calculator.novo) [] []).
  reflexivity.
Defined.

(* ================================================================== *)
(** * Further properties of the pause hooks and endpoints              *)
(* ================================================================== *)

Lemma find_app_none {A : Type} (f : A -> bool) (l l' : list A) :
  find f l = None -> find f (l ++ l') = find f l'.
Proof.
  induction l as [|a l IH]; cbn [find app]; [reflexivity|].
  destruct (f a); [discriminate | exact IH].
Qed.

Lemma fechar_primeira_app_none (sel : SLAPausa -> bool) (q : datetime)
      (l l' : list SLAPausa) :
  find sel l = None ->
  fechar_primeira sel q (l ++ l') = l ++ fechar_primeira sel q l'.
Proof.
  induction l as [|a l IH]; cbn [find app fechar_primeira]; [reflexivity|].
  destruct (sel a); [discriminate|]. intros H. now rewrite IH.
Qed.

Lemma fold_left_Qplus (l : list Q) (a : Q) :
  fold_left Qplus l a == a + fold_left Qplus l 0%Q.
Proof.
  revert a. induction l as [|x l IH]; intros a; cbn [fold_left]; [ring|].
  rewrite IH, (IH (0 + x)%Q). ring.
Qed.

Lemma fold_left_Qplus_app (l1 l2 : list Q) :
  fold_left Qplus (l1 ++ l2) 0%Q == fold_left Qplus l1 0%Q + fold_left Qplus l2 0%Q.
Proof. rewrite fold_left_app. apply fold_left_Qplus. Qed.

(** X17.  Pausing and resuming through the status hooks of calculator.py.
    For a ticket without an open pause, entering a pause status at [t1]
    opens exactly one pause, whose running duration at [now] is the
    wall-clock hours since [t1]; leaving the pause status at [t2] closes
    it, reports [True], leaves no pause open and makes the paused time of
    the ticket grow by the wall-clock hours from [t1] to [t2]. *)
Theorem calculator_pause_then_resume
        (db : BD) (i : Z) (st st' : string) (t1 t2 : datetime) :
  pertence st Calculator.STATUS_PAUSA = true ->
  pertence st' Calculator.STATUS_PAUSA = false ->
  find (aberta_de i) (pausas db) = None ->
  let db1 := snd (Calculator.pausar_automaticamente db i st t1) in
  let r := Calculator.retomar_automaticamente db1 i st' t2 in
  abertas i db1 = 1%nat
  /\ (forall now, Calculator.calcular_tempo_pausado_ativo db1 now i = horas (now - t1))
  /\ Calculator.calcular_tempo_pausado db1 i == Calculator.calcular_tempo_pausado db i
  /\ fst r = true
  /\ abertas i (snd r) = 0%nat
  /\ Calculator.calcular_tempo_pausado_ativo (snd r) t2 i = 0%Q
  /\ Calculator.calcular_tempo_pausado (snd r) i ==
     Calculator.calcular_tempo_pausado db i + horas (t2 - t1).
Proof.
  intros Hs Hs' Hf db1 r. subst r db1.
  unfold Calculator.pausar_automaticamente. rewrite Hs, Hf. cbn [negb snd].
  set (nova := {| pausa_id := proximo_id (pausas db); chamado_id := i; inicio := t1;
                  fim := None; duracao_horas := 0; tipo := "status";
                  status_pausante := Some st;
                  motivo := Some ("Pausa automática - Status: " ++ st)%string |}).
  assert (An : aberta_de i nova = true)
    by (unfold aberta_de, nova; cbn; now rewrite Z.eqb_refl).
  assert (F1 : find (aberta_de i) (pausas db ++ [nova]) = Some nova).
  { rewrite (find_app_none _ _ _ Hf). cbn [find]. now rewrite An. }
  assert (Z0 : filter (aberta_de i) (pausas db) = []) by now apply find_none_filter.
  unfold Calculator.retomar_automaticamente. rewrite Hs'.
  cbn [pausas com_pausas]. rewrite F1. cbn [fst snd].
  rewrite (fechar_primeira_app_none _ _ _ _ Hf). cbn [fechar_primeira]. rewrite An.
  unfold abertas, Calculator.calcular_tempo_pausado_ativo,
    Calculator.calcular_tempo_pausado.
  cbn [pausas com_pausas]. rewrite F1, !filter_app, Z0.
  rewrite (find_app_none _ _ _ Hf).
  cbn [filter find app List.length]. rewrite An, (aberta_de_fechar i t2 nova).
  cbn [List.length chamado_id fim inicio duracao_horas fechar nova andb].
  rewrite Z.eqb_refl. cbn [andb filter app].
  repeat split.
  - rewrite app_nil_r. reflexivity.
  - change (duracao_horas (fechar t2 nova)) with (horas (t2 - t1)).
    destruct (negb (Qeq_bool (horas (t2 - t1)) 0)) eqn:D.
    + rewrite map_app, fold_left_Qplus_app. cbn [map fold_left].
      change (duracao_horas (fechar t2 nova)) with (horas (t2 - t1)). ring.
    + rewrite app_nil_r. apply negb_false_iff, Qeq_bool_iff in D. rewrite D. ring.
Qed.

Lemma calculator_pause_then_resume_witness :
  let db1 := snd (Calculator.pausar_automaticamente bd_um_chamado 1 "Aguardando"
                    (mk_datetime 2026 2 16 10 0 0)) in
  let r := Calculator.retomar_automaticamente db1 1 "Em atendimento"
             (mk_datetime 2026 2 16 11 30 0) in
  Calculator.calcular_tempo_pausado (snd r) 1 ==
  Calculator.calcular_tempo_pausado bd_um_chamado 1
  + horas (mk_datetime 2026 2 16 11 30 0 - mk_datetime 2026 2 16 10 0 0).
Proof.
  intros db1 r.
  apply (calculator_pause_then_resume bd_um_chamado 1 "Aguardando" "Em atendimento");
    reflexivity.
Defined.

Lemma pertence_aguardando (status : string) :
  pertence status ["Aguardando"%string] = true <-> status = "Aguardando"%string.
Proof.
  unfold pertence. cbn [existsb]. rewrite orb_false_r. apply String.eqb_eq.
Qed.

Lemma fechar_todas_nenhuma_aberta (i : Z) (q : datetime) (l : list SLAPausa) :
  filter (aberta_de i) (map (fun p => if aberta_de i p then fechar q p else p) l) = [].
Proof.
  induction l as [|p l IH]; [reflexivity|]. cbn [map filter].
  destruct (aberta_de i p) eqn:E.
  - now rewrite aberta_de_fechar.
  - now rewrite E.
Qed.

Lemma fechar_todas_sem_abertas (i : Z) (q : datetime) (l : list SLAPausa) :
  filter (aberta_de i) l = [] ->
  map (fun p => if aberta_de i p then fechar q p else p) l = l.
Proof.
  induction l as [|p l IH]; [reflexivity|]. cbn [map filter].
  destruct (aberta_de i p); [discriminate|]. intros H. now rewrite IH.
Qed.

Lemma fechar_todas_outro (i j : Z) (q : datetime) (l : list SLAPausa) :
  j <> i ->
  filter (fun p => chamado_id p =? j)
         (map (fun p => if aberta_de i p then fechar q p else p) l) =
  filter (fun p => chamado_id p =? j) l.
Proof.
  intros N. induction l as [|p l IH]; [reflexivity|]. cbn [map filter].
  rewrite IH. unfold aberta_de.
  destruct (Z.eqb_spec (chamado_id p) i) as [E|_]; cbn [andb]; [|reflexivity].
  assert (X : (i =? j) = false) by (apply Z.eqb_neq; congruence).
  destruct (fim p); cbn [fechar chamado_id]; rewrite E, X; reflexivity.
Qed.

(** X18.  What the status hook of service.py establishes.  After
    [pausar_sla_chamado(chamado_id, status)], whatever the pause table
    held before, the ticket has an open pause exactly when [status] is
    "Aguardando" and either the ticket row exists or a pause was open
    already; so, for an existing ticket, exactly when [status] is
    "Aguardando".  For an id without ticket row and without open pause
    the call reports [False] and the pause table is as it was.  The
    returned flag tells whether the number of open pauses of the ticket
    changed, and the pauses of every other ticket, as [_pausas] of
    metrics.py reads them, are what they were. *)
Theorem status_hook_postcondition
        (db : BD) (now : datetime) (chamado_id_ : Z) (status : string) :
  let r := Service.pausar_sla_chamado db now chamado_id_ status in
  let existe := exists c, In c (chamados db) /\ id c = chamado_id_ in
  (abertas chamado_id_ (snd r) <> 0%nat <->
   status = "Aguardando"%string /\ (abertas chamado_id_ db <> 0%nat \/ existe))
  /\ (existe ->
      (abertas chamado_id_ (snd r) <> 0%nat <-> status = "Aguardando"%string))
  /\ (~ existe -> abertas chamado_id_ db = 0%nat ->
      fst r = false /\ pausas (snd r) = pausas db)
  /\ (fst r = true <-> abertas chamado_id_ (snd r) <> abertas chamado_id_ db)
  /\ (forall outro, outro <> chamado_id_ ->
                    Metrics._pausas (snd r) outro = Metrics._pausas db outro).
Proof.
  intros r existe.
  assert (Ex : existsb (fun c => id c =? chamado_id_) (chamados db) = true <-> existe).
  { rewrite existsb_exists. unfold existe.
    split; intros (c & Hc & E); exists c; (split; [exact Hc|]);
      [now apply Z.eqb_eq | now apply Z.eqb_eq]. }
  assert (K : (abertas chamado_id_ (snd r) <> 0%nat <->
               status = "Aguardando"%string
               /\ (abertas chamado_id_ db <> 0%nat \/ existe))
              /\ (~ existe -> abertas chamado_id_ db = 0%nat ->
                  fst r = false /\ pausas (snd r) = pausas db)
              /\ (fst r = true <->
                  abertas chamado_id_ (snd r) <> abertas chamado_id_ db)).
  { subst r. unfold Service.pausar_sla_chamado.
    destruct (pertence status ["Aguardando"%string]) eqn:P.
    - apply pertence_aguardando in P.
      destruct (find (aberta_de chamado_id_) (pausas db)) as [p|] eqn:F.
      + cbn [fst snd].
        assert (A : abertas chamado_id_ db <> 0%nat).
        { unfold abertas. apply find_some in F as [Hin Ha].
          intros Z0. apply length_zero_iff_nil in Z0.
          assert (X : In p (filter (aberta_de chamado_id_) (pausas db)))
            by (apply filter_In; now split).
          rewrite Z0 in X. exact X. }
        split; [split; [intros _; split; [exact P | now left] | intros _; exact A]|].
        split; [intros _ Z0; contradiction|].
        split; [discriminate | congruence].
      + assert (Z0 : abertas chamado_id_ db = 0%nat)
          by (unfold abertas; now rewrite (find_none_filter _ _ F)).
        destruct (existsb (fun c => id c =? chamado_id_) (chamados db)) eqn:X;
          cbn [fst snd].
        * set (nova := {| pausa_id := proximo_id (pausas db);
                          chamado_id := chamado_id_; inicio := now; fim := None;
                          duracao_horas := 0; tipo := "status";
                          status_pausante := Some status;
                          motivo := Some ("Pausa automática - " ++ status)%string |}).
          assert (An : aberta_de chamado_id_ nova = true)
            by (unfold aberta_de, nova; cbn; now rewrite Z.eqb_refl).
          assert (U : abertas chamado_id_ (com_pausas db (pausas db ++ [nova])) = 1%nat).
          { unfold abertas. cbn [pausas com_pausas].
            rewrite filter_app, (find_none_filter _ _ F). cbn [filter app].
            now rewrite An. }
          rewrite U, Z0.
          split; [split; [intros _; split; [exact P | right; now apply Ex]
                         | discriminate]|].
          split; [intros N; exfalso; apply N; now apply Ex|].
          split; [discriminate | reflexivity].
        * split; [split; [intros N; contradiction|]|].
          { intros [_ [N|N]]; [contradiction|]. apply Ex in N. congruence. }
          split; [intros _ _; split; reflexivity|].
          split; [discriminate | congruence].
    - assert (N : status <> "Aguardando"%string).
      { intros E. apply pertence_aguardando in E. congruence. }
      cbn [fst snd]. unfold abertas. cbn [pausas com_pausas].
      rewrite fechar_todas_nenhuma_aberta. cbn [List.length].
      split; [split; [congruence | intros [E _]; contradiction]|].
      split.
      + intros _ Z0. apply length_zero_iff_nil in Z0. rewrite Z0.
        split; [reflexivity|]. now apply fechar_todas_sem_abertas.
      + destruct (filter (aberta_de chamado_id_) (pausas db)); cbn [negb List.length];
          split; congruence. }
  destruct K as (K1 & K2 & K3).
  split; [exact K1|]. split.
  { intros E. rewrite K1. split; [now intros [S _] | intros S; split; [exact S | now right]]. }
  split; [exact K2|]. split; [exact K3|].
  intros outro No. subst r. unfold Service.pausar_sla_chamado, Metrics._pausas.
  destruct (pertence status ["Aguardando"%string]).
  - destruct (find (aberta_de chamado_id_) (pausas db)); [reflexivity|].
    destruct (existsb _ (chamados db)); [|reflexivity].
    cbn [snd pausas com_pausas]. rewrite filter_app. cbn [filter chamado_id].
    assert (X : (chamado_id_ =? outro) = false) by (apply Z.eqb_neq; congruence).
    rewrite X. now rewrite app_nil_r.
  - cbn [snd pausas com_pausas]. now rewrite fechar_todas_outro.
Qed.

Lemma status_hook_postcondition_witness :
  let r := Service.pausar_sla_chamado bd_um_chamado (mk_datetime 2026 2 16 10 0 0)
             77 "Aguardando" in
  fst r = false /\ pausas (snd r) = pausas bd_um_chamado.
Proof.
  intros r.
  apply (proj1 (proj2 (proj2 (status_hook_postcondition
                                bd_um_chamado (mk_datetime 2026 2 16 10 0 0)
                                77 "Aguardando")))).
  - intros (c & [<-|[]] & E). discriminate.
  - reflexivity.
Defined.

(** X19.  The status hook of service.py is idempotent: a second call with
    the same status, at whatever instant, reports [False] and leaves the
    pause table as the first call left it. *)
Theorem status_hook_idempotent
        (db : BD) (now now' : datetime) (chamado_id_ : Z) (status : string) :
  let db1 := snd (Service.pausar_sla_chamado db now chamado_id_ status) in
  Service.pausar_sla_chamado db1 now' chamado_id_ status = (false, db1).
Proof.
  cbv zeta. unfold Service.pausar_sla_chamado.
  destruct (pertence status ["Aguardando"%string]) eqn:P.
  - destruct (find (aberta_de chamado_id_) (pausas db)) as [p|] eqn:F; cbn [snd].
    + now rewrite F.
    + destruct (existsb (fun c => id c =? chamado_id_) (chamados db)) eqn:X;
        cbn [snd].
      * cbn [pausas com_pausas]. rewrite (find_app_none _ _ _ F).
        unfold find, aberta_de. cbn [chamado_id fim]. rewrite Z.eqb_refl. reflexivity.
      * now rewrite F, X.
  - cbn [snd pausas com_pausas].
    rewrite fechar_todas_nenhuma_aberta. cbn [negb].
    rewrite (fechar_todas_sem_abertas chamado_id_ now')
      by apply fechar_todas_nenhuma_aberta.
    reflexivity.
Qed.

Lemma fechar_primeira_find (i : Z) (q : datetime) (l : list SLAPausa) (p : SLAPausa) :
  find (fun p => pausa_id p =? i) l = Some p ->
  find (fun p => pausa_id p =? i) (fechar_primeira (fun p => pausa_id p =? i) q l)
  = Some (fechar q p)
  /\ List.length (fechar_primeira (fun p => pausa_id p =? i) q l) = List.length l.
Proof.
  induction l as [|a l IH]; cbn [find fechar_primeira]; [discriminate|].
  destruct (pausa_id a =? i) eqn:E.
  - intros H. injection H as <-. cbn [find fechar pausa_id List.length].
    now rewrite E.
  - intros H. cbn [find List.length]. rewrite E.
    destruct (IH H) as [F L]. now rewrite F, L.
Qed.

Lemma find_none_forall {A : Type} (f : A -> bool) (l : list A) :
  find f l = None <-> forall x, In x l -> f x = false.
Proof.
  split.
  - intros H x Hx. apply (find_none f l H x Hx).
  - intros H. destruct (find f l) as [a|] eqn:E; [|reflexivity].
    apply find_some in E as [Hin Ha]. rewrite (H a Hin) in Ha. discriminate.
Qed.

(** X20.  [POST /pausa/{pausa_id}/retomar].  The answer is 404 exactly when
    no pause has the id, and an error answer leaves the pause table as it
    was.  A successful answer hands back the pause with the id, closed at
    [now] with the wall-clock hours since its start as duration; the table
    keeps its number of rows, and resuming the same pause again, at
    whatever instant, is answered 400 and changes nothing. *)
Theorem resume_endpoint (db : BD) (now : datetime) (pausa_id_ : Z) :
  let r := Routes.retomar_pausa db now pausa_id_ in
  (fst r = Routes.HTTP_404 <->
   forall p, In p (pausas db) -> pausa_id p <> pausa_id_)
  /\ (fst r = Routes.HTTP_404 \/ fst r = Routes.HTTP_400 -> snd r = db)
  /\ (forall p, fst r = Routes.Ok p ->
        pausa_id p = pausa_id_ /\ fim p = Some now
        /\ duracao_horas p = horas (now - inicio p)
        /\ In p (pausas (snd r))
        /\ List.length (pausas (snd r)) = List.length (pausas db)
        /\ forall now', Routes.retomar_pausa (snd r) now' pausa_id_
                        = (Routes.HTTP_400, snd r)).
Proof.
  intros r.
  assert (R : r = Routes.retomar_pausa db now pausa_id_) by reflexivity.
  clearbody r. unfold Routes.retomar_pausa in R.
  destruct (find (fun p => pausa_id p =? pausa_id_) (pausas db)) as [pausa|] eqn:F.
  - pose proof (find_some _ _ F) as [Hin Hid]. apply Z.eqb_eq in Hid.
    destruct (fim pausa) as [f|] eqn:Ef; subst r; cbn [fst snd];
      (split; [split; [discriminate | intros H; exfalso; exact (H pausa Hin Hid)]|]).
    + split; [reflexivity|]. intros p E. discriminate.
    + split; [intros [E|E]; discriminate|].
      intros p E. injection E as <-.
      destruct (fechar_primeira_find pausa_id_ now (pausas db) pausa F) as [F' L].
      cbn [fechar pausa_id fim duracao_horas inicio pausas com_pausas].
      repeat split; try assumption.
      * apply (find_some _ _ F').
      * intros now'. unfold Routes.retomar_pausa. cbn [pausas com_pausas].
        rewrite F'. reflexivity.
  - subst r. cbn [fst snd]. split; [|split].
    + split; [intros _|reflexivity].
      intros p Hin E. apply (find_none _ _ F) in Hin. apply Z.eqb_neq in Hin.
      contradiction.
    + reflexivity.
    + intros p E. discriminate.
Qed.

Lemma resume_endpoint_witness :
  let r := Routes.retomar_pausa bd_aguardando (mk_datetime 2026 2 18 9 0 0) 1 in
  Routes.retomar_pausa (snd r) (mk_datetime 2026 2 19 9 0 0) 1
  = (Routes.HTTP_400, snd r).
Proof.
  intros r.
  destruct (proj2 (proj2 (resume_endpoint bd_aguardando (mk_datetime 2026 2 18 9 0 0) 1))
              _ eq_refl) as (_ & _ & _ & _ & _ & H).
  apply H.
Defined.

Lemma remover_primeira_props (i : Z) (l : list SLAPausa) (p : SLAPausa) :
  find (fun p => pausa_id p =? i) l = Some p ->
  S (List.length (Routes.remover_primeira (fun p => pausa_id p =? i) l)) = List.length l
  /\ (forall x, pausa_id x <> i ->
                (In x (Routes.remover_primeira (fun p => pausa_id p =? i) l) <-> In x l))
  /\ (NoDup (map pausa_id l) ->
      forall x, In x (Routes.remover_primeira (fun p => pausa_id p =? i) l) ->
                pausa_id x <> i).
Proof.
  induction l as [|a l IH]; cbn [find Routes.remover_primeira]; [discriminate|].
  destruct (Z.eqb_spec (pausa_id a) i) as [E|N].
  - intros _. split; [reflexivity|]. split.
    + intros x Hx. cbn [In]. split; [now right|]. intros [<-|H]; [contradiction|exact H].
    + intros ND x Hx Ex. cbn [map] in ND. apply NoDup_cons_iff in ND as [Na _].
      apply Na. rewrite E, <- Ex. now apply in_map.
  - intros F. destruct (IH F) as (L & K & D). cbn [List.length In].
    split; [now rewrite L|]. split.
    + intros x Hx. now rewrite (K x Hx).
    + intros ND x [<-|Hx]; [exact N|].
      cbn [map] in ND. apply NoDup_cons_iff in ND as [_ ND]. now apply D.
Qed.

(** X21.  [DELETE /pausa/{pausa_id}].  The answer is 404 exactly when no
    pause has the id, and then the table is unchanged.  Otherwise one row
    goes away and the rows with another id stay; with unique ids no pause
    with the id is left, so deleting or resuming it again is answered 404. *)
Theorem delete_endpoint (db : BD) (pausa_id_ : Z) :
  let r := Routes.deletar_pausa db pausa_id_ in
  (fst r = Routes.HTTP_404 <->
   forall p, In p (pausas db) -> pausa_id p <> pausa_id_)
  /\ (fst r = Routes.HTTP_404 -> snd r = db)
  /\ (fst r = Routes.Ok tt ->
      S (List.length (pausas (snd r))) = List.length (pausas db)
      /\ (forall p, pausa_id p <> pausa_id_ ->
                    (In p (pausas (snd r)) <-> In p (pausas db)))
      /\ (NoDup (map pausa_id (pausas db)) ->
          Routes.deletar_pausa (snd r) pausa_id_ = (Routes.HTTP_404, snd r)
          /\ forall now, Routes.retomar_pausa (snd r) now pausa_id_
                         = (Routes.HTTP_404, snd r))).
Proof.
  intros r.
  assert (R : r = Routes.deletar_pausa db pausa_id_) by reflexivity.
  clearbody r. unfold Routes.deletar_pausa in R.
  destruct (find (fun p => pausa_id p =? pausa_id_) (pausas db)) as [pausa|] eqn:F;
    subst r; cbn [fst snd].
  - pose proof (find_some _ _ F) as [Hin Hid]. apply Z.eqb_eq in Hid.
    destruct (remover_primeira_props pausa_id_ (pausas db) pausa F) as (L & K & D).
    split; [split; [discriminate | intros H; exfalso; exact (H pausa Hin Hid)]|].
    split; [discriminate|]. intros _. cbn [pausas com_pausas].
    split; [exact L|]. split; [exact K|]. intros ND.
    assert (G : find (fun p => pausa_id p =? pausa_id_)
                     (Routes.remover_primeira (fun p => pausa_id p =? pausa_id_)
                                              (pausas db)) = None).
    { apply find_none_forall. intros x Hx. apply Z.eqb_neq. now apply D. }
    unfold Routes.deletar_pausa, Routes.retomar_pausa. cbn [pausas com_pausas].
    rewrite G. split; reflexivity.
  - split; [|split; [reflexivity | discriminate]].
    split; [intros _ | reflexivity].
    intros p Hin E. apply (find_none _ _ F) in Hin. apply Z.eqb_neq in Hin. contradiction.
Qed.

Lemma delete_endpoint_witness :
  let r := Routes.deletar_pausa bd_aguardando 1 in
  Routes.deletar_pausa (snd r) 1 = (Routes.HTTP_404, snd r).
Proof.
  intros r.
  apply (proj2 (proj2 (delete_endpoint bd_aguardando 1)) eq_refl).
  repeat constructor. intros [].
Defined.

(* ================================================================== *)
(** * Errors and the per-ticket lookup                                 *)
(* ================================================================== *)



(** X23.  [SlaService.calcular_sla_chamado(chamado_id)], the lookup behind
    [GET /api/sla/chamado/{chamado_id}].  It returns [None] exactly when no
    ticket has the id, or the first one that has it lacks an opening
    instant, was opened before the cutover, or has no active configuration
    for its priority nor for "normal".  A result it returns is the
    evaluation of that ticket with the pauses of that ticket. *)
Theorem ticket_lookup_returns_none {mi : Minusculas} (db : BD) (now : datetime) (chamado_id_ : Z) :
  let r := SlaService.calcular_sla_chamado db now chamado_id_ in
  (r = None <->
   match find (fun c => id c =? chamado_id_) (chamados db) with
   | None => True
   | Some chamado =>
       match data_abertura chamado with
       | None => True
       | Some abertura =>
           abertura < Metrics.SLA_DATA_INICIO
           \/ Metrics.config_do_chamado db chamado = None
       end
   end)
  /\ (forall s, r = Some s ->
        exists chamado abertura cfg,
          find (fun c => id c =? chamado_id_) (chamados db) = Some chamado
          /\ id chamado = chamado_id_
          /\ data_abertura chamado = Some abertura
          /\ Metrics.SLA_DATA_INICIO <= abertura
          /\ Metrics.config_do_chamado db chamado = Some cfg
          /\ s = Metrics.avaliar now chamado abertura cfg (Metrics._pausas db chamado_id_)).
Proof.
  intros r. subst r.
  unfold SlaService.calcular_sla_chamado.
  destruct (find (fun c => id c =? chamado_id_) (chamados db)) as [c|] eqn:F.
  - pose proof (find_some _ _ F) as [_ Hid]. apply Z.eqb_eq in Hid.
    destruct (Metrics.calcular_sla_chamado db now c) as [s|] eqn:E.
    + destruct (calcular_sla_chamado_some db now c s E) as (ab & cfg & Ha & Hc & Hg & Hs).
      split.
      * rewrite Ha, Hg. split; [discriminate|]. intros [L|N]; [lia | discriminate].
      * intros s' Es. injection Es as <-. exists c, ab, cfg.
        rewrite Hid in Hs. repeat split; assumption.
    + split; [|intros s Es; discriminate].
      split; [intros _ | reflexivity].
      unfold Metrics.calcular_sla_chamado in E.
      destruct (data_abertura c) as [ab|]; [|exact I].
      destruct (Z.ltb_spec ab Metrics.SLA_DATA_INICIO) as [L|G]; [now left|].
      destruct (Metrics.config_do_chamado db c); [discriminate | now right].
  - split; [|intros s Es; discriminate].
    split; [intros _; exact I | reflexivity].
Qed.

Lemma ticket_lookup_returns_none_witness :
  SlaService.calcular_sla_chamado (com_chamados bd_alta [chamado_sem_config])
                                  (mk_datetime 2026 2 17 12 0 0) 8 = None.
Proof.
  apply (proj2 (proj1 (ticket_lookup_returns_none
                         (com_chamados bd_alta [chamado_sem_config])
                         (mk_datetime 2026 2 17 12 0 0) 8))).
  right. reflexivity.
Defined.

(* ================================================================== *)
(** * The copy of [_horas_uteis] in ti/services/metrics.py             *)
(* ================================================================== *)

Lemma ti_laco_dias (fuel : nat) (inicio fim : datetime) :
  forall current total,
    TiMetrics.laco_dias fuel inicio fim current total =
    Metrics.laco_dias fuel inicio fim current total.
Proof.
  induction fuel as [|k IH]; intros current total;
    cbn [TiMetrics.laco_dias Metrics.laco_dias]; [reflexivity|].
  destruct (current <=? date_of fim); [|reflexivity].
  rewrite IH. reflexivity.
Qed.

(** Rounding to 2 decimals moves a value by at most 0.005. *)
Lemma py_round_2_bounds (x : Q) :
  (x - (1 # 200) <= py_round x 2 <= x + (1 # 200))%Q.
Proof.
  unfold py_round.
  change (inject_Z (Z.pos (pow10 2))) with 100%Q.
  pose proof (round_half_even_bounds (x * 100)) as [Lo Hi].
  set (r := round_half_even (x * 100)) in *.
  assert (E : r # pow10 2 == inject_Z r * (1 # 100)).
  { unfold Qeq, Qmult, inject_Z. simpl. lia. }
  rewrite E. split; lra.
Qed.

Lemma ti_horas_uteis_us (a b : datetime) :
  TiMetrics._horas_uteis (Some a) (Some b) == py_round (horas (us_uteis a b)) 2.
Proof.
  unfold TiMetrics._horas_uteis, us_uteis.
  change TiMetrics.SLA_DATA_INICIO with Metrics.SLA_DATA_INICIO.
  assert (E : (if a <? Metrics.SLA_DATA_INICIO then Metrics.SLA_DATA_INICIO else a)
              = Z.max a Metrics.SLA_DATA_INICIO).
  { destruct (Z.ltb_spec a Metrics.SLA_DATA_INICIO); lia. }
  rewrite E. set (a' := Z.max a Metrics.SLA_DATA_INICIO).
  destruct (Z.geb_spec a' b) as [G|L].
  - rewrite us_entre_vazio by lia. reflexivity.
  - rewrite (py_round_comp _ (horas (us_entre a' b))); [reflexivity|].
    rewrite ti_laco_dias.
    change (Z.to_nat (date_of b - date_of a' + 1))
      with (Metrics.dias_restantes (date_of a') b).
    rewrite laco_dias_soma by lia. rewrite soma_dias_us.
    unfold us_entre, soma_entre, Metrics.dias_restantes. ring.
Qed.

(** X24.  The copy of [_horas_uteis] in ti/services/metrics.py measures
    the same business time as the one of modules/sla/metrics.py: both are
    the rounding of the same exact number of hours, the first to 2 decimals
    and the second to 4, so the two results differ by at most 0.00505 hour
    and the first is never negative. *)
Theorem ti_copy_of_horas_uteis_agrees (inicio fim : datetime) :
  let ti := TiMetrics._horas_uteis (Some inicio) (Some fim) in
  let sla := Metrics._horas_uteis (Some inicio) (Some fim) in
  ti == py_round (horas (us_uteis inicio fim)) 2
  /\ sla == py_round (horas (us_uteis inicio fim)) 4
  /\ (sla - (101 # 20000) <= ti <= sla + (101 # 20000))%Q
  /\ (0 <= ti)%Q.
Proof.
  intros ti sla.
  pose proof (ti_horas_uteis_us inicio fim) as Et.
  pose proof (horas_uteis_us inicio fim) as Es.
  fold ti in Et. fold sla in Es.
  split; [exact Et|]. split; [exact Es|].
  pose proof (py_round_2_bounds (horas (us_uteis inicio fim))) as [T1 T2].
  pose proof (py_round_4_bounds (horas (us_uteis inicio fim))) as [S1 S2].
  rewrite <- Et in T1, T2. rewrite <- Es in S1, S2.
  assert (N : (0 <= ti)%Q).
  { rewrite Et. change 0%Q with (inject_Z 0). apply py_round_ge_Z.
    change (inject_Z 0) with 0%Q. apply horas_nonneg, us_uteis_nonneg. }
  clearbody ti sla.
  set (x := horas (us_uteis inicio fim)) in *. clearbody x.
  repeat split; lra.
Qed.

(* ================================================================== *)
(** * Histories of status changes                                      *)
(* ================================================================== *)

Lemma cronologica_depois (t t' : datetime) (l : list (datetime * option datetime)) :
  t <= t' -> cronologica t l -> cronologica t' l.
Proof.
  intros H. induction l as [|[p_ini [f|]] r IH]; cbn [cronologica]; [tauto| |].
  - intros (A & B & C & D). repeat split; try lia; [exact C | now apply IH].
  - intros (A & B). split; [lia | exact B].
Qed.

Lemma cronologica_sem_sobreposicao (t now : datetime)
      (l : list (datetime * option datetime)) :
  cronologica t l -> sem_sobreposicao now l.
Proof.
  induction l as [|[p_ini [f|]] r IH]; cbn [cronologica sem_sobreposicao]; [tauto| |].
  - intros (_ & _ & C & D). split; [exact C | now apply IH].
  - intros (_ & ->). split; [intros q [] | exact I].
Qed.

Lemma pausas_de_outro (db : BD) (now : datetime) (i outro : Z) (status : string) :
  outro <> i ->
  Metrics._pausas (snd (Service.pausar_sla_chamado db now i status)) outro =
  Metrics._pausas db outro.
Proof.
  intros N. unfold Service.pausar_sla_chamado, Metrics._pausas.
  destruct (pertence status ["Aguardando"%string]).
  - destruct (find (aberta_de i) (pausas db)); [reflexivity|].
    destruct (existsb _ (chamados db)); [|reflexivity].
    cbn [snd pausas com_pausas]. rewrite filter_app. cbn [filter chamado_id].
    assert (X : (i =? outro) = false) by (apply Z.eqb_neq; congruence).
    rewrite X. now rewrite app_nil_r.
  - cbn [snd pausas com_pausas]. now rewrite fechar_todas_outro.
Qed.

(** Appending a pause that starts at [t'] to closed pauses. *)
Lemma cronologica_nova (t t' : datetime) (l : list (datetime * option datetime)) :
  t <= t' -> cronologica t l ->
  (forall q, In q l -> snd q <> None) ->
  cronologica t' (l ++ [(t', None)]).
Proof.
  intros H. induction l as [|[p_ini [f|]] r IH]; cbn [cronologica app].
  - intros _ _. split; [lia | reflexivity].
  - intros (A & B & C & D) Hc. split; [lia|]. split; [lia|]. split.
    + intros q Hq. apply in_app_or in Hq as [Hq|[<-|[]]]; [now apply C | cbn; lia].
    + apply IH; [exact D|]. intros q Hq. apply Hc. now right.
  - intros _ Hc. exfalso. apply (Hc (p_ini, None)); [now left | reflexivity].
Qed.

(** Closing the open pause at [t']. *)
Lemma cronologica_fecha (t t' : datetime) (l : list (datetime * option datetime)) :
  t <= t' -> cronologica t l ->
  cronologica t' (map (fun q => (fst q, match snd q with
                                        | Some f => Some f
                                        | None => Some t'
                                        end)) l).
Proof.
  intros H. induction l as [|[p_ini [f|]] r IH]; cbn [cronologica map fst snd]; [tauto| |].
  - intros (A & B & C & D). split; [lia|]. split; [lia|]. split.
    + intros q Hq. apply in_map_iff in Hq as (q0 & <- & Hq0). cbn [fst]. now apply C.
    + now apply IH.
  - intros (A & ->). cbn [map]. repeat split; try lia. intros q [].
Qed.

Lemma pausas_fechar_todas (i : Z) (q : datetime) (l : list SLAPausa) :
  map (fun p => (inicio p, fim p))
      (filter (fun p => chamado_id p =? i)
              (map (fun p => if aberta_de i p then fechar q p else p) l)) =
  map (fun x => (fst x, match snd x with Some f => Some f | None => Some q end))
      (map (fun p => (inicio p, fim p)) (filter (fun p => chamado_id p =? i) l)).
Proof.
  induction l as [|p l IH]; [reflexivity|]. cbn [map filter].
  destruct (aberta_de i p) eqn:A.
  - unfold aberta_de in A. apply andb_prop in A as [E A].
    destruct (fim p) as [f|] eqn:F; [discriminate|].
    cbn [fechar chamado_id]. rewrite E. cbn [map fst snd inicio fim].
    rewrite F, IH. reflexivity.
  - destruct (chamado_id p =? i) eqn:E; [|exact IH].
    cbn [map fst snd]. unfold aberta_de in A. rewrite E in A.
    destruct (fim p) as [f|] eqn:F; [|discriminate].
    rewrite IH. reflexivity.
Qed.

Lemma gancho_cronologica (db : BD) (t t' : datetime) (i j : Z) (status : string) :
  t <= t' ->
  cronologica t (Metrics._pausas db i) ->
  cronologica t' (Metrics._pausas (snd (Service.pausar_sla_chamado db t' j status)) i).
Proof.
  intros H C. destruct (Z.eq_dec i j) as [->|N].
  - unfold Service.pausar_sla_chamado.
    destruct (pertence status ["Aguardando"%string]).
    + destruct (find (aberta_de j) (pausas db)) as [p|] eqn:F; cbn [snd];
        [now apply (cronologica_depois t)|].
      destruct (existsb _ (chamados db)); cbn [snd];
        [|now apply (cronologica_depois t)].
      * unfold Metrics._pausas in *. cbn [pausas com_pausas].
        rewrite filter_app, map_app. cbn [filter chamado_id]. rewrite Z.eqb_refl.
        cbn [map inicio fim]. apply (cronologica_nova t); [exact H | exact C|].
        intros q Hq. apply in_map_iff in Hq as (p & <- & Hp).
        apply filter_In in Hp as [Hin Hid]. cbn [snd].
        pose proof (find_none _ _ F p Hin) as A. unfold aberta_de in A.
        rewrite Hid in A. cbn [andb] in A. destruct (fim p); [discriminate | discriminate].
    + cbn [snd]. unfold Metrics._pausas in *. cbn [pausas com_pausas].
      rewrite pausas_fechar_todas. now apply (cronologica_fecha t).
  - rewrite pausas_de_outro by exact N. now apply (cronologica_depois t).
Qed.

(** X25.  The status hook of service.py records pauses in chronological
    order.  When the hook is called for a history of status changes whose
    instants do not go back, on a pause table whose pauses were in
    chronological order, the pauses of every ticket, as [_pausas] of
    metrics.py reads them, are in chronological order still: each one is
    over before the next starts and only the last may be open.  So they
    never overlap, at whatever instant they are evaluated. *)
Theorem status_hook_keeps_pauses_chronological
        (mudancas : list Mudanca) (db : BD) (t : datetime) :
  (forall i, cronologica t (Metrics._pausas db i)) ->
  em_ordem t mudancas ->
  forall i,
    cronologica (ultimo_instante t mudancas) (Metrics._pausas (historico db mudancas) i)
    /\ forall now, sem_sobreposicao now (Metrics._pausas (historico db mudancas) i).
Proof.
  revert db t. induction mudancas as [|m r IH]; intros db t C O i;
    cbn [historico ultimo_instante fold_left em_ordem] in *.
  - split; [apply C|]. intros now. apply (cronologica_sem_sobreposicao t), C.
  - destruct O as [Ht Or]. apply (IH _ (fst (fst m))); [|exact Or].
    intros k. now apply (gancho_cronologica db t).
Qed.

Lemma status_hook_keeps_pauses_chronological_witness :
  let mudancas :=
    [ (mk_datetime 2026 2 16 10 0 0, 1, "Aguardando"%string);
      (mk_datetime 2026 2 16 11 0 0, 1, "Em atendimento"%string);
      (mk_datetime 2026 2 16 15 0 0, 1, "Aguardando"%string) ] in
  sem_sobreposicao (mk_datetime 2026 2 17 9 0 0)
                   (Metrics._pausas (historico bd_um_chamado mudancas) 1).
Proof.
  intros mudancas.
  refine (proj2 (status_hook_keeps_pauses_chronological
                   mudancas bd_um_chamado (mk_datetime 2026 2 16 9 0 0) _ _ 1) _).
  - intros i. exact I.
  - cbn. repeat split; vm_compute; discriminate.
Defined.
